(** * Wireless access points of the network manager

    A shallow embedding of [network/manager_accesspoint.go]: the security
    classifier, the access point objects and their registry, the activation
    of an access point and the band steering pass ([checkAPStrength]).

    Conventions.
    - Go's [uint8] and [uint32] are values of [N]; the one place where the
      source's arithmetic can wrap ([strength+20] on [uint8]) writes the
      reduction modulo 256 out.
    - Go's [string], [dbus.ObjectPath] and [[]byte] are all [string]
      (a sequence of 8-bit characters), so [string(bytes)] is the identity.
    - A [*accessPoint] is a location in a store of objects; the registry and
      the property-changed closure share objects through it.
    - What the D-Bus peers answer is a [World]; what the manager sends is
      appended to a log ([signals] for [m.service.Emit], [calls] for requests
      to NetworkManager). *)

From Stdlib Require Import NArith ZArith Bool List Lia.
From stdpp Require Import gmap strings list fin_maps.

Local Open Scope string_scope.
Local Open Scope list_scope.
Local Open Scope N_scope.

Abbreviation ObjectPath := string (only parsing).

(** ** Package [nm] *)

Module nm.

(** Modelled from the spec: package [network/nm] (the generated constants of
    NetworkManager's D-Bus interface) is not among the sources.  The spec
    calls them the privacy bit, "no security" and the 802.1X key-management
    bit; the values are the ones NetworkManager publishes
    (NM80211ApFlags, NM80211ApSecurityFlags, NMActiveConnectionState). *)
Definition NM_802_11_AP_FLAGS_PRIVACY : N := 0x1.
Definition NM_802_11_AP_SEC_NONE : N := 0x0.
Definition NM_802_11_AP_SEC_KEY_MGMT_802_1X : N := 0x200.
Definition NM_ACTIVE_CONNECTION_STATE_ACTIVATED : N := 2.
Definition NM_SETTING_WIRELESS_SETTING_NAME : string := "802-11-wireless".

End nm.

(** ** Constants of the file *)

Inductive apSecType := apSecNone | apSecWep | apSecPsk | apSecEap.

#[global] Instance apSecType_eq_dec : EqDecision apSecType.
Proof. solve_decision. Defined.

Definition channelAutoChangeThreshold : N := 65.
Definition frequency5GUpperlimit : N := 5825.
Definition frequency5GLowerlimit : N := 4915.
Definition frequency2GUpperlimit : N := 2484.
Definition frequency2GLowerlimit : N := 2412.

(** [func (v apSecType) String() string] *)
Definition apSecType_String (v : apSecType) : string :=
  match v with
  | apSecNone => "none"
  | apSecWep => "wep"
  | apSecPsk => "wpa-psk"
  | apSecEap => "wpa-eap"
  end.

(** ** The security classifier *)

(** [x & mask != 0] *)
Definition has_bits (x mask : N) : bool := negb (N.land x mask =? 0).

(** [doParseApSecType]: four assignments to [r] in the order of the source,
    each guarded by its [if]. *)
Definition doParseApSecType (flags wpaFlags rsnFlags : N) : apSecType :=
  let r := apSecNone in
  let r :=
    if has_bits flags nm.NM_802_11_AP_FLAGS_PRIVACY
       && (wpaFlags =? nm.NM_802_11_AP_SEC_NONE)
       && (rsnFlags =? nm.NM_802_11_AP_SEC_NONE)
    then apSecWep else r in
  let r := if negb (wpaFlags =? nm.NM_802_11_AP_SEC_NONE) then apSecPsk else r in
  let r := if negb (rsnFlags =? nm.NM_802_11_AP_SEC_NONE) then apSecPsk else r in
  let r :=
    if has_bits wpaFlags nm.NM_802_11_AP_SEC_KEY_MGMT_802_1X
       || has_bits rsnFlags nm.NM_802_11_AP_SEC_KEY_MGMT_802_1X
    then apSecEap else r in
  r.

(** The precedence table of the specification, as data: a rule is a guard
    and the category it assigns; the rules are listed from lowest to highest
    precedence and the classification is the category of the last rule whose
    guard holds. *)
Module PrecedenceTable.

Definition rule : Type := bool * apSecType.

Definition privacy_bit (flags : N) : bool := N.testbit flags 0.
Definition key_mgmt_802_1x_bit (f : N) : bool := N.testbit f 9.
Definition no_security (f : N) : bool := f =? 0.

Definition rules (flags wpaFlags rsnFlags : N) : list rule :=
  [ (true, apSecNone);
    (privacy_bit flags && no_security wpaFlags && no_security rsnFlags, apSecWep);
    (negb (no_security wpaFlags), apSecPsk);
    (negb (no_security rsnFlags), apSecPsk);
    (key_mgmt_802_1x_bit wpaFlags || key_mgmt_802_1x_bit rsnFlags, apSecEap) ].

Definition last_applicable (rs : list rule) : option apSecType :=
  snd <$> last (filter (fun r => Is_true (fst r)) rs).

End PrecedenceTable.

(** ** Errors *)

(** A Go [error]: [None] is [nil]. *)
Abbreviation error := (option string) (only parsing).

(** A pair [(value, err)] whose value is only read when [err == nil]. *)
Inductive result (A : Type) : Type :=
| Ok (a : A)
| Err (e : string).
Arguments Ok {A} a.
Arguments Err {A} e.

(** ** What the D-Bus peers answer *)

(** [map[string]map[string]dbus.Variant], the variants kept as text. *)
Definition connectionData : Type := gmap string (gmap string string).

(** The properties of an [org.freedesktop.NetworkManager.AccessPoint]
    object, as a [Get(0)] on each of them answers. *)
Record nmAccessPoint : Type := {
  nmap_Ssid : string;
  nmap_Ssid_err : error;
  nmap_Flags : N;
  nmap_WpaFlags : N;
  nmap_RsnFlags : N;
  nmap_Strength : N;
  nmap_Frequency : N
}.

(** [activeConnection], the three fields read here. *)
Record activeConnection : Type := {
  aconn_typ : string;
  aconn_Devices : list ObjectPath;
  aconn_Uuid : string
}.

(** [connection], the field read here. *)
Record connection : Type := {
  conn_Path : ObjectPath;
  conn_Uuid : string
}.

(** The helpers of package [network] that talk to NetworkManager
    ([nmNewAccessPoint], [decodeSsid], [nmGetActiveConnections],
    [nmGetConnectionByUuid], [getApSecTypeFromConnData], [activateConnection],
    [updateConnectionBand], ...) live in files that are not among the
    sources, and what they answer depends on the other side of the bus.
    Each is a parameter: a field of [World] gives what the helper answers
    when called; the requests that change something on the other side are
    also recorded in the manager's [calls]. *)
Record World : Type := {
  (* access point proxies *)
  nmNewAccessPoint : ObjectPath -> error;
  nmAccessPointProps : ObjectPath -> nmAccessPoint;
  decodeSsid : string -> string;
  ConnectPropertiesChanged : ObjectPath -> error;
  (* active connections *)
  nmGetActiveConnections : list ObjectPath;
  newActiveConnection : ObjectPath -> activeConnection;
  nmGetWirelessConnectionSsidByUuid : string -> string;
  (* stored profiles *)
  nmGetConnectionByUuid : string -> result ObjectPath;
  nmNewSettingsConnection : ObjectPath -> error;
  GetSettings : ObjectPath -> result connectionData;
  getApSecTypeFromConnData : connectionData -> result apSecType;
  logicSetSettingVkWirelessSecurityKeyMgmt :
    connectionData -> string -> result connectionData;
  isSettingIP6ConfigAddressesExists : connectionData -> bool;
  getSettingIP6ConfigAddresses : connectionData -> string;
  setSettingIP6ConfigAddresses : connectionData -> string -> connectionData;
  isSettingIP6ConfigRoutesExists : connectionData -> bool;
  getSettingIP6ConfigRoutes : connectionData -> string;
  setSettingIP6ConfigRoutes : connectionData -> string -> connectionData;
  Update : ObjectPath -> connectionData -> error;
  activateConnection : string -> ObjectPath -> ObjectPath * error;
  GenUuid : string;
  newWirelessConnectionData :
    string -> string -> string -> apSecType -> connectionData;
  nmAddAndActivateConnection : connectionData -> ObjectPath -> ObjectPath * error;
  (* wireless devices *)
  ActiveAccessPoint : ObjectPath -> ObjectPath;
  ActiveConnection : ObjectPath -> result ObjectPath;
  isObjPathValid : ObjectPath -> bool;
  nmNewActiveConnection : ObjectPath -> error;
  State : ObjectPath -> result N;
  Connection : ObjectPath -> result ObjectPath;
  getConnection : ObjectPath -> connection;
  updateConnectionBand : connection -> string -> error;
  RequestWirelessScan : error
}.

(** ** Access point objects *)

(** [type accessPoint struct].  [nmAp] is the proxy, that is the object path
    its property reads go to. *)
Record accessPoint : Type := {
  nmAp : ObjectPath;
  devPath : ObjectPath;
  shouldBeIgnored : bool;
  Ssid : string;
  Secured : bool;
  SecuredInEap : bool;
  Strength : N;
  Path : ObjectPath;
  Frequency : N
}.

(** The zero value of the struct. *)
Definition accessPoint_zero : accessPoint :=
  {| nmAp := ""; devPath := ""; shouldBeIgnored := false; Ssid := "";
     Secured := false; SecuredInEap := false; Strength := 0; Path := "";
     Frequency := 0 |}.

(** What [marshalJSON(ap)] serialises: the exported fields. *)
Record accessPointJSON : Type := {
  json_Ssid : string;
  json_Secured : bool;
  json_SecuredInEap : bool;
  json_Strength : N;
  json_Path : ObjectPath;
  json_Frequency : N
}.

Definition marshalJSON (a : accessPoint) : accessPointJSON :=
  {| json_Ssid := Ssid a; json_Secured := Secured a;
     json_SecuredInEap := SecuredInEap a; json_Strength := Strength a;
     json_Path := Path a; json_Frequency := Frequency a |}.

(** The signals of the manager, with the arguments of [m.service.Emit]. *)
Inductive signal : Type :=
| AccessPointAdded (dev : ObjectPath) (apJSON : accessPointJSON)
| AccessPointRemoved (dev : ObjectPath) (apJSON : accessPointJSON)
| AccessPointPropertiesChanged (dev : ObjectPath) (apJSON : accessPointJSON).

Definition is_AccessPointAdded (s : signal) : bool :=
  match s with AccessPointAdded _ _ => true | _ => false end.
Definition is_AccessPointRemoved (s : signal) : bool :=
  match s with AccessPointRemoved _ _ => true | _ => false end.
Definition is_AccessPointPropertiesChanged (s : signal) : bool :=
  match s with AccessPointPropertiesChanged _ _ => true | _ => false end.

(** [isDBusPathInArray] *)
Definition isDBusPathInArray (p : ObjectPath) (ps : list ObjectPath) : bool :=
  existsb (String.eqb p) ps.

(** [isAccessPointActivated]: the first active connection that is wireless,
    runs on the device and carries the SSID answers [true]. *)
Fixpoint isAccessPointActivated_loop (w : World) (dev : ObjectPath)
    (ssid : string) (paths : list ObjectPath) : bool :=
  match paths with
  | [] => false
  | path :: rest =>
      let aconn := newActiveConnection w path in
      if String.eqb (aconn_typ aconn) nm.NM_SETTING_WIRELESS_SETTING_NAME
         && isDBusPathInArray dev (aconn_Devices aconn)
      then
        if String.eqb ssid (nmGetWirelessConnectionSsidByUuid w (aconn_Uuid aconn))
        then true
        else isAccessPointActivated_loop w dev ssid rest
      else isAccessPointActivated_loop w dev ssid rest
  end.

Definition isAccessPointActivated (w : World) (dev : ObjectPath)
    (ssid : string) : bool :=
  isAccessPointActivated_loop w dev ssid (nmGetActiveConnections w).

(** [getApSecType] *)
Definition getApSecType (w : World) (ap : ObjectPath) : apSecType :=
  let p := nmAccessPointProps w ap in
  doParseApSecType (nmap_Flags p) (nmap_WpaFlags p) (nmap_RsnFlags p).

(** [updateProps]: every cached field is read again, then the ignore flag
    is recomputed. *)
Definition updateProps (w : World) (a : accessPoint) : accessPoint :=
  let p := nmAccessPointProps w (nmAp a) in
  let ssid := decodeSsid w (nmap_Ssid p) in
  let secured := negb (bool_decide (getApSecType w (nmAp a) = apSecNone)) in
  let securedInEap := bool_decide (getApSecType w (nmAp a) = apSecEap) in
  let strength := nmap_Strength p in
  let frequency := nmap_Frequency p in
  let ignored :=
    if (strength <? 10) && negb (strength =? 0)
       && negb (isAccessPointActivated w (devPath a) ssid)
    then true else false in
  {| nmAp := nmAp a; devPath := devPath a; shouldBeIgnored := ignored;
     Ssid := ssid; Secured := secured; SecuredInEap := securedInEap;
     Strength := strength; Path := Path a; Frequency := frequency |}.

(** ** The manager *)

(** A [*accessPoint] is a [nat], the index of the object in the store
    below. *)

(** Requests sent to NetworkManager that change something there. *)
Inductive nmCall : Type :=
| CallUpdate (cpath : ObjectPath) (connData : connectionData)
| CallActivateConnection (uuid : string) (dev : ObjectPath)
| CallAddAndActivateConnection (data : connectionData) (dev : ObjectPath)
| CallUpdateConnectionBand (conn : connection) (band : string)
| CallRequestWirelessScan.

(** The fields of [Manager] this file reads or writes, the store of the
    access point objects it allocated, and the two logs. *)
Record Manager : Type := {
  heap : list accessPoint;
  accessPoints : gmap string (list nat);
  devices_wifi : list ObjectPath;
  debugChangeAPBand : string;
  checkAPStrengthTimer : bool;
  signals : list signal;
  calls : list nmCall
}.

Definition set_heap (h : list accessPoint) (m : Manager) : Manager :=
  {| heap := h; accessPoints := accessPoints m; devices_wifi := devices_wifi m;
     debugChangeAPBand := debugChangeAPBand m;
     checkAPStrengthTimer := checkAPStrengthTimer m;
     signals := signals m; calls := calls m |}.

Definition set_accessPoints (r : gmap string (list nat)) (m : Manager) : Manager :=
  {| heap := heap m; accessPoints := r; devices_wifi := devices_wifi m;
     debugChangeAPBand := debugChangeAPBand m;
     checkAPStrengthTimer := checkAPStrengthTimer m;
     signals := signals m; calls := calls m |}.

Definition set_debugChangeAPBand (b : string) (m : Manager) : Manager :=
  {| heap := heap m; accessPoints := accessPoints m; devices_wifi := devices_wifi m;
     debugChangeAPBand := b;
     checkAPStrengthTimer := checkAPStrengthTimer m;
     signals := signals m; calls := calls m |}.

Definition set_checkAPStrengthTimer (t : bool) (m : Manager) : Manager :=
  {| heap := heap m; accessPoints := accessPoints m; devices_wifi := devices_wifi m;
     debugChangeAPBand := debugChangeAPBand m;
     checkAPStrengthTimer := t;
     signals := signals m; calls := calls m |}.

(** [m.service.Emit(m, name, devPath, apJSON)]; the error it may return is
    only logged by the callers. *)
Definition Emit (s : signal) (m : Manager) : Manager :=
  {| heap := heap m; accessPoints := accessPoints m; devices_wifi := devices_wifi m;
     debugChangeAPBand := debugChangeAPBand m;
     checkAPStrengthTimer := checkAPStrengthTimer m;
     signals := signals m ++ [s]; calls := calls m |}.

Definition call (cs : list nmCall) (m : Manager) : Manager :=
  {| heap := heap m; accessPoints := accessPoints m; devices_wifi := devices_wifi m;
     debugChangeAPBand := debugChangeAPBand m;
     checkAPStrengthTimer := checkAPStrengthTimer m;
     signals := signals m; calls := calls m ++ cs |}.

(** [*p] for a pointer the manager holds; these always point into the
    store, [accessPoint_zero] stands for a dereference that cannot happen. *)
Definition deref (m : Manager) (p : nat) : accessPoint :=
  default accessPoint_zero (heap m !! p).

(** An assignment through the pointer. *)
Definition store (p : nat) (a : accessPoint) (m : Manager) : Manager :=
  set_heap (<[p := a]> (heap m)) m.

(** [&accessPoint{...}] *)
Definition alloc (a : accessPoint) (m : Manager) : nat * Manager :=
  (length (heap m), set_heap (heap m ++ [a]) m).

(** [m.accessPoints[dev]]: a missing key reads as the nil slice. *)
Definition apsOf (m : Manager) (dev : ObjectPath) : list nat :=
  default [] (accessPoints m !! dev).

(** *** Looking an access point up *)

(** The inner loop of [getAccessPointIndex]: the index of the first object
    of the slice whose [Path] is [apPath], counted from [i]. *)
Fixpoint indexOfPath (m : Manager) (apPath : ObjectPath) (aps : list nat)
    (i : Z) : option Z :=
  match aps with
  | [] => None
  | p :: rest =>
      if String.eqb (Path (deref m p)) apPath then Some i
      else indexOfPath m apPath rest (i + 1)%Z
  end.

(** The outer loop, over the entries of the map in the order they are
    visited. *)
Fixpoint getAccessPointIndex_loop (m : Manager) (apPath : ObjectPath)
    (entries : list (string * list nat)) : ObjectPath * Z :=
  match entries with
  | [] => ("", (-1)%Z)
  | (d, aps) :: rest =>
      match indexOfPath m apPath aps 0%Z with
      | Some i => (d, i)
      | None => getAccessPointIndex_loop m apPath rest
      end
  end.

(** [getAccessPointIndex].  Go visits a map in an unspecified order;
    [map_to_list] fixes one. *)
Definition getAccessPointIndex (m : Manager) (apPath : ObjectPath)
    : ObjectPath * Z :=
  getAccessPointIndex_loop m apPath (map_to_list (accessPoints m)).

(** [isAccessPointExists] *)
Definition isAccessPointExists (m : Manager) (apPath : ObjectPath) : bool :=
  (0 <=? snd (getAccessPointIndex m apPath))%Z.

(** *** Creating and destroying *)

(** The closure [newAccessPoint] connects to the [PropertiesChanged] signal
    of the proxy, run for the object [p] it captured.  The captured
    [devPath] and [apPath] are the object's [devPath] and [Path], which are
    never assigned after the object is built.  ([updatePropWirelessAccessPoints],
    which refreshes a property of the manager kept in another file, is left
    out.) *)
Definition onPropertiesChanged (w : World) (p : nat) (m : Manager) : Manager :=
  let ap := deref m p in
  if negb (isAccessPointExists m (Path ap)) then m
  else
    let ignoredBefore := shouldBeIgnored ap in
    let ap := updateProps w ap in
    let m := store p ap m in
    let ignoredNow := shouldBeIgnored ap in
    let apJSON := marshalJSON ap in
    if Bool.eqb ignoredNow ignoredBefore then
      if ignoredNow then m
      else Emit (AccessPointPropertiesChanged (devPath ap) apJSON) m
    else
      if ignoredNow then Emit (AccessPointRemoved (devPath ap) apJSON) m
      else Emit (AccessPointAdded (devPath ap) apJSON) m.

(** [newAccessPoint].  The result is [(ap, err)]; the callers read [ap]
    only when [err == nil], so it is [Ok ap] or [Err err].  [err] is the
    named result: the error of [ConnectPropertiesChanged] is assigned to it
    and, nothing assigning it afterwards, is what the final [return] gives
    back. *)
Definition newAccessPoint (w : World) (dev apPath : ObjectPath) (m : Manager)
    : result nat * Manager :=
  match nmNewAccessPoint w apPath with
  | Some e => (Err e, m)
  | None =>
      let ap :=
        {| nmAp := apPath; devPath := dev; shouldBeIgnored := false;
           Ssid := ""; Secured := false; SecuredInEap := false;
           Strength := 0; Path := apPath; Frequency := 0 |} in
      let ap := updateProps w ap in
      let '(p, m) := alloc ap m in
      if (String.length (Ssid ap) =? 0)%nat
      then (Err "ignore hidden access point", m)
      else
        let err := ConnectPropertiesChanged w apPath in
        let m :=
          if shouldBeIgnored ap then m
          else Emit (AccessPointAdded dev (marshalJSON ap)) m in
        match err with
        | Some e => (Err e, m)
        | None => (Ok p, m)
        end
  end.

(** [destroyAccessPoint]: the signal; releasing the proxy
    ([nmDestroyAccessPoint]) leaves no trace here. *)
Definition destroyAccessPoint (p : nat) (m : Manager) : Manager :=
  let ap := deref m p in
  Emit (AccessPointRemoved (devPath ap) (marshalJSON ap)) m.

(** *** The registry *)

(** [clearAccessPoints]: the two nested loops, then a fresh map. *)
Definition clearAccessPoints (m : Manager) : Manager :=
  let m :=
    fold_left
      (fun m (entry : string * list nat) =>
         fold_left (fun m p => destroyAccessPoint p m) (snd entry) m)
      (map_to_list (accessPoints m)) m in
  set_accessPoints ∅ m.

(** [initAccessPoints] *)
Definition initAccessPoints (w : World) (dev : ObjectPath)
    (apPaths : list ObjectPath) (m : Manager) : Manager :=
  let '(aps, m) :=
    fold_left
      (fun (acc : list nat * Manager) apPath =>
         let '(aps, m) := acc in
         match newAccessPoint w dev apPath m with
         | (Err _, m) => (aps, m)
         | (Ok p, m) => (aps ++ [p], m)
         end)
      apPaths ([], m) in
  set_accessPoints (<[dev := aps]> (accessPoints m)) m.

(** [addAccessPoint] *)
Definition addAccessPoint (w : World) (dev apPath : ObjectPath) (m : Manager)
    : Manager :=
  if isAccessPointExists m apPath then m
  else
    match newAccessPoint w dev apPath m with
    | (Err _, m) => m
    | (Ok p, m) =>
        set_accessPoints (<[dev := apsOf m dev ++ [p]]> (accessPoints m)) m
    end.

(** The loop of [GetAccessPoints]: the objects of the device that are not
    ignored, appended one by one. *)
Definition filteredAccessPoints (m : Manager) (path : ObjectPath) : list nat :=
  fold_left
    (fun filtered p =>
       if negb (shouldBeIgnored (deref m p)) then filtered ++ [p]
       else filtered)
    (apsOf m path) [].

(** [GetAccessPoints]: the result is what [marshalJSON] is given, one
    serialised object per pointer. *)
Definition GetAccessPoints (m : Manager) (path : ObjectPath)
    : list accessPointJSON :=
  map (fun p => marshalJSON (deref m p)) (filteredAccessPoints m path).

(** ** Activating an access point *)

(** [fixApSecTypeChange]: the result is [(needUserEdit, err)], with the
    requests it sent. *)
Definition fixApSecTypeChange (w : World) (uuid : string) (secType : apSecType)
    : list nmCall * (bool * error) :=
  match nmGetConnectionByUuid w uuid with
  | Err e => ([], (false, Some e))
  | Ok cpath =>
  match nmNewSettingsConnection w cpath with
  | Some e => ([], (false, Some e))
  | None =>
  match GetSettings w cpath with
  | Err e => ([], (false, Some e))
  | Ok connData =>
  match getApSecTypeFromConnData w connData with
  | Err _ => ([], (false, None))
  | Ok secTypeOld =>
      if bool_decide (secTypeOld = secType) then ([], (false, None))
      else
        let set keyMgmt :=
          match logicSetSettingVkWirelessSecurityKeyMgmt w connData keyMgmt with
          | Err e => ([], (false, Some e))
          | Ok connData =>
              let connData :=
                if isSettingIP6ConfigAddressesExists w connData
                then setSettingIP6ConfigAddresses w connData
                       (getSettingIP6ConfigAddresses w connData)
                else connData in
              let connData :=
                if isSettingIP6ConfigRoutesExists w connData
                then setSettingIP6ConfigRoutes w connData
                       (getSettingIP6ConfigRoutes w connData)
                else connData in
              ([CallUpdate cpath connData], (false, Update w cpath connData))
          end in
        match secType with
        | apSecNone => set "none"
        | apSecWep => set "wep"
        | apSecPsk => set "wpa-psk"
        | apSecEap => ([], (true, None))
        end
  end end end end.

(** [activateAccessPoint]: the result is [(cpath, err)], with the requests
    it sent. *)
Definition activateAccessPoint (w : World) (uuid : string)
    (apPath dev : ObjectPath) : list nmCall * (ObjectPath * error) :=
  let cpath := "/" in
  match nmNewAccessPoint w apPath with
  | Some e => ([], (cpath, Some e))
  | None =>
      let secType := getApSecType w apPath in
      if negb (String.eqb uuid "") then
        let '(sent, (needUserEdit, err)) := fixApSecTypeChange w uuid secType in
        match err with
        | Some e => (sent, (cpath, Some e))
        | None =>
            if needUserEdit then (sent, (cpath, Some "need user edit"))
            else (sent ++ [CallActivateConnection uuid dev],
                  activateConnection w uuid dev)
        end
      else
        let uuid := GenUuid w in
        let p := nmAccessPointProps w apPath in
        match nmap_Ssid_err p with
        | Some e => ([], (cpath, Some e))
        | None =>
            let ssid := nmap_Ssid p in
            let data :=
              newWirelessConnectionData w (decodeSsid w ssid) uuid ssid secType in
            ([CallAddAndActivateConnection data dev],
             nmAddAndActivateConnection w data dev)
        end
  end.

(** [ActivateAccessPoint], the exported method. *)
Definition ActivateAccessPoint (w : World) (uuid : string)
    (apPath dev : ObjectPath) (m : Manager) : (ObjectPath * error) * Manager :=
  let '(sent, (cpath, err)) := activateAccessPoint w uuid apPath dev in
  match err with
  | Some e => (("/", Some e), call sent m)
  | None => ((cpath, None), call sent m)
  end.

(** ** Band steering *)

(** [DebugChangeAPChannel] *)
Definition DebugChangeAPChannel (w : World) (band : string) (m : Manager)
    : error * Manager :=
  if negb (String.eqb band "a") && negb (String.eqb band "bg")
  then (Some "band input error", m)
  else
    let m := call [CallRequestWirelessScan] m in
    match RequestWirelessScan w with
    | Some e => (Some e, m)
    | None => (None, set_debugChangeAPBand band m)
    end.

Definition in5G (freq : N) : bool :=
  (frequency5GLowerlimit <=? freq) && (freq <=? frequency5GUpperlimit).

Definition in2G (freq : N) : bool :=
  (frequency2GLowerlimit <=? freq) && (freq <=? frequency2GUpperlimit).

(** The inner loop of [findAPByBand], run when [band] is not empty: the
    first object of the slice that matches, [apNow] kept when there is none. *)
Fixpoint findAPByBand_inner (ssid band : string) (aps : list accessPoint)
    (apNow : option accessPoint) : option accessPoint :=
  match aps with
  | [] => apNow
  | ap :: rest =>
      if String.eqb (Ssid ap) ssid && String.eqb band "a" && in5G (Frequency ap)
      then Some ap
      else if String.eqb (Ssid ap) ssid && String.eqb band "bg"
              && in2G (Frequency ap)
      then Some ap
      else findAPByBand_inner ssid band rest apNow
  end.

(** The outer loop of [findAPByBand] over [todo], with the two variables it
    assigns; [accessPoints] is the whole slice, which the inner loop walks
    again at every step. *)
Fixpoint findAPByBand_loop (ssid band : string) (accessPoints todo : list accessPoint)
    (apNow : option accessPoint) (strengthMax : N) : option accessPoint :=
  match todo with
  | [] => apNow
  | ap :: rest =>
      if String.eqb band "" then
        if String.eqb (Ssid ap) ssid && (strengthMax <? Strength ap)
        then findAPByBand_loop ssid band accessPoints rest (Some ap) (Strength ap)
        else findAPByBand_loop ssid band accessPoints rest apNow strengthMax
      else
        findAPByBand_loop ssid band accessPoints rest
          (findAPByBand_inner ssid band accessPoints apNow) strengthMax
  end.

(** [findAPByBand].  The objects are read, never written, so the slice of
    pointers is passed dereferenced. *)
Definition findAPByBand (ssid : string) (accessPoints : list accessPoint)
    (band : string) : option accessPoint :=
  findAPByBand_loop ssid band accessPoints accessPoints None 0.

(** [getBandByFrequency] *)
Definition getBandByFrequency (freq : N) : string :=
  if in5G freq then "a"
  else if in2G freq then "bg"
  else "unknown".

(** The search [checkAPStrength] runs for a device: [findAPByBand] on
    [m.accessPoints[dev.Path]], the slice as the registry holds it. *)
Definition steeringCandidate (m : Manager) (ssid : string) (dev : ObjectPath)
    (band : string) : option accessPoint :=
  findAPByBand ssid (map (deref m) (apsOf m dev)) band.

(** [a + b] on [uint8]. *)
Definition add_uint8 (a b : N) : N := (a + b) mod 256.

(** The body of the loop of [checkAPStrength] for one device: the value of
    [band] it leaves for the next device and the requests it sent; no
    request is what every [continue] before the profile is touched leaves.
    (The error of [nmNewAccessPoint] for the active access point is dropped
    by the source; its properties are read as the proxy answers.) *)
Definition checkAPStrength_device (w : World) (m : Manager) (band : string)
    (dev : ObjectPath) : string * list nmCall :=
  let apPath := ActiveAccessPoint w dev in
  let p := nmAccessPointProps w apPath in
  let frequency := nmap_Frequency p in
  let strength := nmap_Strength p in
  let ssid := nmap_Ssid p in
  match ActiveConnection w dev with
  | Err _ => (band, [])
  | Ok aPath =>
  if negb (isObjPathValid w aPath) then (band, []) else
  match nmNewActiveConnection w aPath with
  | Some _ => (band, [])
  | None =>
  match State w aPath with
  | Err _ => (band, [])
  | Ok state =>
  if negb (state =? nm.NM_ACTIVE_CONNECTION_STATE_ACTIVATED) then (band, []) else
  if String.eqb band ""
     && ((channelAutoChangeThreshold <? strength) && in5G frequency)
  then (band, []) else
  match steeringCandidate m (decodeSsid w ssid) dev band with
  | None => (band, [])
  | Some apNow =>
  if String.eqb (Path apNow) apPath then (band, []) else
  let chosen : option string :=
    if String.eqb band "" then
      if Strength apNow <? add_uint8 strength 20 then None
      else if in5G (Frequency apNow) then Some "a" else Some "bg"
    else Some band in
  match chosen with
  | None => (band, [])
  | Some band =>
  if String.eqb band (getBandByFrequency frequency) then (band, []) else
  match Connection w aPath with
  | Err _ => (band, [])
  | Ok connPath =>
  let conn := getConnection w connPath in
  match updateConnectionBand w conn band with
  | Some _ => (band, [CallUpdateConnectionBand conn band])
  | None =>
      let '(sent, _) := activateAccessPoint w (conn_Uuid conn) (Path apNow) dev in
      (band, CallUpdateConnectionBand conn band :: sent)
  end end end end end end end.

(** The loop over the wireless devices: [band] is declared before the loop
    and carried from one device to the next; the requests of each device
    are kept with its path. *)
Fixpoint checkAPStrength_loop (w : World) (m : Manager) (band : string)
    (devs : list ObjectPath) : list (ObjectPath * list nmCall) :=
  match devs with
  | [] => []
  | dev :: rest =>
      let '(band, sent) := checkAPStrength_device w m band dev in
      (dev, sent) :: checkAPStrength_loop w m band rest
  end.

(** The requests a pass sends, device by device. *)
Definition checkAPStrength_trace (w : World) (m : Manager)
    : list (ObjectPath * list nmCall) :=
  checkAPStrength_loop w m (debugChangeAPBand m) (devices_wifi m).

(** [checkAPStrength] *)
Definition checkAPStrength (w : World) (m : Manager) : Manager :=
  let trace := checkAPStrength_trace w m in
  let m := set_debugChangeAPBand "" m in
  let m := set_checkAPStrengthTimer false m in
  call (concat (map snd trace)) m.

(** ** Removing an access point *)

(** [doRemoveAccessPoint]: the object at index [i] is destroyed and the
    slice closed over it ([copy], then one element shorter), the others in
    their order.  [aps[i]] with [i] outside the slice is a run-time panic:
    [None]. *)
Definition doRemoveAccessPoint (aps : list nat) (i : Z) (m : Manager)
    : option (list nat * Manager) :=
  if (i <? 0)%Z then None
  else
    match aps !! Z.to_nat i with
    | None => None
    | Some p => Some (delete (Z.to_nat i) aps, destroyAccessPoint p m)
    end.

(** [removeAccessPoint]: the index comes from [getAccessPointIndex], which
    searches every device; the slice it is applied to is the one of
    [devPath]. *)
Definition removeAccessPoint (dev apPath : ObjectPath) (m : Manager)
    : option Manager :=
  if negb (isAccessPointExists m apPath) then Some m
  else
    let i := snd (getAccessPointIndex m apPath) in
    match doRemoveAccessPoint (apsOf m dev) i m with
    | None => None
    | Some (aps, m) =>
        Some (set_accessPoints (<[dev := aps]> (accessPoints m)) m)
    end.

(** ** Scenarios

    Concrete worlds and managers, used to run the definitions above. *)

Module Scenario.

Definition props (ssid : string) (flags wpaFlags rsnFlags strength frequency : N)
    : nmAccessPoint :=
  {| nmap_Ssid := ssid; nmap_Ssid_err := None; nmap_Flags := flags;
     nmap_WpaFlags := wpaFlags; nmap_RsnFlags := rsnFlags;
     nmap_Strength := strength; nmap_Frequency := frequency |}.

(** Looks a key up in a table, with a default. *)
Fixpoint assoc {A : Type} (d : A) (table : list (string * A)) (k : string) : A :=
  match table with
  | [] => d
  | (k', a) :: rest => if String.eqb k k' then a else assoc d rest k
  end.

(** A world where every helper succeeds: the access points answer [aps], a
    subscription to their signals answers [subscribe], the active
    connections are [active] (each with the SSID of its profile), every
    stored profile has the key management [stored], and every wireless
    device is on the access point and on the active connection [onDevice]
    gives, in the activated state. *)
Definition world (aps : list (string * nmAccessPoint))
    (subscribe : ObjectPath -> error)
    (active : list (string * (activeConnection * string)))
    (stored : apSecType)
    (onDevice : list (string * (ObjectPath * ObjectPath))) : World :=
  let none_conn := {| aconn_typ := ""; aconn_Devices := []; aconn_Uuid := "" |} in
  {| nmNewAccessPoint := fun _ => None;
     nmAccessPointProps := assoc (props "" 0 0 0 0 0) aps;
     decodeSsid := fun ssid => ssid;
     ConnectPropertiesChanged := subscribe;
     nmGetActiveConnections := map fst active;
     newActiveConnection := fun path => fst (assoc (none_conn, "") active path);
     nmGetWirelessConnectionSsidByUuid :=
       fun uuid =>
         assoc "" (map (fun c => (aconn_Uuid (fst (snd c)), snd (snd c))) active) uuid;
     nmGetConnectionByUuid := fun uuid => Ok ("/settings/" ++ uuid)%string;
     nmNewSettingsConnection := fun _ => None;
     GetSettings := fun _ => Ok ∅;
     getApSecTypeFromConnData := fun _ => Ok stored;
     logicSetSettingVkWirelessSecurityKeyMgmt :=
       fun data keyMgmt =>
         Ok (<["802-11-wireless-security" := {["key-mgmt" := keyMgmt]}]> data);
     isSettingIP6ConfigAddressesExists := fun _ => false;
     getSettingIP6ConfigAddresses := fun _ => "";
     setSettingIP6ConfigAddresses := fun data _ => data;
     isSettingIP6ConfigRoutesExists := fun _ => false;
     getSettingIP6ConfigRoutes := fun _ => "";
     setSettingIP6ConfigRoutes := fun data _ => data;
     Update := fun _ _ => None;
     activateConnection := fun uuid _ => (("/active/" ++ uuid)%string, None);
     GenUuid := "00000000-0000-0000-0000-000000000001";
     newWirelessConnectionData := fun _ _ _ _ => ∅;
     nmAddAndActivateConnection := fun _ _ => ("/active/new", None);
     ActiveAccessPoint := fun dev => fst (assoc ("/", "/") onDevice dev);
     ActiveConnection := fun dev => Ok (snd (assoc ("/", "/") onDevice dev));
     isObjPathValid := fun path => negb (String.eqb path "/");
     nmNewActiveConnection := fun _ => None;
     State := fun _ => Ok nm.NM_ACTIVE_CONNECTION_STATE_ACTIVATED;
     Connection := fun aPath => Ok ("/settings" ++ aPath)%string;
     getConnection :=
       fun connPath => {| conn_Path := connPath; conn_Uuid := connPath |};
     updateConnectionBand := fun _ _ => None;
     RequestWirelessScan := None |}.

(** A manager with the objects [objs] in its store, the registry [registry]
    and the wireless devices [devs]; nothing sent yet. *)
Definition manager (objs : list accessPoint)
    (registry : list (string * list nat)) (devs : list ObjectPath) : Manager :=
  {| heap := objs; accessPoints := list_to_map registry; devices_wifi := devs;
     debugChangeAPBand := ""; checkAPStrengthTimer := false;
     signals := []; calls := [] |}.

(** An access point object as [newAccessPoint] builds it in world [w]. *)
Definition object (w : World) (dev apPath : ObjectPath) : accessPoint :=
  updateProps w
    {| nmAp := apPath; devPath := dev; shouldBeIgnored := false;
       Ssid := ""; Secured := false; SecuredInEap := false;
       Strength := 0; Path := apPath; Frequency := 0 |}.

End Scenario.

(** ** Specification-side notions *)

(** [ssid] is the SSID of a connection currently activated on [dev]: some
    active connection is wireless, runs on the device and has a profile with
    that SSID. *)
Definition activatedOn (w : World) (dev : ObjectPath) (ssid : string) : Prop :=
  exists path,
    path ∈ nmGetActiveConnections w
    /\ aconn_typ (newActiveConnection w path) = nm.NM_SETTING_WIRELESS_SETTING_NAME
    /\ dev ∈ aconn_Devices (newActiveConnection w path)
    /\ ssid = nmGetWirelessConnectionSsidByUuid w
                (aconn_Uuid (newActiveConnection w path)).

(** The signals an operation emitted: those of the manager after it, past
    the ones the manager before it already held. *)
Definition emitted (before after : Manager) : list signal :=
  drop (length (signals before)) (signals after).

(** Every pointer the registry holds, device after device. *)
Definition registered (m : Manager) : list nat :=
  concat (map snd (map_to_list (accessPoints m))).

(** The number N of visible and the number M of ignored access points of
    the registry. *)
Definition visibleCount (m : Manager) : nat :=
  length (List.filter (fun p => negb (shouldBeIgnored (deref m p))) (registered m)).

Definition ignoredCount (m : Manager) : nat :=
  length (List.filter (fun p => shouldBeIgnored (deref m p)) (registered m)).

(** The signal [destroyAccessPoint] emits for a pointer. *)
Definition removedSignal (m : Manager) (p : nat) : signal :=
  AccessPointRemoved (devPath (deref m p)) (marshalJSON (deref m p)).

(** Several [Emit]s in a row. *)
Definition emitAll (ss : list signal) (m : Manager) : Manager :=
  {| heap := heap m; accessPoints := accessPoints m; devices_wifi := devices_wifi m;
     debugChangeAPBand := debugChangeAPBand m;
     checkAPStrengthTimer := checkAPStrengthTimer m;
     signals := signals m ++ ss; calls := calls m |}.

(** The highest strength among the access points of [ssid]; 0 when there
    is none. *)
Fixpoint maxStrength (ssid : string) (aps : list accessPoint) : N :=
  match aps with
  | [] => 0
  | ap :: rest =>
      if String.eqb (Ssid ap) ssid
      then N.max (Strength ap) (maxStrength ssid rest)
      else maxStrength ssid rest
  end.

(** The access point of [ssid] with the highest strength, the first of
    them in the order of the list when several have it; none when that
    strength is 0. *)
Definition strongest (ssid : string) (aps : list accessPoint)
    : option accessPoint :=
  if 0 <? maxStrength ssid aps
  then List.find
         (fun ap => String.eqb (Ssid ap) ssid
                    && (Strength ap =? maxStrength ssid aps)) aps
  else None.

(** The first access point of [ssid] whose frequency is in a band. *)
Definition firstInBand (inBand : N -> bool) (ssid : string)
    (aps : list accessPoint) : option accessPoint :=
  List.find (fun ap => String.eqb (Ssid ap) ssid && inBand (Frequency ap)) aps.

(** The visible access points of a device: what [GetAccessPoints] lists. *)
Definition visibleAccessPoints (m : Manager) (dev : ObjectPath)
    : list accessPoint :=
  map (deref m) (filteredAccessPoints m dev).

(** The object [newAccessPoint] builds for a path, before it is stored. *)
Definition builtObject (w : World) (dev apPath : ObjectPath) : accessPoint :=
  updateProps w
    {| nmAp := apPath; devPath := dev; shouldBeIgnored := false;
       Ssid := ""; Secured := false; SecuredInEap := false;
       Strength := 0; Path := apPath; Frequency := 0 |}.

(** The invariant of the registry: every pointer it holds points into the
    store; a path occurs at most once in the whole registry, whatever the
    device; and every object is held under the device it was built for. *)
Record registryOK (m : Manager) : Prop := {
  pointers_valid :
    forall d aps p,
      accessPoints m !! d = Some aps -> p ∈ aps -> (p < length (heap m))%nat;
  paths_unique :
    forall d1 d2 aps1 aps2 i j p q,
      accessPoints m !! d1 = Some aps1 -> accessPoints m !! d2 = Some aps2 ->
      aps1 !! i = Some p -> aps2 !! j = Some q ->
      Path (deref m p) = Path (deref m q) -> d1 = d2 /\ i = j;
  devices_own :
    forall d aps p,
      accessPoints m !! d = Some aps -> p ∈ aps -> devPath (deref m p) = d
}.

(** [newAccessPoint] hands an object back for the path: the proxy is
    created, the SSID is not empty and the subscription to its property
    changes works. *)
Definition accepted (w : World) (dev apPath : ObjectPath) : bool :=
  match nmNewAccessPoint w apPath with
  | Some _ => false
  | None =>
      negb (String.eqb (Ssid (builtObject w dev apPath)) "")
      && match ConnectPropertiesChanged w apPath with
         | Some _ => false
         | None => true
         end
  end.

(** [newAccessPoint] emits AccessPointAdded for the path: the proxy is
    created, the SSID is not empty and the object is not ignored. *)
Definition announced (w : World) (dev apPath : ObjectPath) : bool :=
  match nmNewAccessPoint w apPath with
  | Some _ => false
  | None =>
      negb (String.eqb (Ssid (builtObject w dev apPath)) "")
      && negb (shouldBeIgnored (builtObject w dev apPath))
  end.

(** The signal [newAccessPoint] emits for a path. *)
Definition addedSignal (w : World) (dev apPath : ObjectPath) : signal :=
  AccessPointAdded dev (marshalJSON (builtObject w dev apPath)).

(** The settings [fixApSecTypeChange] sends back after it changed the key
    management: the IPv6 addresses and the IPv6 routes are read and written
    again, each when present. *)
Definition reserializedIP6 (w : World) (connData : connectionData)
    : connectionData :=
  let connData :=
    if isSettingIP6ConfigAddressesExists w connData
    then setSettingIP6ConfigAddresses w connData
           (getSettingIP6ConfigAddresses w connData)
    else connData in
  if isSettingIP6ConfigRoutesExists w connData
  then setSettingIP6ConfigRoutes w connData (getSettingIP6ConfigRoutes w connData)
  else connData.

(** * Properties *)

(** ** The security classifier *)

Lemma has_bits_pow2 (x n : N) : has_bits x (2 ^ n) = N.testbit x n.
Proof.
  unfold has_bits.
  destruct (N.testbit x n) eqn:Hbit.
  - apply negb_true_iff, N.eqb_neq. intros Hz.
    assert (Hn : N.testbit (N.land x (2 ^ n)) n = true).
    { rewrite N.land_spec, Hbit, N.pow2_bits_true. reflexivity. }
    rewrite Hz, N.bits_0 in Hn. discriminate.
  - apply negb_false_iff, N.eqb_eq, N.bits_inj. intros k.
    rewrite N.land_spec, N.bits_0, N.pow2_bits_eqb.
    destruct (N.eqb_spec n k) as [->|_].
    + rewrite Hbit. reflexivity.
    + apply andb_false_r.
Qed.

Lemma has_privacy_bit (flags : N) :
  has_bits flags nm.NM_802_11_AP_FLAGS_PRIVACY = N.testbit flags 0.
Proof. exact (has_bits_pow2 flags 0). Qed.

Lemma has_802_1x_bit (f : N) :
  has_bits f nm.NM_802_11_AP_SEC_KEY_MGMT_802_1X = N.testbit f 9.
Proof. exact (has_bits_pow2 f 9). Qed.

(** C1: the classifier is a function of the three bitfields, and on every
    triple its result is the category of the last rule of the precedence
    table whose guard holds (default None; Wep; Psk for wpaFlags; Psk for
    rsnFlags; Eap).  In particular the privacy bit with both other fields
    equal to "no security" gives Wep, and the 802.1X bit in either field
    gives Eap whatever the other bits are. *)
Theorem doParseApSecType_precedence_table (flags wpaFlags rsnFlags : N) :
  PrecedenceTable.last_applicable
    (PrecedenceTable.rules flags wpaFlags rsnFlags)
  = Some (doParseApSecType flags wpaFlags rsnFlags)
  /\ (N.testbit flags 0 = true ->
      doParseApSecType flags nm.NM_802_11_AP_SEC_NONE nm.NM_802_11_AP_SEC_NONE
      = apSecWep)
  /\ (N.testbit wpaFlags 9 = true \/ N.testbit rsnFlags 9 = true ->
      doParseApSecType flags wpaFlags rsnFlags = apSecEap).
Proof.
  unfold doParseApSecType, PrecedenceTable.last_applicable,
    PrecedenceTable.rules, PrecedenceTable.privacy_bit,
    PrecedenceTable.key_mgmt_802_1x_bit, PrecedenceTable.no_security.
  rewrite !has_privacy_bit, !has_802_1x_bit.
  change nm.NM_802_11_AP_SEC_NONE with 0.
  split; [|split].
  - destruct (N.testbit flags 0), (wpaFlags =? 0), (rsnFlags =? 0),
      (N.testbit wpaFlags 9), (N.testbit rsnFlags 9); reflexivity.
  - intros ->. reflexivity.
  - intros [-> | ->]; rewrite ?orb_true_r; reflexivity.
Qed.

(** The table at the two examples of the specification. *)
Lemma doParseApSecType_precedence_table_witness :
  doParseApSecType 1 0 0 = apSecWep /\ doParseApSecType 0 2 512 = apSecEap.
Proof.
  split.
  - apply (doParseApSecType_precedence_table 1 0 0). reflexivity.
  - apply (doParseApSecType_precedence_table 0 2 512). right. reflexivity.
Defined.


(** ** The ignore flag and the listing *)

Lemma isDBusPathInArray_elem_of (p : string) (ps : list string) :
  isDBusPathInArray p ps = true <-> p ∈ ps.
Proof.
  unfold isDBusPathInArray. rewrite existsb_exists. split.
  - intros (q & Hq & Heq). apply String.eqb_eq in Heq. subst q.
    apply list_elem_of_In. exact Hq.
  - intros Hp. exists p. split.
    + apply list_elem_of_In. exact Hp.
    + apply String.eqb_refl.
Qed.

Lemma isAccessPointActivated_loop_spec (w : World) (dev ssid : string)
    (paths : list string) :
  isAccessPointActivated_loop w dev ssid paths = true <->
  exists path,
    path ∈ paths
    /\ aconn_typ (newActiveConnection w path) = nm.NM_SETTING_WIRELESS_SETTING_NAME
    /\ dev ∈ aconn_Devices (newActiveConnection w path)
    /\ ssid = nmGetWirelessConnectionSsidByUuid w
                (aconn_Uuid (newActiveConnection w path)).
Proof.
  induction paths as [|path rest IH]; simpl.
  - split; [discriminate|]. intros (q & Hq & _). inversion Hq.
  - destruct (String.eqb_spec (aconn_typ (newActiveConnection w path))
                nm.NM_SETTING_WIRELESS_SETTING_NAME) as [Htyp|Htyp]; simpl.
    + destruct (isDBusPathInArray dev (aconn_Devices (newActiveConnection w path)))
        eqn:Hdev.
      * destruct (String.eqb_spec ssid
          (nmGetWirelessConnectionSsidByUuid w
             (aconn_Uuid (newActiveConnection w path)))) as [Hssid|Hssid].
        -- split; [intros _|reflexivity]. exists path.
           apply isDBusPathInArray_elem_of in Hdev.
           repeat split; [left|assumption..].
        -- rewrite IH. split.
           ++ intros (q & Hq & H). exists q. split; [right|]; assumption.
           ++ intros (q & Hq & H1 & H2 & H3).
              apply elem_of_cons in Hq as [->|Hq]; [contradiction|].
              exists q. repeat split; assumption.
      * rewrite IH. split.
        -- intros (q & Hq & H). exists q. split; [right|]; assumption.
        -- intros (q & Hq & H1 & H2 & H3).
           apply elem_of_cons in Hq as [->|Hq].
           ++ apply isDBusPathInArray_elem_of in H2. congruence.
           ++ exists q. repeat split; assumption.
    + rewrite IH. split.
      * intros (q & Hq & H). exists q. split; [right|]; assumption.
      * intros (q & Hq & H1 & H2 & H3).
        apply elem_of_cons in Hq as [->|Hq]; [contradiction|].
        exists q. repeat split; assumption.
Qed.

Lemma isAccessPointActivated_spec (w : World) (dev ssid : string) :
  isAccessPointActivated w dev ssid = true <-> activatedOn w dev ssid.
Proof. apply isAccessPointActivated_loop_spec. Qed.

(** The loop that appends one pointer at a time is a filter. *)
Lemma filteredAccessPoints_loop (keep : nat -> bool) (aps acc : list nat) :
  fold_left (fun filtered p => if keep p then filtered ++ [p] else filtered) aps acc
  = acc ++ List.filter keep aps.
Proof.
  revert acc. induction aps as [|p aps IH]; intros acc; simpl.
  - rewrite app_nil_r. reflexivity.
  - rewrite IH. destruct (keep p); [|reflexivity].
    rewrite <- app_assoc. reflexivity.
Qed.

Lemma filteredAccessPoints_filter (m : Manager) (dev : string) :
  filteredAccessPoints m dev
  = List.filter (fun p => negb (shouldBeIgnored (deref m p))) (apsOf m dev).
Proof. unfold filteredAccessPoints. apply filteredAccessPoints_loop. Qed.

Lemma shouldBeIgnored_updateProps (w : World) (a : accessPoint) :
  shouldBeIgnored (updateProps w a)
  = (Strength (updateProps w a) <? 10)
    && negb (Strength (updateProps w a) =? 0)
    && negb (isAccessPointActivated w (devPath (updateProps w a))
               (Ssid (updateProps w a))).
Proof.
  unfold updateProps; simpl.
  destruct (_ && _ && _); reflexivity.
Qed.

Lemma deref_store_eq (m : Manager) (p : nat) (a : accessPoint) :
  (p < length (heap m))%nat -> deref (store p a m) p = a.
Proof.
  intros Hp. unfold deref, store; simpl.
  rewrite list_lookup_insert_eq by exact Hp. reflexivity.
Qed.

Lemma deref_store_ne (m : Manager) (p q : nat) (a : accessPoint) :
  p <> q -> deref (store p a m) q = deref m q.
Proof.
  intros Hpq. unfold deref, store; simpl.
  rewrite list_lookup_insert_ne by exact Hpq. reflexivity.
Qed.

Lemma apsOf_store (m : Manager) (p : nat) (a : accessPoint) (dev : string) :
  apsOf (store p a m) dev = apsOf m dev.
Proof. reflexivity. Qed.

(** C2: after a property refresh ([updateProps]) an access point is ignored
    exactly when its strength is strictly between 0 and 10 and its SSID is
    not the SSID of a connection activated on its device; strength 0 is
    never ignored; [GetAccessPoints] returns exactly the objects of the
    device that are not ignored, in the order of the slice; and an object of
    the device that has just been refreshed is listed exactly when the
    refresh left it not ignored. *)
Theorem shouldBeIgnored_GetAccessPoints (w : World) (a : accessPoint)
    (m : Manager) (dev : string) :
  (shouldBeIgnored (updateProps w a) = true <->
     (0 < Strength (updateProps w a) < 10
      /\ ~ activatedOn w (devPath (updateProps w a)) (Ssid (updateProps w a))))
  /\ (Strength (updateProps w a) = 0 -> shouldBeIgnored (updateProps w a) = false)
  /\ GetAccessPoints m dev
     = map marshalJSON
         (List.filter (fun ap => negb (shouldBeIgnored ap))
            (map (deref m) (apsOf m dev)))
  /\ (forall p : nat,
        p ∈ apsOf m dev -> (p < length (heap m))%nat ->
        (p ∈ filteredAccessPoints (store p (updateProps w (deref m p)) m) dev
         <-> shouldBeIgnored (updateProps w (deref m p)) = false)).
Proof.
  split; [|split; [|split]].
  - rewrite shouldBeIgnored_updateProps, !andb_true_iff, !negb_true_iff.
    rewrite N.ltb_lt, N.eqb_neq, <- not_true_iff_false,
      isAccessPointActivated_spec.
    split.
    + intros [[Hlt Hnz] Hact]. split; [lia|exact Hact].
    + intros [[Hpos Hlt] Hact]. repeat split; [exact Hlt|lia|exact Hact].
  - intros Hz. rewrite shouldBeIgnored_updateProps, Hz. reflexivity.
  - unfold GetAccessPoints. rewrite filteredAccessPoints_filter.
    induction (apsOf m dev) as [|p aps IH]; simpl; [reflexivity|].
    destruct (shouldBeIgnored (deref m p)); simpl; rewrite IH; reflexivity.
  - intros p Hin Hp.
    rewrite filteredAccessPoints_filter, apsOf_store.
    rewrite list_elem_of_In, filter_In, <- list_elem_of_In.
    rewrite deref_store_eq by exact Hp.
    rewrite negb_true_iff. tauto.
Qed.

(** One access point of strength 5, none of its device's connections
    active: the listing of the device is empty.  The same access point
    reporting strength 0: it is listed. *)
Lemma shouldBeIgnored_GetAccessPoints_witness :
  let dev := "/dev/wlan0" in
  let w5 := Scenario.world [("/ap/1", Scenario.props "home" 0 0 0 5 2412)]
              (fun _ => None) [] apSecNone [] in
  let w0 := Scenario.world [("/ap/1", Scenario.props "home" 0 0 0 0 2412)]
              (fun _ => None) [] apSecNone [] in
  let m := Scenario.manager [Scenario.object w0 dev "/ap/1"] [(dev, [0%nat])] [] in
  ~ (0%nat ∈ filteredAccessPoints (store 0 (updateProps w5 (deref m 0)) m) dev)
  /\ GetAccessPoints (store 0 (updateProps w5 (deref m 0)) m) dev = []
  /\ 0%nat ∈ filteredAccessPoints (store 0 (updateProps w0 (deref m 0)) m) dev
  /\ GetAccessPoints (store 0 (updateProps w0 (deref m 0)) m) dev
     = [ {| json_Ssid := "home"; json_Secured := false;
            json_SecuredInEap := false; json_Strength := 0;
            json_Path := "/ap/1"; json_Frequency := 2412 |} ].
Proof.
  intros dev w5 w0 m.
  assert (Hin : 0%nat ∈ apsOf m dev) by (vm_compute; left).
  assert (Hlen : (0 < length (heap m))%nat) by (vm_compute; lia).
  split; [|split; [|split]].
  - intros Hlisted.
    apply (proj2 (proj2 (proj2
             (shouldBeIgnored_GetAccessPoints w5 (deref m 0) m dev))) 0%nat Hin Hlen)
      in Hlisted.
    vm_compute in Hlisted. discriminate.
  - vm_compute. reflexivity.
  - apply (proj2 (proj2 (proj2
             (shouldBeIgnored_GetAccessPoints w0 (deref m 0) m dev))) 0%nat Hin Hlen).
    vm_compute. reflexivity.
  - vm_compute. reflexivity.
Defined.

(** ** Clearing the registry *)

Lemma emitAll_nil (m : Manager) : emitAll [] m = m.
Proof. destruct m. unfold emitAll; simpl. rewrite app_nil_r. reflexivity. Qed.

Lemma Emit_emitAll (s : signal) (ss : list signal) (m : Manager) :
  Emit s (emitAll ss m) = emitAll (ss ++ [s]) m.
Proof. unfold Emit, emitAll; simpl. rewrite app_assoc. reflexivity. Qed.

Lemma destroy_all (m : Manager) (ps : list nat) (ss : list signal) :
  fold_left (fun m p => destroyAccessPoint p m) ps (emitAll ss m)
  = emitAll (ss ++ map (removedSignal m) ps) m.
Proof.
  revert ss. induction ps as [|p ps IH]; intros ss; simpl.
  - rewrite app_nil_r. reflexivity.
  - unfold destroyAccessPoint at 2.
    change (deref (emitAll ss m) p) with (deref m p).
    rewrite Emit_emitAll, IH, <- app_assoc. reflexivity.
Qed.

Lemma destroy_all_entries (m : Manager) (entries : list (string * list nat))
    (ss : list signal) :
  fold_left
    (fun m (entry : string * list nat) =>
       fold_left (fun m p => destroyAccessPoint p m) (snd entry) m)
    entries (emitAll ss m)
  = emitAll (ss ++ map (removedSignal m) (concat (map snd entries))) m.
Proof.
  revert ss. induction entries as [|[d ps] entries IH]; intros ss; simpl.
  - rewrite app_nil_r. reflexivity.
  - rewrite destroy_all, IH, map_app, <- app_assoc. reflexivity.
Qed.

Lemma clearAccessPoints_eq (m : Manager) :
  clearAccessPoints m
  = set_accessPoints ∅ (emitAll (map (removedSignal m) (registered m)) m).
Proof.
  unfold clearAccessPoints, registered.
  pose proof (destroy_all_entries m (map_to_list (accessPoints m)) []) as Hfold.
  rewrite emitAll_nil in Hfold. rewrite Hfold. reflexivity.
Qed.

Lemma emitted_emitAll (ss : list signal) (m : Manager) :
  emitted m (emitAll ss m) = ss.
Proof. unfold emitted; simpl. apply drop_app_length. Qed.

Lemma count_visible_ignored (m : Manager) (ps : list nat) :
  (length (List.filter (fun p => negb (shouldBeIgnored (deref m p))) ps)
   + length (List.filter (fun p => shouldBeIgnored (deref m p)) ps))%nat
  = length ps.
Proof.
  induction ps as [|p ps IH]; simpl; [reflexivity|].
  destruct (shouldBeIgnored (deref m p)); simpl; lia.
Qed.

Lemma removed_all (m : Manager) (ps : list nat) :
  List.filter is_AccessPointRemoved (map (removedSignal m) ps)
  = map (removedSignal m) ps.
Proof.
  induction ps as [|p ps IH]; simpl; [reflexivity|]. rewrite IH. reflexivity.
Qed.

(** C3, as the code has it: [clearAccessPoints] on a registry holding N
    visible and M ignored access points emits exactly N + M
    AccessPointRemoved signals, one per registered access point, the ignored
    ones included, and nothing else; afterwards the registry is empty. *)
Theorem clearAccessPoints_emits_for_every_ap (m : Manager) :
  emitted m (clearAccessPoints m) = map (removedSignal m) (registered m)
  /\ length (List.filter is_AccessPointRemoved (emitted m (clearAccessPoints m)))
     = (visibleCount m + ignoredCount m)%nat
  /\ length (emitted m (clearAccessPoints m)) = (visibleCount m + ignoredCount m)%nat
  /\ accessPoints (clearAccessPoints m) = ∅.
Proof.
  rewrite clearAccessPoints_eq.
  change (emitted m (set_accessPoints ∅ (emitAll ?ss m))) with (emitted m (emitAll ss m)).
  rewrite emitted_emitAll, removed_all, length_map.
  unfold visibleCount, ignoredCount. rewrite count_visible_ignored.
  repeat split; reflexivity.
Qed.

(** C3 as stated fails: a registry whose only access point is ignored
    (N = 0, M = 1) emits one AccessPointRemoved when cleared, not none. *)
Lemma clearAccessPoints_ignored_counterexample :
  let dev := "/dev/wlan0" in
  let w := Scenario.world [("/ap/1", Scenario.props "cafe" 0 0 0 5 2412)]
             (fun _ => None) [] apSecNone [] in
  let m := Scenario.manager [Scenario.object w dev "/ap/1"] [(dev, [0%nat])] [] in
  shouldBeIgnored (deref m 0) = true
  /\ visibleCount m = 0%nat
  /\ ignoredCount m = 1%nat
  /\ emitted m (clearAccessPoints m)
     = [ AccessPointRemoved dev
           {| json_Ssid := "cafe"; json_Secured := false;
              json_SecuredInEap := false; json_Strength := 5;
              json_Path := "/ap/1"; json_Frequency := 2412 |} ]
  /\ length (List.filter is_AccessPointRemoved (emitted m (clearAccessPoints m)))
     <> visibleCount m.
Proof. vm_compute. repeat split. discriminate. Qed.

(** ** Looking an access point up *)

Lemma indexOfPath_None (m : Manager) (apPath : string) (aps : list nat) (i : Z) :
  indexOfPath m apPath aps i = None <->
  forall p, p ∈ aps -> Path (deref m p) <> apPath.
Proof.
  revert i. induction aps as [|q aps IH]; intros i; simpl.
  - split; [|reflexivity]. intros _ p Hp. inversion Hp.
  - destruct (String.eqb_spec (Path (deref m q)) apPath) as [Heq|Hne].
    + split; [discriminate|]. intros Hall. exfalso.
      apply (Hall q); [left|exact Heq].
    + rewrite IH. split.
      * intros Hall p Hp. apply elem_of_cons in Hp as [->|Hp]; auto.
      * intros Hall p Hp. apply Hall. right. exact Hp.
Qed.

Lemma indexOfPath_Some_ge (m : Manager) (apPath : string) (aps : list nat)
    (i j : Z) :
  indexOfPath m apPath aps i = Some j -> (i <= j)%Z.
Proof.
  revert i. induction aps as [|q aps IH]; intros i; simpl; [discriminate|].
  destruct (String.eqb (Path (deref m q)) apPath).
  - intros [= <-]. lia.
  - intros Hj. apply IH in Hj. lia.
Qed.

Lemma indexOfPath_Some_elem (m : Manager) (apPath : string) (aps : list nat)
    (i j : Z) :
  indexOfPath m apPath aps i = Some j ->
  exists p, p ∈ aps /\ Path (deref m p) = apPath.
Proof.
  revert i. induction aps as [|q aps IH]; intros i; simpl; [discriminate|].
  destruct (String.eqb_spec (Path (deref m q)) apPath) as [Heq|Hne].
  - intros _. exists q. split; [left|exact Heq].
  - intros Hj. apply IH in Hj as (p & Hp & Hpath).
    exists p. split; [right|]; assumption.
Qed.

Lemma getAccessPointIndex_loop_found (m : Manager) (apPath : string)
    (entries : list (string * list nat)) :
  (0 <=? snd (getAccessPointIndex_loop m apPath entries))%Z = true <->
  exists p, p ∈ concat (map snd entries) /\ Path (deref m p) = apPath.
Proof.
  induction entries as [|[d aps] entries IH]; simpl.
  - split; [discriminate|]. intros (p & Hp & _). inversion Hp.
  - destruct (indexOfPath m apPath aps 0) as [i|] eqn:Hidx; simpl.
    + split.
      * intros _. apply indexOfPath_Some_elem in Hidx as (p & Hp & Hpath).
        exists p. split; [|exact Hpath]. apply elem_of_app. left. exact Hp.
      * intros _. apply Z.leb_le. eapply indexOfPath_Some_ge. exact Hidx.
    + rewrite IH. split.
      * intros (p & Hp & Hpath). exists p. split; [|exact Hpath].
        apply elem_of_app. right. exact Hp.
      * intros (p & Hp & Hpath). apply elem_of_app in Hp as [Hp|Hp].
        -- exfalso. eapply indexOfPath_None; eauto.
        -- exists p. split; assumption.
Qed.

(** An access point exists exactly when some pointer of the registry, under
    whichever device, has its path. *)
Lemma isAccessPointExists_spec (m : Manager) (apPath : string) :
  isAccessPointExists m apPath = true <->
  exists p, p ∈ registered m /\ Path (deref m p) = apPath.
Proof. apply getAccessPointIndex_loop_found. Qed.

Lemma isAccessPointExists_registered (m : Manager) (p : nat) :
  p ∈ registered m -> isAccessPointExists m (Path (deref m p)) = true.
Proof. intros Hp. apply isAccessPointExists_spec. exists p. auto. Qed.

(** ** Property-changed notifications *)

Lemma emitted_same_signals (m m' : Manager) :
  signals m' = signals m -> emitted m m' = [].
Proof. intros Heq. unfold emitted. rewrite Heq. apply drop_all. Qed.

Lemma emitted_Emit (m m' : Manager) (s : signal) :
  signals m' = signals m -> emitted m (Emit s m') = [s].
Proof.
  intros Heq. unfold emitted; simpl. rewrite Heq. apply drop_app_length.
Qed.

(** C8: a property-changed notification for a registered access point emits
    by the four-case rule.  Ignored before and after: nothing.  Visible
    before and after: one AccessPointPropertiesChanged.  Ignored before,
    visible after: one AccessPointAdded and no AccessPointPropertiesChanged.
    Visible before, ignored after: one AccessPointRemoved.  Each signal
    carries the device path and the refreshed snapshot. *)
Theorem onPropertiesChanged_four_cases (w : World) (m : Manager) (p : nat) :
  p ∈ registered m ->
  let ap := updateProps w (deref m p) in
  emitted m (onPropertiesChanged w p m)
  = match shouldBeIgnored (deref m p), shouldBeIgnored ap with
    | true, true => []
    | false, false => [AccessPointPropertiesChanged (devPath ap) (marshalJSON ap)]
    | true, false => [AccessPointAdded (devPath ap) (marshalJSON ap)]
    | false, true => [AccessPointRemoved (devPath ap) (marshalJSON ap)]
    end.
Proof.
  intros Hp ap. unfold onPropertiesChanged.
  rewrite (isAccessPointExists_registered m p Hp); simpl negb; cbv iota.
  fold ap.
  destruct (shouldBeIgnored (deref m p)), (shouldBeIgnored ap); simpl.
  - apply emitted_same_signals. reflexivity.
  - apply emitted_Emit. reflexivity.
  - apply emitted_Emit. reflexivity.
  - apply emitted_Emit. reflexivity.
Qed.

(** An access point registered while ignored (strength 5) reports strength
    50: one AccessPointAdded, nothing else. *)
Lemma onPropertiesChanged_four_cases_witness :
  let dev := "/dev/wlan0" in
  let w5 := Scenario.world [("/ap/1", Scenario.props "home" 0 0 0 5 2412)]
              (fun _ => None) [] apSecNone [] in
  let w50 := Scenario.world [("/ap/1", Scenario.props "home" 0 0 0 50 2412)]
               (fun _ => None) [] apSecNone [] in
  let m := Scenario.manager [Scenario.object w5 dev "/ap/1"] [(dev, [0%nat])] [] in
  0%nat ∈ registered m
  /\ emitted m (onPropertiesChanged w50 0 m)
     = [ AccessPointAdded dev
           {| json_Ssid := "home"; json_Secured := false;
              json_SecuredInEap := false; json_Strength := 50;
              json_Path := "/ap/1"; json_Frequency := 2412 |} ].
Proof.
  intros dev w5 w50 m.
  assert (Hp : 0%nat ∈ registered m) by (vm_compute; left).
  split; [exact Hp|].
  rewrite (onPropertiesChanged_four_cases w50 m 0 Hp).
  vm_compute. reflexivity.
Defined.

(** ** Activation *)

Lemma call_nil (m : Manager) : call [] m = m.
Proof. destruct m. unfold call; simpl. rewrite app_nil_r. reflexivity. Qed.

(** C4: [Activate] with a non-empty uuid, for an access point classified
    Eap now while the stored profile says another key management, returns
    the "need user edit" error; it sends neither a profile update nor an
    activation request, so the stored profile is as it was and the manager
    has sent nothing. *)
Theorem activateAccessPoint_eap_needs_user_edit (w : World) (m : Manager)
    (uuid apPath dev cpath : string) (connData : connectionData)
    (secTypeOld : apSecType) :
  uuid <> "" ->
  nmNewAccessPoint w apPath = None ->
  getApSecType w apPath = apSecEap ->
  nmGetConnectionByUuid w uuid = Ok cpath ->
  nmNewSettingsConnection w cpath = None ->
  GetSettings w cpath = Ok connData ->
  getApSecTypeFromConnData w connData = Ok secTypeOld ->
  secTypeOld <> apSecEap ->
  fixApSecTypeChange w uuid apSecEap = ([], (true, None))
  /\ activateAccessPoint w uuid apPath dev = ([], ("/", Some "need user edit"))
  /\ ActivateAccessPoint w uuid apPath dev m = (("/", Some "need user edit"), m).
Proof.
  intros Huuid Hap Hsec Hconn Hsettings Hdata Hold Hdiff.
  assert (Hfix : fixApSecTypeChange w uuid apSecEap = ([], (true, None))).
  { unfold fixApSecTypeChange. rewrite Hconn, Hsettings, Hdata, Hold.
    rewrite bool_decide_eq_false_2 by exact Hdiff. reflexivity. }
  assert (Hact : activateAccessPoint w uuid apPath dev
                 = ([], ("/", Some "need user edit"))).
  { unfold activateAccessPoint. rewrite Hap, Hsec.
    apply String.eqb_neq in Huuid. rewrite Huuid; simpl negb; cbv iota.
    rewrite Hfix. reflexivity. }
  split; [exact Hfix|]. split; [exact Hact|].
  unfold ActivateAccessPoint. rewrite Hact, call_nil. reflexivity.
Qed.

(** A profile stored with WPA-PSK, an access point that now advertises
    802.1X in its RSN flags. *)
Lemma activateAccessPoint_eap_needs_user_edit_witness :
  let w := Scenario.world [("/ap/1", Scenario.props "corp" 1 0 0x288 60 5180)]
             (fun _ => None) [] apSecPsk [] in
  let m := Scenario.manager [] [] [] in
  getApSecType w "/ap/1" = apSecEap
  /\ activateAccessPoint w "uuid-1" "/ap/1" "/dev/wlan0"
     = ([], ("/", Some "need user edit"))
  /\ ActivateAccessPoint w "uuid-1" "/ap/1" "/dev/wlan0" m
     = (("/", Some "need user edit"), m).
Proof.
  intros w m. split; [reflexivity|].
  apply (activateAccessPoint_eap_needs_user_edit w m "uuid-1" "/ap/1"
           "/dev/wlan0" "/settings/uuid-1" ∅ apSecPsk);
    first [reflexivity | discriminate].
Defined.

(** ** The candidate search *)

Lemma find_pointwise {A : Type} (f g : A -> bool) (l : list A) :
  (forall a, f a = g a) -> List.find f l = List.find g l.
Proof.
  intros Hfg. induction l as [|a l IH]; simpl; [reflexivity|].
  rewrite Hfg, IH. reflexivity.
Qed.

Lemma findAPByBand_inner_find (ssid band : string) (aps : list accessPoint)
    (apNow : option accessPoint) :
  findAPByBand_inner ssid band aps apNow
  = match List.find
            (fun ap => String.eqb (Ssid ap) ssid
                       && ((String.eqb band "a" && in5G (Frequency ap))
                           || (String.eqb band "bg" && in2G (Frequency ap))))
            aps with
    | Some ap => Some ap
    | None => apNow
    end.
Proof.
  induction aps as [|ap aps IH]; simpl; [reflexivity|].
  destruct (String.eqb (Ssid ap) ssid); simpl; [|exact IH].
  destruct (String.eqb band "a"); simpl.
  - destruct (in5G (Frequency ap)); simpl; [reflexivity|].
    destruct (String.eqb band "bg"); simpl; [|exact IH].
    destruct (in2G (Frequency ap)); [reflexivity|exact IH].
  - destruct (String.eqb band "bg"); simpl; [|exact IH].
    destruct (in2G (Frequency ap)); [reflexivity|exact IH].
Qed.

(** With a band, every step of the outer loop repeats the same search over
    the whole slice. *)
Lemma findAPByBand_loop_manual (ssid band : string)
    (all todo : list accessPoint) (apNow : option accessPoint) (mx : N) :
  String.eqb band "" = false ->
  findAPByBand_loop ssid band all todo apNow mx
  = match todo with
    | [] => apNow
    | _ :: _ => findAPByBand_inner ssid band all apNow
    end.
Proof.
  intros Hband. revert apNow.
  induction todo as [|ap todo IH]; intros apNow; simpl; [reflexivity|].
  rewrite Hband, IH. destruct todo; [reflexivity|].
  rewrite !findAPByBand_inner_find.
  destruct (List.find _ all); reflexivity.
Qed.

(** Without a band, the loop keeps the first access point of the SSID that
    beats the running maximum. *)
Lemma findAPByBand_loop_auto (ssid : string) (all todo : list accessPoint)
    (apNow : option accessPoint) (mx : N) :
  findAPByBand_loop ssid "" all todo apNow mx
  = if mx <? maxStrength ssid todo
    then List.find
           (fun ap => String.eqb (Ssid ap) ssid
                      && (Strength ap =? maxStrength ssid todo)) todo
    else apNow.
Proof.
  revert apNow mx. induction todo as [|ap todo IH]; intros apNow mx; simpl.
  - destruct (N.ltb_spec mx 0); [lia|reflexivity].
  - destruct (String.eqb (Ssid ap) ssid); simpl.
    + destruct (N.ltb_spec mx (Strength ap)) as [Hlt|Hge].
      * rewrite IH.
        destruct (N.ltb_spec mx (N.max (Strength ap) (maxStrength ssid todo)));
          [|lia].
        destruct (N.ltb_spec (Strength ap) (maxStrength ssid todo)) as [Hs|Hs].
        -- rewrite N.max_r by lia.
           destruct (N.eqb_spec (Strength ap) (maxStrength ssid todo)); [lia|].
           reflexivity.
        -- rewrite N.max_l by lia. rewrite N.eqb_refl. reflexivity.
      * rewrite IH.
        destruct (N.ltb_spec mx (maxStrength ssid todo)) as [Hm|Hm].
        -- rewrite N.max_r by lia.
           destruct (N.ltb_spec mx (maxStrength ssid todo)); [|lia].
           destruct (N.eqb_spec (Strength ap) (maxStrength ssid todo)); [lia|].
           reflexivity.
        -- destruct (N.ltb_spec mx (N.max (Strength ap) (maxStrength ssid todo)));
             [lia|reflexivity].
    + apply IH.
Qed.

Lemma findAPByBand_auto (ssid : string) (aps : list accessPoint) :
  findAPByBand ssid aps "" = strongest ssid aps.
Proof. unfold findAPByBand, strongest. apply findAPByBand_loop_auto. Qed.

Lemma findAPByBand_a (ssid : string) (aps : list accessPoint) :
  findAPByBand ssid aps "a" = firstInBand in5G ssid aps.
Proof.
  unfold findAPByBand, firstInBand.
  rewrite findAPByBand_loop_manual by reflexivity.
  destruct aps as [|ap aps]; [reflexivity|].
  rewrite findAPByBand_inner_find.
  match goal with
  | |- match List.find ?f ?l with _ => _ end = List.find ?g ?l =>
      rewrite (find_pointwise f g)
  end.
  - destruct (List.find _ _); reflexivity.
  - intros a. simpl. rewrite orb_false_r. reflexivity.
Qed.

Lemma findAPByBand_bg (ssid : string) (aps : list accessPoint) :
  findAPByBand ssid aps "bg" = firstInBand in2G ssid aps.
Proof.
  unfold findAPByBand, firstInBand.
  rewrite findAPByBand_loop_manual by reflexivity.
  destruct aps as [|ap aps]; [reflexivity|].
  rewrite findAPByBand_inner_find.
  match goal with
  | |- match List.find ?f ?l with _ => _ end = List.find ?g ?l =>
      rewrite (find_pointwise f g)
  end.
  - destruct (List.find _ _); reflexivity.
  - intros a. simpl. reflexivity.
Qed.

Lemma maxStrength_ge (ssid : string) (aps : list accessPoint) (ap : accessPoint) :
  ap ∈ aps -> Ssid ap = ssid -> Strength ap <= maxStrength ssid aps.
Proof.
  intros Hin Hssid. induction aps as [|a aps IH]; [inversion Hin|].
  simpl. apply elem_of_cons in Hin as [<-|Hin].
  - rewrite (proj2 (String.eqb_eq _ _) Hssid). lia.
  - specialize (IH Hin). destruct (String.eqb (Ssid a) ssid); lia.
Qed.

Lemma maxStrength_zero (ssid : string) (aps : list accessPoint) :
  (forall ap, ap ∈ aps -> Ssid ap = ssid -> Strength ap = 0) ->
  maxStrength ssid aps = 0.
Proof.
  induction aps as [|a aps IH]; intros Hall; simpl; [reflexivity|].
  rewrite IH by (intros ap Hap; apply Hall; right; exact Hap).
  destruct (String.eqb_spec (Ssid a) ssid) as [Heq|_]; [|reflexivity].
  rewrite (Hall a) by (left || exact Heq). reflexivity.
Qed.

Lemma find_first {A : Type} (f : A -> bool) (l : list A) (x : A) :
  List.find f l = Some x ->
  f x = true
  /\ exists pre post, l = pre ++ x :: post /\ forall y, y ∈ pre -> f y = false.
Proof.
  induction l as [|a l IH]; simpl; [discriminate|].
  destruct (f a) eqn:Hfa.
  - intros [= ->]. split; [exact Hfa|].
    exists [], l. split; [reflexivity|]. intros y Hy. inversion Hy.
  - intros Hfind. destruct (IH Hfind) as (Hfx & pre & post & -> & Hpre).
    split; [exact Hfx|]. exists (a :: pre), post. split; [reflexivity|].
    intros y Hy. apply elem_of_cons in Hy as [->|Hy]; auto.
Qed.

Lemma find_none_all {A : Type} (f : A -> bool) (l : list A) :
  (forall y, y ∈ l -> f y = false) -> List.find f l = None.
Proof.
  induction l as [|a l IH]; intros Hall; simpl; [reflexivity|].
  rewrite (Hall a) by left. apply IH. intros y Hy. apply Hall. right. exact Hy.
Qed.

(** What [strongest] picks. *)
Lemma strongest_Some (ssid : string) (aps : list accessPoint) (ap : accessPoint) :
  strongest ssid aps = Some ap ->
  0 < Strength ap
  /\ Ssid ap = ssid
  /\ (forall ap', ap' ∈ aps -> Ssid ap' = ssid -> Strength ap' <= Strength ap)
  /\ exists pre post,
       aps = pre ++ ap :: post
       /\ forall ap', ap' ∈ pre -> Ssid ap' = ssid -> Strength ap' < Strength ap.
Proof.
  unfold strongest.
  destruct (N.ltb_spec 0 (maxStrength ssid aps)) as [Hpos|_]; [|discriminate].
  intros Hfind. apply find_first in Hfind as (Hap & pre & post & Haps & Hpre).
  apply andb_true_iff in Hap as [Hssid Hmax].
  apply String.eqb_eq in Hssid. apply N.eqb_eq in Hmax.
  split; [lia|]. split; [exact Hssid|]. split.
  - intros ap' Hin' Hssid'. rewrite Hmax. apply maxStrength_ge; assumption.
  - exists pre, post. split; [exact Haps|].
    intros ap' Hin' Hssid'.
    assert (Hle : Strength ap' <= maxStrength ssid aps).
    { apply maxStrength_ge; [|exact Hssid'].
      rewrite Haps. apply elem_of_app. left. exact Hin'. }
    specialize (Hpre ap' Hin').
    rewrite (proj2 (String.eqb_eq _ _) Hssid') in Hpre. simpl in Hpre.
    apply N.eqb_neq in Hpre. lia.
Qed.

Lemma strongest_None (ssid : string) (aps : list accessPoint) :
  strongest ssid aps = None <->
  forall ap, ap ∈ aps -> Ssid ap = ssid -> Strength ap = 0.
Proof.
  unfold strongest. split.
  - destruct (N.ltb_spec 0 (maxStrength ssid aps)) as [Hpos|Hz].
    + intros Hnone. exfalso.
      assert (Hex : exists ap, ap ∈ aps /\ Ssid ap = ssid
                               /\ Strength ap = maxStrength ssid aps).
      { clear Hnone. induction aps as [|a aps IH]; simpl in *; [lia|].
        destruct (String.eqb_spec (Ssid a) ssid) as [Heq|Hne].
        - destruct (N.max_spec (Strength a) (maxStrength ssid aps))
            as [[Hlt ->]|[Hge ->]].
          + destruct (IH ltac:(lia)) as (ap & Hin & Hs & Hm).
            exists ap. repeat split; [right|..]; assumption.
          + exists a. repeat split; [left|assumption].
        - destruct (IH Hpos) as (ap & Hin & Hs & Hm).
          exists ap. repeat split; [right|..]; assumption. }
      destruct Hex as (ap & Hin & Hs & Hm).
      apply list_elem_of_In in Hin. apply (find_none _ _ Hnone) in Hin.
      rewrite (proj2 (String.eqb_eq _ _) Hs), Hm, N.eqb_refl in Hin.
      discriminate.
    + intros _ ap Hin Hs.
      pose proof (maxStrength_ge ssid aps ap Hin Hs). lia.
  - intros Hall. rewrite maxStrength_zero by exact Hall. reflexivity.
Qed.

Lemma in5G_range (f : N) : in5G f = true <-> 4915 <= f <= 5825.
Proof.
  unfold in5G, frequency5GLowerlimit, frequency5GUpperlimit.
  rewrite andb_true_iff, !N.leb_le. reflexivity.
Qed.

Lemma in2G_range (f : N) : in2G f = true <-> 2412 <= f <= 2484.
Proof.
  unfold in2G, frequency2GLowerlimit, frequency2GUpperlimit.
  rewrite andb_true_iff, !N.leb_le. reflexivity.
Qed.

(** Whatever the search returns is an access point of the SSID taken from
    the list it was given. *)
Lemma findAPByBand_Some (ssid band : string) (aps : list accessPoint)
    (ap : accessPoint) :
  findAPByBand ssid aps band = Some ap -> ap ∈ aps /\ Ssid ap = ssid.
Proof.
  destruct (String.eqb_spec band "") as [->|Hband].
  - rewrite findAPByBand_auto. intros Hs.
    apply strongest_Some in Hs as (_ & Hssid & _ & pre & post & -> & _).
    split; [|exact Hssid]. apply elem_of_app. right. left.
  - unfold findAPByBand.
    rewrite findAPByBand_loop_manual by (apply String.eqb_neq; exact Hband).
    destruct aps as [|a aps]; [discriminate|].
    rewrite findAPByBand_inner_find.
    destruct (List.find _ _) as [x|] eqn:Hfind; [|discriminate].
    intros [= ->]. apply find_some in Hfind as [Hin Hx].
    apply andb_true_iff in Hx as [Hssid _]. apply String.eqb_eq in Hssid.
    split; [apply list_elem_of_In; exact Hin|exact Hssid].
Qed.

(** C6, as the code has it: the candidate search of a steering pass runs
    [findAPByBand] over the whole slice the registry holds for the device,
    ignored access points included.  With an empty band it returns the
    access point of the SSID with the highest strength, the first in the
    order of the slice among equals, provided that strength is above 0;
    with band "a" (resp. "bg") the first access point of the SSID whose
    frequency is in [4915, 5825] (resp. [2412, 2484]) MHz; and none when no
    access point of the slice has the SSID. *)
Theorem steeringCandidate_whole_slice (m : Manager) (ssid dev : string) :
  steeringCandidate m ssid dev "" = strongest ssid (map (deref m) (apsOf m dev))
  /\ (forall ap, steeringCandidate m ssid dev "" = Some ap ->
        0 < Strength ap
        /\ Ssid ap = ssid
        /\ (forall ap', ap' ∈ map (deref m) (apsOf m dev) -> Ssid ap' = ssid ->
              Strength ap' <= Strength ap)
        /\ exists pre post,
             map (deref m) (apsOf m dev) = pre ++ ap :: post
             /\ forall ap', ap' ∈ pre -> Ssid ap' = ssid ->
                  Strength ap' < Strength ap)
  /\ steeringCandidate m ssid dev "a"
     = firstInBand in5G ssid (map (deref m) (apsOf m dev))
  /\ steeringCandidate m ssid dev "bg"
     = firstInBand in2G ssid (map (deref m) (apsOf m dev))
  /\ (forall f, in5G f = true <-> 4915 <= f <= 5825)
  /\ (forall f, in2G f = true <-> 2412 <= f <= 2484)
  /\ (forall band,
        (forall ap, ap ∈ map (deref m) (apsOf m dev) -> Ssid ap <> ssid) ->
        steeringCandidate m ssid dev band = None).
Proof.
  unfold steeringCandidate.
  split; [apply findAPByBand_auto|].
  split; [intros ap; rewrite findAPByBand_auto; apply strongest_Some|].
  split; [apply findAPByBand_a|].
  split; [apply findAPByBand_bg|].
  split; [apply in5G_range|].
  split; [apply in2G_range|].
  intros band Hnone.
  destruct (findAPByBand ssid _ band) as [ap|] eqn:Hfind; [|reflexivity].
  apply findAPByBand_Some in Hfind as [Hin Hssid].
  exfalso. exact (Hnone ap Hin Hssid).
Qed.

(** C6 as stated fails.  A device holds two access points of "home": the
    one it is on, and one on 5 GHz that was registered while ignored
    (strength 5, before the connection was active).  A manual request for
    band "a" makes the pass choose the ignored one and activate it; a search
    over the visible list finds no candidate. *)
Lemma steeringCandidate_ignored_counterexample :
  let dev := "/dev/wlan0" in
  let aps := [("/ap/cur", Scenario.props "home" 0 0 0 60 2412);
              ("/ap/far", Scenario.props "home" 0 0 0 5 5180)] in
  let before := Scenario.world aps (fun _ => None) [] apSecNone [] in
  let now :=
    Scenario.world aps (fun _ => None)
      [("/active/1",
        ({| aconn_typ := nm.NM_SETTING_WIRELESS_SETTING_NAME;
            aconn_Devices := [dev]; aconn_Uuid := "uuid-home" |}, "home"))]
      apSecNone [(dev, ("/ap/cur", "/active/1"))] in
  let far := Scenario.object before dev "/ap/far" in
  let m0 :=
    Scenario.manager [Scenario.object before dev "/ap/cur"; far]
      [(dev, [0%nat; 1%nat])] [dev] in
  let m := snd (DebugChangeAPChannel now "a" m0) in
  let conn := {| conn_Path := "/settings/active/1";
                 conn_Uuid := "/settings/active/1" |} in
  shouldBeIgnored far = true
  /\ debugChangeAPBand m = "a"
  /\ steeringCandidate m "home" dev "a" = Some far
  /\ findAPByBand "home" (visibleAccessPoints m dev) "a" = None
  /\ steeringCandidate m "home" dev "a"
     <> findAPByBand "home" (visibleAccessPoints m dev) "a"
  /\ checkAPStrength_trace now m
     = [(dev, [CallUpdateConnectionBand conn "a";
               CallActivateConnection "/settings/active/1" dev])].
Proof. vm_compute. repeat split. discriminate. Qed.

(** C10: without a band, [findAPByBand] never returns an access point of
    strength 0, whatever the SSID and the list; when every access point of
    the SSID has strength 0 it returns none; so the candidate of an
    automatic steering pass never has strength 0. *)
Theorem findAPByBand_auto_never_strength_0 (ssid : string)
    (aps : list accessPoint) :
  (forall ap, findAPByBand ssid aps "" = Some ap -> Strength ap <> 0)
  /\ ((forall ap, ap ∈ aps -> Ssid ap = ssid -> Strength ap = 0) ->
      findAPByBand ssid aps "" = None)
  /\ (forall m dev ap,
        steeringCandidate m ssid dev "" = Some ap -> Strength ap <> 0).
Proof.
  assert (Hpos : forall l ap, findAPByBand ssid l "" = Some ap -> Strength ap <> 0).
  { intros l ap. rewrite findAPByBand_auto. intros Hs.
    apply strongest_Some in Hs as (Hgt & _). lia. }
  split; [apply Hpos|]. split.
  - intros Hall. rewrite findAPByBand_auto. apply strongest_None. exact Hall.
  - intros m dev ap. apply Hpos.
Qed.

(** Two access points of "home", both of strength 0 and visible: no
    candidate. *)
Lemma findAPByBand_auto_never_strength_0_witness :
  let w := Scenario.world [("/ap/1", Scenario.props "home" 0 0 0 0 2412);
                           ("/ap/2", Scenario.props "home" 0 0 0 0 5180)]
             (fun _ => None) [] apSecNone [] in
  let aps := [Scenario.object w "/dev/wlan0" "/ap/1";
              Scenario.object w "/dev/wlan0" "/ap/2"] in
  Forall (fun ap => shouldBeIgnored ap = false /\ Strength ap = 0) aps
  /\ findAPByBand "home" aps "" = None.
Proof.
  intros w aps. split.
  - repeat constructor.
  - apply (findAPByBand_auto_never_strength_0 "home" aps).
    intros ap Hin _.
    repeat (apply elem_of_cons in Hin as [->|Hin]; [reflexivity|]).
    inversion Hin.
Defined.

(** ** The steering pass *)

(** C5 at its failing inputs.  First, one device: on a 2.4 GHz access point
    of strength 240, with a 5 GHz access point of the same SSID at strength
    250.  The candidate is 10 stronger, less than 20, yet the pass rewrites
    the band of the profile and activates the candidate: [strength+20] is
    computed on [uint8] and is 4.  Second, two devices and strengths below
    100: the first device is steered properly (30 to 60) and leaves
    [band = "a"]; the second, at 40 with a candidate at 45, is then treated
    as a manual request and re-activated without the strength test. *)
Theorem checkAPStrength_strength_test_fails :
  let wireless (dev uuid ssid : string) :=
    ({| aconn_typ := nm.NM_SETTING_WIRELESS_SETTING_NAME;
        aconn_Devices := [dev]; aconn_Uuid := uuid |}, ssid) in
  let conn (aPath : string) :=
    {| conn_Path := ("/settings" ++ aPath)%string;
       conn_Uuid := ("/settings" ++ aPath)%string |} in
  (* one device, strengths 240 and 250 *)
  let w1 :=
    Scenario.world
      [("/ap/cur", Scenario.props "home" 0 0 0 240 2412);
       ("/ap/cand", Scenario.props "home" 0 0 0 250 5180)]
      (fun _ => None)
      [("/active/1", wireless "/dev/wlan0" "uuid-home" "home")]
      apSecNone [("/dev/wlan0", ("/ap/cur", "/active/1"))] in
  let m1 :=
    Scenario.manager
      [Scenario.object w1 "/dev/wlan0" "/ap/cur";
       Scenario.object w1 "/dev/wlan0" "/ap/cand"]
      [("/dev/wlan0", [0%nat; 1%nat])] ["/dev/wlan0"] in
  (* two devices, strengths 30/60 and 40/45 *)
  let w2 :=
    Scenario.world
      [("/ap/a1", Scenario.props "home" 0 0 0 30 2412);
       ("/ap/a2", Scenario.props "home" 0 0 0 60 5180);
       ("/ap/b1", Scenario.props "office" 0 0 0 40 2437);
       ("/ap/b2", Scenario.props "office" 0 0 0 45 5200)]
      (fun _ => None)
      [("/active/1", wireless "/dev/wlan0" "uuid-home" "home");
       ("/active/2", wireless "/dev/wlan1" "uuid-office" "office")]
      apSecNone
      [("/dev/wlan0", ("/ap/a1", "/active/1"));
       ("/dev/wlan1", ("/ap/b1", "/active/2"))] in
  let m2 :=
    Scenario.manager
      [Scenario.object w2 "/dev/wlan0" "/ap/a1";
       Scenario.object w2 "/dev/wlan0" "/ap/a2";
       Scenario.object w2 "/dev/wlan1" "/ap/b1";
       Scenario.object w2 "/dev/wlan1" "/ap/b2"]
      [("/dev/wlan0", [0%nat; 1%nat]); ("/dev/wlan1", [2%nat; 3%nat])]
      ["/dev/wlan0"; "/dev/wlan1"] in
  debugChangeAPBand m1 = ""
  /\ Strength <$> steeringCandidate m1 "home" "/dev/wlan0" "" = Some 250
  /\ add_uint8 240 20 = 4
  /\ checkAPStrength_trace w1 m1
     = [("/dev/wlan0",
         [CallUpdateConnectionBand (conn "/active/1") "a";
          CallActivateConnection "/settings/active/1" "/dev/wlan0"])]
  /\ debugChangeAPBand m2 = ""
  /\ checkAPStrength_trace w2 m2
     = [("/dev/wlan0",
         [CallUpdateConnectionBand (conn "/active/1") "a";
          CallActivateConnection "/settings/active/1" "/dev/wlan0"]);
        ("/dev/wlan1",
         [CallUpdateConnectionBand (conn "/active/2") "a";
          CallActivateConnection "/settings/active/2" "/dev/wlan1"])].
Proof. vm_compute. repeat split. Qed.

(** C7 at its failing input.  The pass starts with no band requested.  The
    first device is on a weak 5 GHz access point (30) and has a 2.4 GHz
    candidate at 60: it is steered, and [band] is left at "bg".  The second
    device is activated, at strength 80 on 5180 MHz; it is not skipped: its
    profile is rewritten to "bg" and it is re-activated on the 2.4 GHz
    access point of its SSID. *)
Theorem checkAPStrength_strong_5G_not_skipped :
  let wireless (dev uuid ssid : string) :=
    ({| aconn_typ := nm.NM_SETTING_WIRELESS_SETTING_NAME;
        aconn_Devices := [dev]; aconn_Uuid := uuid |}, ssid) in
  let conn (aPath : string) :=
    {| conn_Path := ("/settings" ++ aPath)%string;
       conn_Uuid := ("/settings" ++ aPath)%string |} in
  let w :=
    Scenario.world
      [("/ap/a1", Scenario.props "home" 0 0 0 30 5180);
       ("/ap/a2", Scenario.props "home" 0 0 0 60 2412);
       ("/ap/b1", Scenario.props "office" 0 0 0 80 5180);
       ("/ap/b2", Scenario.props "office" 0 0 0 50 2437)]
      (fun _ => None)
      [("/active/1", wireless "/dev/wlan0" "uuid-home" "home");
       ("/active/2", wireless "/dev/wlan1" "uuid-office" "office")]
      apSecNone
      [("/dev/wlan0", ("/ap/a1", "/active/1"));
       ("/dev/wlan1", ("/ap/b1", "/active/2"))] in
  let m :=
    Scenario.manager
      [Scenario.object w "/dev/wlan0" "/ap/a1";
       Scenario.object w "/dev/wlan0" "/ap/a2";
       Scenario.object w "/dev/wlan1" "/ap/b1";
       Scenario.object w "/dev/wlan1" "/ap/b2"]
      [("/dev/wlan0", [0%nat; 1%nat]); ("/dev/wlan1", [2%nat; 3%nat])]
      ["/dev/wlan0"; "/dev/wlan1"] in
  debugChangeAPBand m = ""
  /\ State w "/active/2" = Ok nm.NM_ACTIVE_CONNECTION_STATE_ACTIVATED
  /\ nmap_Strength (nmAccessPointProps w (ActiveAccessPoint w "/dev/wlan1")) = 80
  /\ nmap_Frequency (nmAccessPointProps w (ActiveAccessPoint w "/dev/wlan1")) = 5180
  /\ checkAPStrength_device w m "" "/dev/wlan1" = ("", [])
  /\ checkAPStrength_trace w m
     = [("/dev/wlan0",
         [CallUpdateConnectionBand (conn "/active/1") "bg";
          CallActivateConnection "/settings/active/1" "/dev/wlan0"]);
        ("/dev/wlan1",
         [CallUpdateConnectionBand (conn "/active/2") "bg";
          CallActivateConnection "/settings/active/2" "/dev/wlan1"])].
Proof. vm_compute. repeat split. Qed.

(** ** Adding an access point *)

(** An access point whose path the registry already holds, under any
    device, is not added again: the manager is left as it was (no object
    built, no signal). *)
Lemma addAccessPoint_existing (w : World) (m : Manager) (dev apPath : string)
    (p : nat) :
  p ∈ registered m -> Path (deref m p) = apPath ->
  addAccessPoint w dev apPath m = m.
Proof.
  intros Hp Hpath. unfold addAccessPoint.
  rewrite (proj2 (isAccessPointExists_spec m apPath)) by (exists p; auto).
  reflexivity.
Qed.

(** An access point held under one device, added again under another:
    nothing changes. *)
Lemma addAccessPoint_existing_witness :
  let w := Scenario.world [("/ap/1", Scenario.props "home" 0 0 0 50 2412)]
             (fun _ => None) [] apSecNone [] in
  let m := Scenario.manager [Scenario.object w "/dev/wlan0" "/ap/1"]
             [("/dev/wlan0", [0%nat])] ["/dev/wlan0"; "/dev/wlan1"] in
  addAccessPoint w "/dev/wlan1" "/ap/1" m = m.
Proof.
  intros w m. apply (addAccessPoint_existing w m "/dev/wlan1" "/ap/1" 0).
  - vm_compute. left.
  - reflexivity.
Defined.

(** C9 at its failing input.  The access point is visible (strength 50) and
    the subscription to its property changes fails.  [newAccessPoint] has
    then already emitted AccessPointAdded when it returns the error, and
    [addAccessPoint] drops the object: the path is still not in the
    registry, and the second add emits AccessPointAdded again.  Two signals
    for one path, whether the second subscription fails too (the list of
    the device stays empty) or succeeds (it grows by one). *)
Theorem addAccessPoint_twice_two_signals :
  let dev := "/dev/wlan0" in
  let aps := [("/ap/1", Scenario.props "home" 0 0 0 50 2412)] in
  let failing :=
    Scenario.world aps (fun _ => Some "AddMatch failed") [] apSecNone [] in
  let working := Scenario.world aps (fun _ => None) [] apSecNone [] in
  let m0 := Scenario.manager [] [] [dev] in
  let json := {| json_Ssid := "home"; json_Secured := false;
                 json_SecuredInEap := false; json_Strength := 50;
                 json_Path := "/ap/1"; json_Frequency := 2412 |} in
  let m1 := addAccessPoint failing dev "/ap/1" m0 in
  emitted m0 m1 = [AccessPointAdded dev json]
  /\ isAccessPointExists m1 "/ap/1" = false
  /\ apsOf m1 dev = []
  /\ emitted m0 (addAccessPoint failing dev "/ap/1" m1)
     = [AccessPointAdded dev json; AccessPointAdded dev json]
  /\ apsOf (addAccessPoint failing dev "/ap/1" m1) dev = []
  /\ emitted m0 (addAccessPoint working dev "/ap/1" m1)
     = [AccessPointAdded dev json; AccessPointAdded dev json]
  /\ apsOf (addAccessPoint working dev "/ap/1" m1) dev = [1%nat].
Proof. vm_compute. repeat split. Qed.

(** Walks the guards at the head of [checkAPStrength_device]: the active
    connection is read, valid, and activated.  Each guard that fails ends
    the step with nothing sent. *)
Ltac device_guards w dev :=
  unfold checkAPStrength_device;
  destruct (ActiveConnection w dev) as [aPath|]; [|reflexivity];
  destruct (isObjPathValid w aPath); [|reflexivity];
  simpl negb; cbv iota;
  destruct (nmNewActiveConnection w aPath); [reflexivity|];
  destruct (State w aPath) as [state|]; [|reflexivity];
  destruct (state =? nm.NM_ACTIVE_CONNECTION_STATE_ACTIVATED); [|reflexivity];
  simpl negb; cbv iota.

(** The sum on [uint8] is the sum when it fits. *)
Lemma add_uint8_small (a b : N) : a + b < 256 -> add_uint8 a b = a + b.
Proof. intros Hlt. unfold add_uint8. apply N.mod_small. exact Hlt. Qed.

(** While no band is carried into the step of a device (a pass that began
    without a manual request, up to the first device that changes [band])
    and the strength of the active access point is at most 235, the
    strength test is exact: a candidate less than 20 stronger leaves the
    device alone. *)
Theorem checkAPStrength_device_threshold (w : World) (m : Manager) (dev : string) :
  let current := nmAccessPointProps w (ActiveAccessPoint w dev) in
  nmap_Strength current <= 235 ->
  (forall apNow,
     steeringCandidate m (decodeSsid w (nmap_Ssid current)) dev "" = Some apNow ->
     Strength apNow < nmap_Strength current + 20) ->
  checkAPStrength_device w m "" dev = ("", []).
Proof.
  intros current Hsmall Hweak. device_guards w dev. fold current.
  destruct (_ && _); [reflexivity|].
  destruct (steeringCandidate m _ dev "") as [apNow|] eqn:Hcand; [|reflexivity].
  destruct (String.eqb (Path apNow) _); [reflexivity|].
  simpl String.eqb; cbv iota.
  rewrite add_uint8_small by lia.
  rewrite (proj2 (N.ltb_lt _ _) (Hweak apNow eq_refl)). reflexivity.
Qed.

(** One device at strength 40 with a candidate at 55: nothing is sent. *)
Lemma checkAPStrength_device_threshold_witness :
  let w :=
    Scenario.world
      [("/ap/cur", Scenario.props "home" 0 0 0 40 2412);
       ("/ap/cand", Scenario.props "home" 0 0 0 55 5180)]
      (fun _ => None)
      [("/active/1",
        ({| aconn_typ := nm.NM_SETTING_WIRELESS_SETTING_NAME;
            aconn_Devices := ["/dev/wlan0"]; aconn_Uuid := "uuid-home" |}, "home"))]
      apSecNone [("/dev/wlan0", ("/ap/cur", "/active/1"))] in
  let m :=
    Scenario.manager
      [Scenario.object w "/dev/wlan0" "/ap/cur";
       Scenario.object w "/dev/wlan0" "/ap/cand"]
      [("/dev/wlan0", [0%nat; 1%nat])] ["/dev/wlan0"] in
  Strength <$> steeringCandidate m "home" "/dev/wlan0" "" = Some 55
  /\ checkAPStrength_device w m "" "/dev/wlan0" = ("", []).
Proof.
  intros w m. split; [reflexivity|].
  apply (checkAPStrength_device_threshold w m "/dev/wlan0").
  - vm_compute. discriminate.
  - intros apNow Hcand. vm_compute in Hcand. injection Hcand as <-.
    vm_compute. reflexivity.
Defined.

(** While no band is carried into the step of a device, a device whose
    active access point is stronger than 65 on a frequency in
    [4915, 5825] MHz is left alone. *)
Theorem checkAPStrength_device_strong_5G (w : World) (m : Manager) (dev : string) :
  let current := nmAccessPointProps w (ActiveAccessPoint w dev) in
  65 < nmap_Strength current ->
  4915 <= nmap_Frequency current <= 5825 ->
  checkAPStrength_device w m "" dev = ("", []).
Proof.
  intros current Hstrong Hfreq. device_guards w dev. fold current.
  unfold channelAutoChangeThreshold.
  rewrite (proj2 (N.ltb_lt _ _) Hstrong), (proj2 (in5G_range _) Hfreq).
  reflexivity.
Qed.

(** A single device at strength 80 on 5180 MHz, with a 2.4 GHz access point
    of its SSID in range: nothing is sent. *)
Lemma checkAPStrength_device_strong_5G_witness :
  let w :=
    Scenario.world
      [("/ap/b1", Scenario.props "office" 0 0 0 80 5180);
       ("/ap/b2", Scenario.props "office" 0 0 0 50 2437)]
      (fun _ => None)
      [("/active/2",
        ({| aconn_typ := nm.NM_SETTING_WIRELESS_SETTING_NAME;
            aconn_Devices := ["/dev/wlan1"]; aconn_Uuid := "uuid-office" |},
         "office"))]
      apSecNone [("/dev/wlan1", ("/ap/b1", "/active/2"))] in
  let m :=
    Scenario.manager
      [Scenario.object w "/dev/wlan1" "/ap/b1";
       Scenario.object w "/dev/wlan1" "/ap/b2"]
      [("/dev/wlan1", [0%nat; 1%nat])] ["/dev/wlan1"] in
  checkAPStrength_trace w m = [("/dev/wlan1", [])].
Proof.
  intros w m. unfold checkAPStrength_trace. simpl devices_wifi.
  simpl debugChangeAPBand. unfold checkAPStrength_loop.
  rewrite (checkAPStrength_device_strong_5G w m "/dev/wlan1").
  - reflexivity.
  - vm_compute. reflexivity.
  - vm_compute. split; discriminate.
Defined.

(** ** Adding twice *)

Lemma elem_of_registered (m : Manager) (p : nat) :
  p ∈ registered m <->
  exists d aps, accessPoints m !! d = Some aps /\ p ∈ aps.
Proof.
  unfold registered. rewrite list_elem_of_In, in_concat. split.
  - intros (aps & Haps & Hp). apply in_map_iff in Haps as ([d aps'] & <- & Hentry).
    exists d, aps'. split.
    + apply elem_of_map_to_list, list_elem_of_In. exact Hentry.
    + apply list_elem_of_In. exact Hp.
  - intros (d & aps & Hlookup & Hp). exists aps. split.
    + apply in_map_iff. exists (d, aps). split; [reflexivity|].
      apply list_elem_of_In, elem_of_map_to_list. exact Hlookup.
    + apply list_elem_of_In. exact Hp.
Qed.

(** What one [addAccessPoint] leaves: either the path is in the registry
    afterwards, or the registry is as before; at most one signal is
    emitted, and none when nothing is registered and the subscription did
    not fail. *)
Lemma addAccessPoint_outcome (w : World) (m : Manager) (dev apPath : string) :
  exists ss,
    signals (addAccessPoint w dev apPath m) = signals m ++ ss
    /\ (length ss <= 1)%nat
    /\ (length (apsOf (addAccessPoint w dev apPath m) dev)
        <= S (length (apsOf m dev)))%nat
    /\ (isAccessPointExists (addAccessPoint w dev apPath m) apPath = true
        \/ (accessPoints (addAccessPoint w dev apPath m) = accessPoints m
            /\ (ConnectPropertiesChanged w apPath = None -> ss = []))).
Proof.
  unfold addAccessPoint.
  destruct (isAccessPointExists m apPath) eqn:Hexists.
  { exists []. rewrite app_nil_r. repeat split; auto. }
  unfold newAccessPoint.
  destruct (nmNewAccessPoint w apPath).
  { exists []. rewrite app_nil_r. repeat split; auto. }
  set (ap := updateProps w _). unfold alloc.
  destruct (String.length (Ssid ap) =? 0)%nat.
  { exists []. simpl. rewrite app_nil_r. repeat split; auto. }
  destruct (ConnectPropertiesChanged w apPath) as [e|] eqn:Hsub.
  { destruct (shouldBeIgnored ap).
    - exists []. simpl. rewrite app_nil_r. repeat split; auto.
    - exists [AccessPointAdded dev (marshalJSON ap)]. simpl.
      repeat split; auto. right. split; [reflexivity|discriminate]. }
  assert (Hfound : forall m',
            heap m' = heap m ++ [ap] ->
            accessPoints m' = <[dev := apsOf m dev ++ [length (heap m)]]> (accessPoints m) ->
            isAccessPointExists m' apPath = true).
  { intros m' Hheap Hreg. apply isAccessPointExists_spec.
    exists (length (heap m)). split.
    - apply elem_of_registered. exists dev, (apsOf m dev ++ [length (heap m)]).
      split; [rewrite Hreg; apply lookup_insert_eq|].
      apply elem_of_app. right. left.
    - unfold deref. rewrite Hheap, list_lookup_middle by reflexivity.
      reflexivity. }
  destruct (shouldBeIgnored ap).
  - exists []. simpl. rewrite app_nil_r.
    split; [reflexivity|]. split; [lia|]. split.
    + unfold apsOf at 1; simpl. rewrite lookup_insert_eq; simpl.
      rewrite length_app; simpl. unfold apsOf; simpl. lia.
    + left. apply Hfound; reflexivity.
  - exists [AccessPointAdded dev (marshalJSON ap)]. simpl.
    split; [reflexivity|]. split; [lia|]. split.
    + unfold apsOf at 1; simpl. rewrite lookup_insert_eq; simpl.
      rewrite length_app; simpl. unfold apsOf; simpl. lia.
    + left. apply Hfound; reflexivity.
Qed.

(** Two adds of the same path, the subscription of the first one not
    failing: at most one AccessPointAdded in all, and the list of the
    device grows by at most one. *)
Theorem addAccessPoint_twice_subscribed (w1 w2 : World) (m : Manager)
    (dev apPath : string) :
  ConnectPropertiesChanged w1 apPath = None ->
  let m1 := addAccessPoint w1 dev apPath m in
  let m2 := addAccessPoint w2 dev apPath m1 in
  (length (List.filter is_AccessPointAdded (emitted m m2)) <= 1)%nat
  /\ (length (apsOf m2 dev) <= S (length (apsOf m dev)))%nat.
Proof.
  intros Hsub m1 m2.
  destruct (addAccessPoint_outcome w1 m dev apPath)
    as (ss1 & Hsig1 & Hlen1 & Hgrow1 & Hcase1).
  fold m1 in Hsig1, Hgrow1, Hcase1.
  destruct Hcase1 as [Hexists|[Hreg Hnone]].
  - assert (Hm2 : m2 = m1).
    { unfold m2, addAccessPoint. rewrite Hexists. reflexivity. }
    rewrite Hm2. split; [|exact Hgrow1].
    unfold emitted. rewrite Hsig1, drop_app_length.
    etransitivity; [apply filter_length_le|exact Hlen1].
  - rewrite (Hnone Hsub), app_nil_r in Hsig1.
    destruct (addAccessPoint_outcome w2 m1 dev apPath)
      as (ss2 & Hsig2 & Hlen2 & Hgrow2 & _).
    fold m2 in Hsig2, Hgrow2.
    assert (Haps : apsOf m1 dev = apsOf m dev) by (unfold apsOf; rewrite Hreg; reflexivity).
    rewrite Haps in Hgrow2. split; [|exact Hgrow2].
    unfold emitted. rewrite Hsig2, Hsig1, drop_app_length.
    etransitivity; [apply filter_length_le|exact Hlen2].
Qed.

(** The same visible access point added twice in a world where the
    subscription works: one AccessPointAdded, one entry. *)
Lemma addAccessPoint_twice_subscribed_witness :
  let dev := "/dev/wlan0" in
  let w := Scenario.world [("/ap/1", Scenario.props "home" 0 0 0 50 2412)]
             (fun _ => None) [] apSecNone [] in
  let m := Scenario.manager [] [] [dev] in
  let m2 := addAccessPoint w dev "/ap/1" (addAccessPoint w dev "/ap/1" m) in
  length (emitted m m2) = 1%nat
  /\ apsOf m2 dev = [0%nat]
  /\ (length (List.filter is_AccessPointAdded (emitted m m2)) <= 1)%nat
  /\ (length (apsOf m2 dev) <= S (length (apsOf m dev)))%nat.
Proof.
  intros dev w m m2. split; [reflexivity|]. split; [reflexivity|].
  exact (addAccessPoint_twice_subscribed w w m dev "/ap/1" eq_refl).
Defined.

(** ** The invariant of the registry *)

Lemma registryOK_empty (m : Manager) : accessPoints m = ∅ -> registryOK m.
Proof.
  intros Hempty. split; intros *; rewrite Hempty, lookup_empty; discriminate.
Qed.

Lemma deref_heap_app (m m' : Manager) (l : list accessPoint) (p : nat) :
  heap m' = heap m ++ l -> (p < length (heap m))%nat -> deref m' p = deref m p.
Proof.
  intros Hheap Hp. unfold deref. rewrite Hheap, lookup_app_l by exact Hp.
  reflexivity.
Qed.

(** The invariant only reads the registry and the objects it points to. *)
Lemma registryOK_extend (m m' : Manager) (l : list accessPoint) :
  registryOK m -> accessPoints m' = accessPoints m -> heap m' = heap m ++ l ->
  registryOK m'.
Proof.
  intros [Hvalid Hunique Hown] Hreg Hheap.
  split; rewrite Hreg.
  - intros d aps p Hd Hp. rewrite Hheap, length_app.
    specialize (Hvalid d aps p Hd Hp). lia.
  - intros d1 d2 aps1 aps2 i j p q H1 H2 Hi Hj.
    rewrite (deref_heap_app m m' l p Hheap),
      (deref_heap_app m m' l q Hheap).
    + eauto.
    + eapply Hvalid; [exact H2|]. eapply list_elem_of_lookup_2. exact Hj.
    + eapply Hvalid; [exact H1|]. eapply list_elem_of_lookup_2. exact Hi.
  - intros d aps p Hd Hp.
    rewrite (deref_heap_app m m' l p Hheap) by eauto. eauto.
Qed.

Lemma builtObject_fields (w : World) (dev apPath : string) :
  nmAp (builtObject w dev apPath) = apPath
  /\ devPath (builtObject w dev apPath) = dev
  /\ Path (builtObject w dev apPath) = apPath.
Proof. repeat split. Qed.

(** The three ways [newAccessPoint] ends. *)
Lemma newAccessPoint_cases (w : World) (dev apPath : string) (m : Manager) :
  (exists e, nmNewAccessPoint w apPath = Some e
             /\ newAccessPoint w dev apPath m = (Err e, m))
  \/ (nmNewAccessPoint w apPath = None
      /\ Ssid (builtObject w dev apPath) = ""
      /\ newAccessPoint w dev apPath m
         = (Err "ignore hidden access point",
            set_heap (heap m ++ [builtObject w dev apPath]) m))
  \/ (nmNewAccessPoint w apPath = None
      /\ Ssid (builtObject w dev apPath) <> ""
      /\ newAccessPoint w dev apPath m
         = (match ConnectPropertiesChanged w apPath with
            | Some e => Err e
            | None => Ok (length (heap m))
            end,
            if shouldBeIgnored (builtObject w dev apPath)
            then set_heap (heap m ++ [builtObject w dev apPath]) m
            else Emit (AccessPointAdded dev
                         (marshalJSON (builtObject w dev apPath)))
                   (set_heap (heap m ++ [builtObject w dev apPath]) m))).
Proof.
  unfold newAccessPoint. fold (builtObject w dev apPath).
  destruct (nmNewAccessPoint w apPath) as [e|]; [left; eauto|right].
  unfold alloc.
  destruct (Ssid (builtObject w dev apPath)) as [|c rest] eqn:Hssid; simpl.
  - left. auto.
  - right. split; [reflexivity|]. split; [discriminate|].
    destruct (ConnectPropertiesChanged w apPath),
      (shouldBeIgnored (builtObject w dev apPath)); reflexivity.
Qed.

Lemma lookup_snoc_cases {A : Type} (l : list A) (x y : A) (i : nat) :
  (l ++ [x]) !! i = Some y ->
  l !! i = Some y \/ (i = length l /\ y = x).
Proof.
  intros Hi. apply lookup_snoc_Some in Hi as [[_ Hi]|[-> ->]]; auto.
Qed.

(** Registering a freshly built object whose path is not in the registry
    keeps the invariant. *)
Lemma registryOK_register (m m' : Manager) (ap : accessPoint) (dev : string) :
  registryOK m ->
  isAccessPointExists m (Path ap) = false ->
  devPath ap = dev ->
  heap m' = heap m ++ [ap] ->
  accessPoints m' = <[dev := apsOf m dev ++ [length (heap m)]]> (accessPoints m) ->
  registryOK m'.
Proof.
  intros HOK Hfresh Hdev Hheap Hreg.
  pose proof HOK as [Hvalid Hunique Hown].
  assert (Hnew : deref m' (length (heap m)) = ap).
  { unfold deref. rewrite Hheap, list_lookup_middle by reflexivity. reflexivity. }
  assert (Hold : forall d aps p, accessPoints m !! d = Some aps -> p ∈ aps ->
                   deref m' p = deref m p).
  { intros d aps p Hd Hp. apply (deref_heap_app m m' [ap]); eauto. }
  assert (Hnot : forall d aps p, accessPoints m !! d = Some aps -> p ∈ aps ->
                   Path (deref m p) <> Path ap).
  { intros d aps p Hd Hp Hpath.
    assert (Hex : isAccessPointExists m (Path ap) = true); [|congruence].
    apply isAccessPointExists_spec. exists p. split; [|exact Hpath].
    apply elem_of_registered. eauto. }
  (* an entry of the new registry: an old one, or the new pointer *)
  assert (Hentry : forall d aps i p,
            accessPoints m' !! d = Some aps -> aps !! i = Some p ->
            (exists aps0, accessPoints m !! d = Some aps0 /\ aps0 !! i = Some p)
            \/ (d = dev /\ i = length (apsOf m dev) /\ p = length (heap m))).
  { intros d aps i p Hd Hi. rewrite Hreg in Hd.
    destruct (decide (dev = d)) as [<-|Hne].
    - rewrite lookup_insert_eq in Hd. injection Hd as <-.
      apply lookup_snoc_cases in Hi as [Hi|[-> ->]]; [left|right; auto].
      unfold apsOf in Hi.
      destruct (accessPoints m !! dev) as [aps0|]; [eauto|discriminate].
    - rewrite lookup_insert_ne in Hd by exact Hne. left. eauto. }
  split.
  - intros d aps p Hd Hp. apply list_elem_of_lookup_1 in Hp as [i Hi].
    rewrite Hheap, length_app; simpl.
    destruct (Hentry d aps i p Hd Hi) as [(aps0 & Hd0 & Hi0)|(_ & _ & ->)]; [|lia].
    apply list_elem_of_lookup_2 in Hi0. specialize (Hvalid d aps0 p Hd0 Hi0). lia.
  - intros d1 d2 aps1 aps2 i j p q H1 H2 Hi Hj Hpath.
    destruct (Hentry d1 aps1 i p H1 Hi) as [(a1 & Hd1 & Hi1)|(-> & -> & ->)],
             (Hentry d2 aps2 j q H2 Hj) as [(a2 & Hd2 & Hj2)|(-> & -> & ->)].
    + rewrite (Hold d1 a1 p), (Hold d2 a2 q) in Hpath;
        eauto using list_elem_of_lookup_2.
    + exfalso. rewrite Hnew, (Hold d1 a1 p) in Hpath;
        eauto using list_elem_of_lookup_2.
      eapply Hnot; eauto using list_elem_of_lookup_2.
    + exfalso. rewrite Hnew, (Hold d2 a2 q) in Hpath;
        eauto using list_elem_of_lookup_2.
      eapply Hnot; eauto using list_elem_of_lookup_2.
    + auto.
  - intros d aps p Hd Hp. apply list_elem_of_lookup_1 in Hp as [i Hi].
    destruct (Hentry d aps i p Hd Hi) as [(aps0 & Hd0 & Hi0)|(-> & _ & ->)].
    + rewrite (Hold d aps0 p); eauto using list_elem_of_lookup_2.
    + rewrite Hnew. exact Hdev.
Qed.

Lemma registryOK_addAccessPoint (w : World) (m : Manager) (dev apPath : string) :
  registryOK m -> registryOK (addAccessPoint w dev apPath m).
Proof.
  intros HOK. unfold addAccessPoint.
  destruct (isAccessPointExists m apPath) eqn:Hfresh; [exact HOK|].
  destruct (newAccessPoint_cases w dev apPath m)
    as [(e & _ & ->)|[(_ & _ & ->)|(_ & _ & ->)]].
  - exact HOK.
  - eapply (registryOK_extend m); [exact HOK|reflexivity..].
  - destruct (ConnectPropertiesChanged w apPath).
    + destruct (shouldBeIgnored (builtObject w dev apPath));
        (eapply (registryOK_extend m); [exact HOK|reflexivity..]).
    + destruct (shouldBeIgnored (builtObject w dev apPath));
        (eapply (registryOK_register m _ (builtObject w dev apPath) dev);
         [exact HOK|exact Hfresh|reflexivity..]).
Qed.

Lemma deref_store_fields (w : World) (m : Manager) (p q : nat) :
  Path (deref (store p (updateProps w (deref m p)) m) q) = Path (deref m q)
  /\ devPath (deref (store p (updateProps w (deref m p)) m) q) = devPath (deref m q).
Proof.
  destruct (decide (p = q)) as [<-|Hne].
  - destruct (decide (p < length (heap m))%nat) as [Hp|Hp].
    + rewrite deref_store_eq by exact Hp. split; reflexivity.
    + unfold store, deref; simpl. rewrite list_insert_ge by lia.
      split; reflexivity.
  - rewrite deref_store_ne by exact Hne. split; reflexivity.
Qed.

Lemma onPropertiesChanged_frame (w : World) (m : Manager) (p : nat) :
  accessPoints (onPropertiesChanged w p m) = accessPoints m
  /\ (onPropertiesChanged w p m = m
      \/ heap (onPropertiesChanged w p m) = <[p := updateProps w (deref m p)]> (heap m)).
Proof.
  unfold onPropertiesChanged.
  destruct (negb _); [auto|].
  destruct (Bool.eqb _ _), (shouldBeIgnored (updateProps w (deref m p)));
    simpl; auto.
Qed.

Lemma registryOK_onPropertiesChanged (w : World) (m : Manager) (p : nat) :
  registryOK m -> registryOK (onPropertiesChanged w p m).
Proof.
  intros HOK.
  destruct (onPropertiesChanged_frame w m p) as [Hreg [->|Hheap]]; [exact HOK|].
  destruct HOK as [Hvalid Hunique Hown].
  assert (Hfields : forall q,
            Path (deref (onPropertiesChanged w p m) q) = Path (deref m q)
            /\ devPath (deref (onPropertiesChanged w p m) q) = devPath (deref m q)).
  { intros q. pose proof (deref_store_fields w m p q) as Hq.
    unfold deref in *. rewrite Hheap. exact Hq. }
  split; rewrite Hreg.
  - intros d aps q Hd Hq. rewrite Hheap, length_insert. eauto.
  - intros d1 d2 aps1 aps2 i j q1 q2 H1 H2 Hi Hj.
    rewrite (proj1 (Hfields q1)), (proj1 (Hfields q2)). eauto.
  - intros d aps q Hd Hq. rewrite (proj2 (Hfields q)). eauto.
Qed.

Lemma registryOK_clearAccessPoints (m : Manager) :
  registryOK (clearAccessPoints m).
Proof. apply registryOK_empty. rewrite clearAccessPoints_eq. reflexivity. Qed.

(** ** The index of a registered path *)

Lemma indexOfPath_at (m : Manager) (apPath : string) (aps : list nat)
    (n p : nat) (k : Z) :
  aps !! n = Some p -> Path (deref m p) = apPath ->
  (forall j q, aps !! j = Some q -> Path (deref m q) = apPath -> j = n) ->
  indexOfPath m apPath aps k = Some (k + Z.of_nat n)%Z.
Proof.
  revert n k. induction aps as [|a aps IH]; intros n k Hn Hpath Honly;
    [discriminate|].
  simpl. destruct n as [|n].
  - injection Hn as ->. rewrite (proj2 (String.eqb_eq _ _) Hpath).
    f_equal. lia.
  - destruct (String.eqb_spec (Path (deref m a)) apPath) as [Ha|_].
    + specialize (Honly 0%nat a eq_refl Ha). discriminate.
    + rewrite (IH n (k + 1)%Z Hn Hpath).
      * f_equal. lia.
      * intros j q Hj Hq. specialize (Honly (S j) q Hj Hq). lia.
Qed.

Lemma getAccessPointIndex_loop_at (m : Manager) (apPath d : string)
    (aps : list nat) (i : Z) (entries : list (string * list nat)) :
  (d, aps) ∈ entries ->
  indexOfPath m apPath aps 0 = Some i ->
  (forall d' aps', (d', aps') ∈ entries -> d' = d -> aps' = aps) ->
  (forall d' aps', (d', aps') ∈ entries -> d' <> d ->
     indexOfPath m apPath aps' 0 = None) ->
  getAccessPointIndex_loop m apPath entries = (d, i).
Proof.
  intros Hin Hidx Hsame Hother.
  induction entries as [|[d' aps'] entries IH]; [inversion Hin|].
  simpl. destruct (decide (d' = d)) as [->|Hne].
  - rewrite (Hsame d aps') by (left || reflexivity). rewrite Hidx. reflexivity.
  - rewrite (Hother d' aps') by (left || exact Hne).
    apply IH.
    + apply elem_of_cons in Hin as [Heq|Hin]; [congruence|exact Hin].
    + intros d2 aps2 H2. apply Hsame. right. exact H2.
    + intros d2 aps2 H2. apply Hother. right. exact H2.
Qed.

(** In a registry that keeps its invariant, the search returns the device
    that holds the path and the position of the path in its slice,
    whatever the order in which the map is visited. *)
Lemma getAccessPointIndex_registered (m : Manager) (d : string)
    (aps : list nat) (n p : nat) :
  registryOK m ->
  accessPoints m !! d = Some aps -> aps !! n = Some p ->
  getAccessPointIndex m (Path (deref m p)) = (d, Z.of_nat n).
Proof.
  intros [_ Hunique _] Hd Hn. unfold getAccessPointIndex.
  apply (getAccessPointIndex_loop_at m _ d aps).
  - apply elem_of_map_to_list. exact Hd.
  - rewrite (indexOfPath_at m _ aps n p 0); [reflexivity|exact Hn|reflexivity|].
    intros j q Hj Hq. symmetry in Hq.
    destruct (Hunique d d aps aps n j p q Hd Hd Hn Hj Hq) as [_ ->]. reflexivity.
  - intros d' aps' Hin ->. apply elem_of_map_to_list in Hin. congruence.
  - intros d' aps' Hin Hne. apply elem_of_map_to_list in Hin.
    apply indexOfPath_None. intros q Hq Hpath.
    apply list_elem_of_lookup_1 in Hq as [j Hj]. symmetry in Hpath.
    destruct (Hunique d d' aps aps' n j p q Hd Hin Hn Hj Hpath) as [-> _].
    contradiction.
Qed.

(** ** Removing *)

Lemma delete_lookup_source {A : Type} (l : list A) (n i : nat) (x : A) :
  delete n l !! i = Some x ->
  exists i', l !! i' = Some x
             /\ ((i < n /\ i' = i) \/ (n <= i /\ i' = S i))%nat.
Proof.
  intros Hi. destruct (decide (i < n)%nat) as [Hlt|Hge].
  - rewrite list_lookup_delete_lt in Hi by exact Hlt.
    exists i. split; [exact Hi|]. left. split; [exact Hlt|reflexivity].
  - rewrite list_lookup_delete_ge in Hi by lia.
    exists (S i). split; [exact Hi|]. right. split; [lia|reflexivity].
Qed.

(** Taking one pointer out of the slice of a device keeps the invariant,
    and the path of the pointer taken out is then in no slice. *)
Lemma registryOK_delete (m m' : Manager) (dev : string) (aps : list nat)
    (n p : nat) :
  registryOK m ->
  accessPoints m !! dev = Some aps -> aps !! n = Some p ->
  heap m' = heap m ->
  accessPoints m' = <[dev := delete n aps]> (accessPoints m) ->
  registryOK m' /\ isAccessPointExists m' (Path (deref m p)) = false.
Proof.
  intros [Hvalid Hunique Hown] Hdev Hn Hheap Hreg.
  assert (Hderef : forall q, deref m' q = deref m q).
  { intros q. unfold deref. rewrite Hheap. reflexivity. }
  assert (Hentry : forall d aps' i q,
            accessPoints m' !! d = Some aps' -> aps' !! i = Some q ->
            exists aps0 i0,
              accessPoints m !! d = Some aps0 /\ aps0 !! i0 = Some q
              /\ (d = dev -> (i < n /\ i0 = i) \/ (n <= i /\ i0 = S i))%nat
              /\ (d <> dev -> i0 = i)).
  { intros d aps' i q Hd Hi. rewrite Hreg in Hd.
    destruct (decide (dev = d)) as [<-|Hne].
    - rewrite lookup_insert_eq in Hd. injection Hd as <-.
      apply delete_lookup_source in Hi as (i0 & Hi0 & Hcases).
      exists aps, i0. split; [exact Hdev|]. split; [exact Hi0|].
      split; [intros _; exact Hcases|]. intros Hne. contradiction.
    - rewrite lookup_insert_ne in Hd by exact Hne.
      exists aps', i. split; [exact Hd|]. split; [exact Hi|].
      split; [|reflexivity]. intros ->. contradiction. }
  split; [split|].
  - intros d aps' q Hd Hq. apply list_elem_of_lookup_1 in Hq as [i Hi].
    destruct (Hentry d aps' i q Hd Hi) as (aps0 & i0 & Hd0 & Hi0 & _).
    rewrite Hheap. eapply Hvalid; eauto using list_elem_of_lookup_2.
  - intros d1 d2 aps1 aps2 i j q1 q2 H1 H2 Hi Hj Hpath.
    rewrite !Hderef in Hpath.
    destruct (Hentry d1 aps1 i q1 H1 Hi) as (a1 & i0 & Hd1 & Hi0 & Hdev1 & Hoth1).
    destruct (Hentry d2 aps2 j q2 H2 Hj) as (a2 & j0 & Hd2 & Hj0 & Hdev2 & Hoth2).
    destruct (Hunique d1 d2 a1 a2 i0 j0 q1 q2 Hd1 Hd2 Hi0 Hj0 Hpath) as [<- <-].
    split; [reflexivity|].
    destruct (decide (d1 = dev)) as [Heq|Hne].
    + specialize (Hdev1 Heq). specialize (Hdev2 Heq). lia.
    + rewrite <- (Hoth1 Hne), <- (Hoth2 Hne). reflexivity.
  - intros d aps' q Hd Hq. apply list_elem_of_lookup_1 in Hq as [i Hi].
    destruct (Hentry d aps' i q Hd Hi) as (aps0 & i0 & Hd0 & Hi0 & _).
    rewrite Hderef. eapply Hown; eauto using list_elem_of_lookup_2.
  - apply not_true_iff_false. intros Hex.
    apply isAccessPointExists_spec in Hex as (q & Hq & Hpath).
    apply elem_of_registered in Hq as (d & aps' & Hd & Hq).
    apply list_elem_of_lookup_1 in Hq as [i Hi].
    destruct (Hentry d aps' i q Hd Hi) as (aps0 & i0 & Hd0 & Hi0 & Hdev0 & _).
    rewrite Hderef in Hpath.
    destruct (Hunique d dev aps0 aps i0 n q p Hd0 Hdev Hi0 Hn Hpath) as [-> ->].
    specialize (Hdev0 eq_refl). lia.
Qed.

Lemma doRemoveAccessPoint_at (m : Manager) (aps : list nat) (n : nat) :
  doRemoveAccessPoint aps (Z.of_nat n) m
  = match aps !! n with
    | None => None
    | Some p => Some (delete n aps, destroyAccessPoint p m)
    end.
Proof.
  unfold doRemoveAccessPoint.
  destruct (Z.ltb_spec (Z.of_nat n) 0); [lia|].
  rewrite Nat2Z.id. reflexivity.
Qed.

Lemma apsOf_lookup (m : Manager) (dev : string) (aps : list nat) :
  accessPoints m !! dev = Some aps -> apsOf m dev = aps.
Proof. intros Hdev. unfold apsOf. rewrite Hdev. reflexivity. Qed.

Lemma removeAccessPoint_registered (m : Manager) (dev d : string)
    (aps : list nat) (n p : nat) :
  registryOK m ->
  accessPoints m !! d = Some aps -> aps !! n = Some p ->
  removeAccessPoint dev (Path (deref m p)) m
  = match apsOf m dev !! n with
    | None => None
    | Some q =>
        Some (set_accessPoints (<[dev := delete n (apsOf m dev)]> (accessPoints m))
                (destroyAccessPoint q m))
    end.
Proof.
  intros HOK Hd Hn. unfold removeAccessPoint.
  rewrite isAccessPointExists_registered; simpl.
  - rewrite (getAccessPointIndex_registered m d aps n p HOK Hd Hn); simpl.
    rewrite doRemoveAccessPoint_at.
    destruct (apsOf m dev !! n); reflexivity.
  - apply elem_of_registered. exists d, aps. split; [exact Hd|].
    eapply list_elem_of_lookup_2. exact Hn.
Qed.

(** Removing an access point through the device that holds it: it never
    panics; exactly one AccessPointRemoved is emitted, for that object; the
    slice of the device loses that pointer and keeps the others in their
    order; the other devices and the objects are untouched; the path is no
    longer in the registry, and the invariant still holds. *)
Theorem removeAccessPoint_by_owner (m : Manager) (dev : string)
    (aps : list nat) (n p : nat) :
  registryOK m ->
  accessPoints m !! dev = Some aps -> aps !! n = Some p ->
  exists m',
    removeAccessPoint dev (Path (deref m p)) m = Some m'
    /\ emitted m m' = [removedSignal m p]
    /\ accessPoints m' = <[dev := delete n aps]> (accessPoints m)
    /\ heap m' = heap m
    /\ isAccessPointExists m' (Path (deref m p)) = false
    /\ registryOK m'.
Proof.
  intros HOK Hdev Hn.
  rewrite (removeAccessPoint_registered m dev dev aps n p HOK Hdev Hn).
  rewrite (apsOf_lookup m dev aps Hdev), Hn.
  eexists. split; [reflexivity|].
  split; [apply emitted_Emit; reflexivity|].
  split; [reflexivity|]. split; [reflexivity|].
  apply and_comm.
  apply (registryOK_delete m _ dev aps n p HOK Hdev Hn); reflexivity.
Qed.

(** Two visible access points are added to a device and the first one is
    removed: one AccessPointRemoved, the second one is left alone. *)
Lemma removeAccessPoint_by_owner_witness :
  let dev := "/dev/wlan0" in
  let w := Scenario.world [("/ap/1", Scenario.props "home" 0 0 0 50 2412);
                           ("/ap/2", Scenario.props "cafe" 0 0 0 40 5180)]
             (fun _ => None) [] apSecNone [] in
  let m := addAccessPoint w dev "/ap/2"
             (addAccessPoint w dev "/ap/1" (Scenario.manager [] [] [dev])) in
  exists m',
    removeAccessPoint dev "/ap/1" m = Some m'
    /\ emitted m m' = [removedSignal m 0]
    /\ apsOf m' dev = [1%nat]
    /\ isAccessPointExists m' "/ap/1" = false.
Proof.
  intros dev w m.
  assert (HOK : registryOK m).
  { do 2 apply registryOK_addAccessPoint. apply registryOK_empty. reflexivity. }
  destruct (removeAccessPoint_by_owner m dev [0%nat; 1%nat] 0 0 HOK
              eq_refl eq_refl)
    as (m' & Hrm & Hsig & Hreg & _ & Hgone & _).
  exists m'. split; [exact Hrm|]. split; [exact Hsig|].
  split; [|exact Hgone].
  unfold apsOf. rewrite Hreg, lookup_insert_eq. reflexivity.
Defined.

(** Removing a path that no registered access point has is a no-op,
    whatever device is named: nothing is emitted and the manager is as it
    was. *)
Theorem removeAccessPoint_absent (m : Manager) (dev apPath : string) :
  (forall p, p ∈ registered m -> Path (deref m p) <> apPath) ->
  removeAccessPoint dev apPath m = Some m.
Proof.
  intros Habsent. unfold removeAccessPoint.
  destruct (isAccessPointExists m apPath) eqn:Hex; [|reflexivity].
  apply isAccessPointExists_spec in Hex as (p & Hp & Hpath).
  exfalso. exact (Habsent p Hp Hpath).
Qed.

(** One access point is registered; a path that was never added is
    removed. *)
Lemma removeAccessPoint_absent_witness :
  let dev := "/dev/wlan0" in
  let w := Scenario.world [("/ap/1", Scenario.props "home" 0 0 0 50 2412)]
             (fun _ => None) [] apSecNone [] in
  let m := addAccessPoint w dev "/ap/1" (Scenario.manager [] [] [dev]) in
  registered m = [0%nat] /\ removeAccessPoint dev "/ap/9" m = Some m.
Proof.
  intros dev w m. split; [reflexivity|].
  apply (removeAccessPoint_absent m dev "/ap/9").
  intros p Hp. change (registered m) with [0%nat] in Hp.
  apply list_elem_of_singleton in Hp as ->. discriminate.
Defined.

(** Removing an access point through a device that does not hold it.  The
    index found in the slice of the holder is applied to the slice of the
    device named: when that slice is too short the call panics; otherwise
    the object at that index, another access point, is destroyed and taken
    out, and the path asked for stays registered. *)
Theorem removeAccessPoint_by_other_device (m : Manager) (dev d : string)
    (aps : list nat) (n p : nat) :
  registryOK m ->
  accessPoints m !! d = Some aps -> aps !! n = Some p -> dev <> d ->
  match apsOf m dev !! n with
  | None => removeAccessPoint dev (Path (deref m p)) m = None
  | Some q =>
      exists m',
        removeAccessPoint dev (Path (deref m p)) m = Some m'
        /\ Path (deref m q) <> Path (deref m p)
        /\ emitted m m' = [removedSignal m q]
        /\ apsOf m' dev = delete n (apsOf m dev)
        /\ accessPoints m' !! d = Some aps
        /\ isAccessPointExists m' (Path (deref m p)) = true
  end.
Proof.
  intros HOK Hd Hn Hne.
  rewrite (removeAccessPoint_registered m dev d aps n p HOK Hd Hn).
  destruct (apsOf m dev !! n) as [q|] eqn:Hq; [|reflexivity].
  eexists. split; [reflexivity|].
  assert (Hkept : accessPoints
                    (set_accessPoints
                       (<[dev := delete n (apsOf m dev)]> (accessPoints m))
                       (destroyAccessPoint q m)) !! d = Some aps).
  { simpl. rewrite lookup_insert_ne by exact Hne. exact Hd. }
  split.
  - intros Hpath. unfold apsOf in Hq.
    destruct (accessPoints m !! dev) as [aps'|] eqn:Hdev; [|discriminate].
    destruct HOK as [_ Hunique _].
    destruct (Hunique dev d aps' aps n n q p Hdev Hd Hq Hn Hpath) as [Heq _].
    contradiction.
  - split; [apply emitted_Emit; reflexivity|].
    split; [unfold apsOf at 1; simpl; rewrite lookup_insert_eq; reflexivity|].
    split; [exact Hkept|].
    apply isAccessPointExists_spec. exists p. split; [|reflexivity].
    apply elem_of_registered. exists d, aps. split; [exact Hkept|].
    eapply list_elem_of_lookup_2. exact Hn.
Qed.

(** "/ap/1" is held by wlan0 and "/ap/2" by wlan1, each at index 0.
    Removing "/ap/1" through wlan1 destroys "/ap/2"; through a device with
    no access point it panics. *)
Lemma removeAccessPoint_by_other_device_witness :
  let w := Scenario.world [("/ap/1", Scenario.props "home" 0 0 0 50 2412);
                           ("/ap/2", Scenario.props "cafe" 0 0 0 40 5180)]
             (fun _ => None) [] apSecNone [] in
  let m := addAccessPoint w "/dev/wlan1" "/ap/2"
             (addAccessPoint w "/dev/wlan0" "/ap/1"
                (Scenario.manager [] [] ["/dev/wlan0"; "/dev/wlan1"])) in
  (exists m',
     removeAccessPoint "/dev/wlan1" "/ap/1" m = Some m'
     /\ emitted m m' = [removedSignal m 1]
     /\ json_Path (marshalJSON (deref m 1)) = "/ap/2"
     /\ apsOf m' "/dev/wlan1" = []
     /\ isAccessPointExists m' "/ap/1" = true)
  /\ removeAccessPoint "/dev/wlan2" "/ap/1" m = None.
Proof.
  intros w m.
  assert (HOK : registryOK m).
  { do 2 apply registryOK_addAccessPoint. apply registryOK_empty. reflexivity. }
  split.
  - pose proof (removeAccessPoint_by_other_device m "/dev/wlan1" "/dev/wlan0"
                  [0%nat] 0 0 HOK eq_refl eq_refl ltac:(discriminate)) as Hrm.
    change (apsOf m "/dev/wlan1" !! 0%nat) with (Some 1%nat) in Hrm.
    destruct Hrm as (m' & Hrm & _ & Hsig & Haps & _ & Hstill).
    exists m'. split; [exact Hrm|]. split; [exact Hsig|].
    split; [reflexivity|]. split; [exact Haps|exact Hstill].
  - exact (removeAccessPoint_by_other_device m "/dev/wlan2" "/dev/wlan0"
             [0%nat] 0 0 HOK eq_refl eq_refl ltac:(discriminate)).
Defined.

(** ** Adding, then removing *)

(** What [addAccessPoint] does when it registers: the path is new, the
    proxy is created, the SSID is not empty and the subscription works. *)
Lemma addAccessPoint_registers (w : World) (m : Manager) (dev apPath : string) :
  isAccessPointExists m apPath = false ->
  nmNewAccessPoint w apPath = None ->
  Ssid (builtObject w dev apPath) <> "" ->
  ConnectPropertiesChanged w apPath = None ->
  addAccessPoint w dev apPath m
  = set_accessPoints
      (<[dev := apsOf m dev ++ [length (heap m)]]> (accessPoints m))
      (if shouldBeIgnored (builtObject w dev apPath)
       then set_heap (heap m ++ [builtObject w dev apPath]) m
       else Emit (AccessPointAdded dev (marshalJSON (builtObject w dev apPath)))
              (set_heap (heap m ++ [builtObject w dev apPath]) m)).
Proof.
  intros Hfresh Hnew Hssid Hsub. unfold addAccessPoint. rewrite Hfresh.
  destruct (newAccessPoint_cases w dev apPath m)
    as [(e & He & _)|[(_ & Hhidden & _)|(_ & _ & ->)]]; [congruence..|].
  rewrite Hsub.
  destruct (shouldBeIgnored (builtObject w dev apPath)); reflexivity.
Qed.

(** An access point that is added and then removed through the same
    device leaves the registry as it was: the slice of the device is back
    to what it held, in the same order, and the other devices are
    untouched.  AccessPointRemoved is emitted in every case, also for an
    access point that was ignored when added and so never announced. *)
Theorem addAccessPoint_then_remove (w : World) (m : Manager)
    (dev apPath : string) :
  registryOK m ->
  isAccessPointExists m apPath = false ->
  nmNewAccessPoint w apPath = None ->
  Ssid (builtObject w dev apPath) <> "" ->
  ConnectPropertiesChanged w apPath = None ->
  exists m',
    removeAccessPoint dev apPath (addAccessPoint w dev apPath m) = Some m'
    /\ apsOf m' dev = apsOf m dev
    /\ (forall d, d <> dev -> accessPoints m' !! d = accessPoints m !! d)
    /\ isAccessPointExists m' apPath = false
    /\ emitted m m'
       = (if shouldBeIgnored (builtObject w dev apPath) then []
          else [AccessPointAdded dev (marshalJSON (builtObject w dev apPath))])
         ++ [AccessPointRemoved dev (marshalJSON (builtObject w dev apPath))].
Proof.
  intros HOK Hfresh Hnew Hssid Hsub.
  pose proof (registryOK_addAccessPoint w m dev apPath HOK) as HOK1.
  pose proof (addAccessPoint_registers w m dev apPath Hfresh Hnew Hssid Hsub)
    as Hadd.
  set (m1 := addAccessPoint w dev apPath m) in *.
  set (obj := builtObject w dev apPath) in *.
  set (pnew := length (heap m)) in *.
  assert (Hheap1 : heap m1 = heap m ++ [obj]).
  { rewrite Hadd. destruct (shouldBeIgnored obj); reflexivity. }
  assert (Hreg1 : accessPoints m1 = <[dev := apsOf m dev ++ [pnew]]> (accessPoints m)).
  { rewrite Hadd. reflexivity. }
  assert (Hsig1 : signals m1
                  = signals m ++ (if shouldBeIgnored obj then []
                                  else [AccessPointAdded dev (marshalJSON obj)])).
  { rewrite Hadd. destruct (shouldBeIgnored obj); simpl;
      [rewrite app_nil_r|]; reflexivity. }
  assert (Hobj : deref m1 pnew = obj).
  { unfold deref. rewrite Hheap1, list_lookup_middle by reflexivity. reflexivity. }
  assert (Hdev1 : accessPoints m1 !! dev = Some (apsOf m dev ++ [pnew])).
  { rewrite Hreg1. apply lookup_insert_eq. }
  assert (Hat : (apsOf m dev ++ [pnew]) !! length (apsOf m dev) = Some pnew).
  { apply list_lookup_middle. reflexivity. }
  pose proof (removeAccessPoint_registered m1 dev dev _ _ pnew HOK1 Hdev1 Hat)
    as Hrm.
  rewrite Hobj in Hrm. change (Path obj) with apPath in Hrm.
  rewrite (apsOf_lookup m1 dev _ Hdev1), Hat in Hrm.
  eexists. split; [exact Hrm|].
  assert (Hdel : delete (length (apsOf m dev)) (apsOf m dev ++ [pnew]) = apsOf m dev).
  { rewrite delete_middle, app_nil_r. reflexivity. }
  split; [unfold apsOf at 1; simpl; rewrite lookup_insert_eq, Hdel; reflexivity|].
  split.
  { intros d Hd. simpl. rewrite lookup_insert_ne by congruence.
    rewrite Hreg1, lookup_insert_ne by congruence. reflexivity. }
  split.
  { pose proof (registryOK_delete m1
                  (set_accessPoints
                     (<[dev := delete (length (apsOf m dev)) (apsOf m dev ++ [pnew])]>
                        (accessPoints m1))
                     (destroyAccessPoint pnew m1))
                  dev _ _ pnew HOK1 Hdev1 Hat eq_refl eq_refl) as [_ Hgone].
    rewrite Hobj in Hgone. exact Hgone. }
  unfold emitted. simpl. unfold destroyAccessPoint. rewrite Hobj. simpl.
  rewrite Hsig1, <- app_assoc, drop_app_length. reflexivity.
Qed.

(** An access point of strength 5, ignored when added, is added and
    removed: no AccessPointAdded, one AccessPointRemoved, registry back. *)
Lemma addAccessPoint_then_remove_witness :
  let dev := "/dev/wlan0" in
  let w := Scenario.world [("/ap/1", Scenario.props "home" 0 0 0 50 2412);
                           ("/ap/2", Scenario.props "cafe" 0 0 0 5 5180)]
             (fun _ => None) [] apSecNone [] in
  let m := addAccessPoint w dev "/ap/1" (Scenario.manager [] [] [dev]) in
  exists m',
    removeAccessPoint dev "/ap/2" (addAccessPoint w dev "/ap/2" m) = Some m'
    /\ apsOf m' dev = [0%nat]
    /\ emitted m m'
       = [AccessPointRemoved dev
            {| json_Ssid := "cafe"; json_Secured := false;
               json_SecuredInEap := false; json_Strength := 5;
               json_Path := "/ap/2"; json_Frequency := 5180 |}].
Proof.
  intros dev w m.
  assert (HOK : registryOK m).
  { apply registryOK_addAccessPoint. apply registryOK_empty. reflexivity. }
  destruct (addAccessPoint_then_remove w m dev "/ap/2" HOK eq_refl eq_refl
              ltac:(discriminate) eq_refl)
    as (m' & Hrm & Haps & _ & _ & Hsig).
  exists m'. split; [exact Hrm|]. split; [exact Haps|exact Hsig].
Defined.

(** ** The invariant is kept *)

Lemma registryOK_removeAccessPoint (m m' : Manager) (dev apPath : string) :
  registryOK m -> removeAccessPoint dev apPath m = Some m' -> registryOK m'.
Proof.
  intros HOK Hrm.
  destruct (isAccessPointExists m apPath) eqn:Hex.
  - apply isAccessPointExists_spec in Hex as (p & Hp & <-).
    apply elem_of_registered in Hp as (d & aps & Hd & Hp).
    apply list_elem_of_lookup_1 in Hp as [n Hn].
    rewrite (removeAccessPoint_registered m dev d aps n p HOK Hd Hn) in Hrm.
    destruct (apsOf m dev !! n) as [q|] eqn:Hq; [|discriminate].
    injection Hrm as <-.
    unfold apsOf in *.
    destruct (accessPoints m !! dev) as [aps'|] eqn:Hdev; [|discriminate].
    simpl in Hq.
    apply (registryOK_delete m _ dev aps' n q HOK Hdev Hq); reflexivity.
  - unfold removeAccessPoint in Hrm. rewrite Hex in Hrm.
    injection Hrm as <-. exact HOK.
Qed.

Lemma registryOK_checkAPStrength (w : World) (m : Manager) :
  registryOK m -> registryOK (checkAPStrength w m).
Proof.
  intros HOK. apply (registryOK_extend m _ []); [exact HOK|reflexivity|].
  rewrite app_nil_r. reflexivity.
Qed.

(** The registry invariant (every pointer points into the store, a path
    occurs at most once in the whole registry, every object sits under the
    device it was built for) is kept by [addAccessPoint], by the
    property-changed handler, by [removeAccessPoint] whenever it returns,
    by [clearAccessPoints] and by a steering pass. *)
Theorem registryOK_kept (w : World) (m : Manager) (dev apPath : string)
    (p : nat) :
  registryOK m ->
  registryOK (addAccessPoint w dev apPath m)
  /\ registryOK (onPropertiesChanged w p m)
  /\ (forall m', removeAccessPoint dev apPath m = Some m' -> registryOK m')
  /\ registryOK (clearAccessPoints m)
  /\ registryOK (checkAPStrength w m).
Proof.
  intros HOK.
  split; [apply registryOK_addAccessPoint; exact HOK|].
  split; [apply registryOK_onPropertiesChanged; exact HOK|].
  split; [intros m'; apply registryOK_removeAccessPoint; exact HOK|].
  split; [apply registryOK_clearAccessPoints|].
  apply registryOK_checkAPStrength. exact HOK.
Qed.

(** From the empty registry: an add, then a second add of the same path
    under another device, a notification and a removal. *)
Lemma registryOK_kept_witness :
  let w := Scenario.world [("/ap/1", Scenario.props "home" 0 0 0 50 2412)]
             (fun _ => None) [] apSecNone [] in
  let m0 := Scenario.manager [] [] ["/dev/wlan0"] in
  let m1 := addAccessPoint w "/dev/wlan0" "/ap/1" m0 in
  let m2 := addAccessPoint w "/dev/wlan1" "/ap/1" m1 in
  registryOK m1
  /\ registryOK m2
  /\ registered m2 = [0%nat]
  /\ registryOK (onPropertiesChanged w 0 m2)
  /\ (forall m', removeAccessPoint "/dev/wlan0" "/ap/1" m2 = Some m' ->
        registryOK m').
Proof.
  intros w m0 m1 m2.
  assert (H0 : registryOK m0) by (apply registryOK_empty; reflexivity).
  assert (H1 : registryOK m1)
    by exact (proj1 (registryOK_kept w m0 "/dev/wlan0" "/ap/1" 0 H0)).
  assert (H2 : registryOK m2)
    by exact (proj1 (registryOK_kept w m1 "/dev/wlan1" "/ap/1" 0 H1)).
  split; [exact H1|]. split; [exact H2|]. split; [reflexivity|].
  split.
  - exact (proj1 (proj2 (registryOK_kept w m2 "/dev/wlan0" "/ap/1" 0 H2))).
  - exact (proj1 (proj2 (proj2 (registryOK_kept w m2 "/dev/wlan0" "/ap/1" 0 H2)))).
Defined.

(** ** Notifications and the listing *)

Lemma updateProps_idempotent (w : World) (a : accessPoint) :
  updateProps w (updateProps w a) = updateProps w a.
Proof. reflexivity. Qed.

Lemma elem_of_filteredAccessPoints (m : Manager) (dev : string) (q : nat) :
  q ∈ filteredAccessPoints m dev <->
  q ∈ apsOf m dev /\ shouldBeIgnored (deref m q) = false.
Proof.
  rewrite filteredAccessPoints_filter, !list_elem_of_In, filter_In,
    negb_true_iff. reflexivity.
Qed.

Lemma listed_bool (m : Manager) (dev : string) (q : nat) :
  q ∈ apsOf m dev ->
  bool_decide (q ∈ filteredAccessPoints m dev) = negb (shouldBeIgnored (deref m q)).
Proof.
  intros Hq. destruct (shouldBeIgnored (deref m q)) eqn:Hflag; simpl.
  - apply bool_decide_eq_false_2. rewrite elem_of_filteredAccessPoints.
    intros [_ Hf]. congruence.
  - apply bool_decide_eq_true_2. rewrite elem_of_filteredAccessPoints. auto.
Qed.

(** The handler, for a pointer of the registry: the refreshed object is
    stored, then at most one signal is emitted. *)
Lemma onPropertiesChanged_registered (w : World) (m : Manager) (p : nat) :
  p ∈ registered m ->
  onPropertiesChanged w p m
  = let ap := updateProps w (deref m p) in
    let m1 := store p ap m in
    match shouldBeIgnored (deref m p), shouldBeIgnored ap with
    | true, true => m1
    | false, false =>
        Emit (AccessPointPropertiesChanged (devPath ap) (marshalJSON ap)) m1
    | true, false => Emit (AccessPointAdded (devPath ap) (marshalJSON ap)) m1
    | false, true => Emit (AccessPointRemoved (devPath ap) (marshalJSON ap)) m1
    end.
Proof.
  intros Hp. unfold onPropertiesChanged.
  rewrite (isAccessPointExists_registered m p Hp); simpl negb; cbv iota.
  destruct (shouldBeIgnored (deref m p)),
    (shouldBeIgnored (updateProps w (deref m p))); reflexivity.
Qed.

(** The signals of the handler follow the listing.  For an access point
    held by a device, AccessPointAdded is emitted exactly when the
    notification brings it into what [GetAccessPoints] lists for the
    device, AccessPointRemoved exactly when it takes it out,
    AccessPointPropertiesChanged when it is listed before and after, and
    nothing when it is listed neither before nor after.  The signal carries
    the refreshed object, and whether any other object is listed, under any
    device, does not change. *)
Theorem onPropertiesChanged_follows_listing (w : World) (m : Manager)
    (dev : string) (aps : list nat) (p : nat) :
  registryOK m ->
  accessPoints m !! dev = Some aps -> p ∈ aps ->
  emitted m (onPropertiesChanged w p m)
  = match bool_decide (p ∈ filteredAccessPoints m dev),
          bool_decide (p ∈ filteredAccessPoints (onPropertiesChanged w p m) dev)
    with
    | false, false => []
    | true, true =>
        [AccessPointPropertiesChanged dev
           (marshalJSON (deref (onPropertiesChanged w p m) p))]
    | false, true =>
        [AccessPointAdded dev (marshalJSON (deref (onPropertiesChanged w p m) p))]
    | true, false =>
        [AccessPointRemoved dev (marshalJSON (deref (onPropertiesChanged w p m) p))]
    end
  /\ deref (onPropertiesChanged w p m) p = updateProps w (deref m p)
  /\ (forall d q, q <> p ->
        (q ∈ filteredAccessPoints (onPropertiesChanged w p m) d
         <-> q ∈ filteredAccessPoints m d)).
Proof.
  intros HOK Hdev Hp.
  pose proof HOK as [Hvalid _ Hown].
  assert (Hreg : p ∈ registered m) by (apply elem_of_registered; eauto).
  assert (Hlt : (p < length (heap m))%nat) by eauto.
  assert (Hdevp : devPath (deref m p) = dev) by eauto.
  assert (Haps : apsOf m dev = aps) by (apply apsOf_lookup; exact Hdev).
  set (ap := updateProps w (deref m p)).
  assert (Hstate : exists ss,
            onPropertiesChanged w p m = emitAll ss (store p ap m)
            /\ ss = match shouldBeIgnored (deref m p), shouldBeIgnored ap with
                    | true, true => []
                    | false, false =>
                        [AccessPointPropertiesChanged dev (marshalJSON ap)]
                    | true, false => [AccessPointAdded dev (marshalJSON ap)]
                    | false, true => [AccessPointRemoved dev (marshalJSON ap)]
                    end).
  { rewrite (onPropertiesChanged_registered w m p Hreg). cbv zeta. fold ap.
    change (devPath ap) with (devPath (deref m p)). rewrite Hdevp.
    destruct (shouldBeIgnored (deref m p)), (shouldBeIgnored ap);
      eexists; (split; [|reflexivity]);
      rewrite ?emitAll_nil; reflexivity. }
  destruct Hstate as (ss & -> & Hss).
  assert (Hnew : deref (emitAll ss (store p ap m)) p = ap).
  { change (deref (emitAll ss (store p ap m)) p) with (deref (store p ap m) p).
    apply deref_store_eq. exact Hlt. }
  assert (Hothers : forall q, q <> p ->
            deref (emitAll ss (store p ap m)) q = deref m q).
  { intros q Hq.
    change (deref (emitAll ss (store p ap m)) q) with (deref (store p ap m) q).
    apply deref_store_ne. congruence. }
  split; [|split].
  - rewrite !listed_bool.
    + rewrite Hnew.
      change (emitted m (emitAll ss (store p ap m)))
        with (drop (length (signals m)) (signals m ++ ss)).
      rewrite drop_app_length, Hss.
      destruct (shouldBeIgnored (deref m p)), (shouldBeIgnored ap); reflexivity.
    + change (apsOf (emitAll ss (store p ap m)) dev) with (apsOf m dev).
      rewrite Haps. exact Hp.
    + rewrite Haps. exact Hp.
  - exact Hnew.
  - intros d q Hq. rewrite !elem_of_filteredAccessPoints.
    change (apsOf (emitAll ss (store p ap m)) d) with (apsOf m d).
    rewrite (Hothers q Hq). reflexivity.
Qed.

(** An access point registered while ignored reports strength 50: it
    enters the listing and AccessPointAdded is emitted. *)
Lemma onPropertiesChanged_follows_listing_witness :
  let dev := "/dev/wlan0" in
  let w5 := Scenario.world [("/ap/1", Scenario.props "home" 0 0 0 5 2412)]
              (fun _ => None) [] apSecNone [] in
  let w50 := Scenario.world [("/ap/1", Scenario.props "home" 0 0 0 50 2412)]
               (fun _ => None) [] apSecNone [] in
  let m := addAccessPoint w5 dev "/ap/1" (Scenario.manager [] [] [dev]) in
  GetAccessPoints m dev = []
  /\ length (GetAccessPoints (onPropertiesChanged w50 0 m) dev) = 1%nat
  /\ emitted m (onPropertiesChanged w50 0 m)
     = [AccessPointAdded dev (marshalJSON (deref (onPropertiesChanged w50 0 m) 0))].
Proof.
  intros dev w5 w50 m.
  assert (HOK : registryOK m).
  { apply registryOK_addAccessPoint. apply registryOK_empty. reflexivity. }
  split; [reflexivity|]. split; [reflexivity|].
  rewrite (proj1 (onPropertiesChanged_follows_listing w50 m dev [0%nat] 0 HOK
                    eq_refl ltac:(left))).
  reflexivity.
Defined.

(** A notification repeated while nothing has changed on the bus: the
    second run finds the object as the first one left it, so it emits
    AccessPointPropertiesChanged when the access point is visible and
    nothing when it is ignored, never AccessPointAdded or
    AccessPointRemoved, and the objects and the registry stay as they
    are. *)
Theorem onPropertiesChanged_twice (w : World) (m : Manager) (p : nat) :
  registryOK m -> p ∈ registered m ->
  let m1 := onPropertiesChanged w p m in
  let m2 := onPropertiesChanged w p m1 in
  emitted m1 m2
  = (if shouldBeIgnored (deref m1 p) then []
     else [AccessPointPropertiesChanged (devPath (deref m1 p))
             (marshalJSON (deref m1 p))])
  /\ heap m2 = heap m1
  /\ accessPoints m2 = accessPoints m.
Proof.
  intros HOK Hp m1 m2.
  assert (Hlt : (p < length (heap m))%nat).
  { apply elem_of_registered in Hp as (d & aps & Hd & Hin).
    destruct HOK as [Hvalid _ _]. eauto. }
  assert (Hreg1 : accessPoints m1 = accessPoints m)
    by apply onPropertiesChanged_frame.
  assert (Hp1 : p ∈ registered m1) by (unfold registered; rewrite Hreg1; exact Hp).
  set (ap := updateProps w (deref m p)).
  assert (Hobj : deref m1 p = ap).
  { unfold m1. rewrite (onPropertiesChanged_registered w m p Hp). cbv zeta.
    fold ap.
    destruct (shouldBeIgnored (deref m p)), (shouldBeIgnored ap);
      apply deref_store_eq; exact Hlt. }
  assert (Hheap1 : heap m1 = <[p := ap]> (heap m)).
  { unfold m1. rewrite (onPropertiesChanged_registered w m p Hp). cbv zeta.
    fold ap.
    destruct (shouldBeIgnored (deref m p)), (shouldBeIgnored ap); reflexivity. }
  unfold m2. rewrite (onPropertiesChanged_registered w m1 p Hp1). cbv zeta.
  assert (Hidem : updateProps w ap = ap) by apply updateProps_idempotent.
  rewrite Hobj, !Hidem.
  assert (Hstore : heap (store p ap m1) = heap m1).
  { unfold store; simpl. rewrite Hheap1. apply list_insert_insert_eq. }
  destruct (shouldBeIgnored ap).
  - split; [apply emitted_same_signals; reflexivity|].
    split; [exact Hstore|exact Hreg1].
  - split; [apply emitted_Emit; reflexivity|].
    split; [exact Hstore|exact Hreg1].
Qed.

(** A visible access point notified twice in the same world: the second
    notification emits one AccessPointPropertiesChanged. *)
Lemma onPropertiesChanged_twice_witness :
  let dev := "/dev/wlan0" in
  let w5 := Scenario.world [("/ap/1", Scenario.props "home" 0 0 0 5 2412)]
              (fun _ => None) [] apSecNone [] in
  let w50 := Scenario.world [("/ap/1", Scenario.props "home" 0 0 0 50 2412)]
               (fun _ => None) [] apSecNone [] in
  let m := addAccessPoint w5 dev "/ap/1" (Scenario.manager [] [] [dev]) in
  let m1 := onPropertiesChanged w50 0 m in
  List.filter is_AccessPointAdded (emitted m m1) <> []
  /\ emitted m1 (onPropertiesChanged w50 0 m1)
     = [AccessPointPropertiesChanged dev (marshalJSON (deref m1 0))].
Proof.
  intros dev w5 w50 m m1.
  assert (HOK : registryOK m).
  { apply registryOK_addAccessPoint. apply registryOK_empty. reflexivity. }
  assert (Hp : 0%nat ∈ registered m) by (vm_compute; left).
  split; [vm_compute; discriminate|].
  etransitivity; [exact (proj1 (onPropertiesChanged_twice w50 m 0 HOK Hp))|].
  vm_compute. reflexivity.
Defined.

(** ** Initialising the slice of a device *)

(** One step of the loop of [initAccessPoints]. *)
Lemma initAccessPoints_step (w : World) (dev apPath : string) (m : Manager) :
  exists objs,
    heap (snd (newAccessPoint w dev apPath m)) = heap m ++ objs
    /\ accessPoints (snd (newAccessPoint w dev apPath m)) = accessPoints m
    /\ signals (snd (newAccessPoint w dev apPath m))
       = signals m ++ (if announced w dev apPath
                       then [addedSignal w dev apPath] else [])
    /\ fst (newAccessPoint w dev apPath m)
       = (if accepted w dev apPath then Ok (length (heap m))
          else fst (newAccessPoint w dev apPath m))
    /\ (accepted w dev apPath = false ->
        exists e, fst (newAccessPoint w dev apPath m) = Err e)
    /\ (accepted w dev apPath = true ->
        objs = [builtObject w dev apPath]).
Proof.
  unfold accepted, announced, addedSignal.
  destruct (newAccessPoint_cases w dev apPath m)
    as [(e & -> & ->)|[(-> & Hssid & ->)|(-> & Hssid & ->)]].
  - exists []. simpl. rewrite !app_nil_r.
    repeat split; try reflexivity; try (intros; discriminate); eauto.
  - exists [builtObject w dev apPath]. rewrite Hssid. simpl.
    rewrite app_nil_r.
    repeat split; try reflexivity; try (intros; discriminate); eauto.
  - exists [builtObject w dev apPath].
    apply String.eqb_neq in Hssid. rewrite Hssid.
    remember (shouldBeIgnored (builtObject w dev apPath)) as ignored.
    destruct (ConnectPropertiesChanged w apPath), ignored; simpl;
      rewrite ?app_nil_r;
      repeat split; try reflexivity; try (intros; discriminate); eauto.
Qed.

Lemma initAccessPoints_loop (w : World) (dev : string) (apPaths : list string) :
  forall (acc : list nat) (m : Manager),
  exists new objs,
    let r := fold_left
               (fun (acc : list nat * Manager) apPath =>
                  let '(aps, m) := acc in
                  match newAccessPoint w dev apPath m with
                  | (Err _, m) => (aps, m)
                  | (Ok p, m) => (aps ++ [p], m)
                  end)
               apPaths (acc, m) in
    fst r = acc ++ new
    /\ heap (snd r) = heap m ++ objs
    /\ accessPoints (snd r) = accessPoints m
    /\ signals (snd r)
       = signals m ++ map (addedSignal w dev) (List.filter (announced w dev) apPaths)
    /\ Forall2
         (fun p path =>
            (length (heap m) <= p < length (heap (snd r)))%nat
            /\ deref (snd r) p = builtObject w dev path)
         new (List.filter (accepted w dev) apPaths).
Proof.
  induction apPaths as [|apPath apPaths IH]; intros acc m.
  - exists [], []. simpl. rewrite !app_nil_r. repeat split. constructor.
  - simpl fold_left.
    destruct (initAccessPoints_step w dev apPath m)
      as (objs1 & Hheap1 & Hreg1 & Hsig1 & Hok & Herr & Hobj).
    destruct (newAccessPoint w dev apPath m) as [r m1] eqn:Hnew.
    simpl in Hheap1, Hreg1, Hsig1, Hok, Herr, Hobj. simpl List.filter.
    destruct (accepted w dev apPath) eqn:Hacc.
    + rewrite Hok. specialize (Hobj eq_refl). subst objs1.
      destruct (IH (acc ++ [length (heap m)]) m1)
        as (new & objs & Hfst & Hheap & Hreg & Hsig & Hall).
      cbv zeta in *.
      set (res := fold_left _ apPaths _) in *.
      exists (length (heap m) :: new), (builtObject w dev apPath :: objs).
      split; [rewrite Hfst, <- app_assoc; reflexivity|].
      split; [rewrite Hheap, Hheap1, <- app_assoc; reflexivity|].
      split; [congruence|].
      split.
      { rewrite Hsig, Hsig1, <- app_assoc.
        destruct (announced w dev apPath); reflexivity. }
      constructor.
      * split.
        -- rewrite Hheap, Hheap1, !length_app; simpl. lia.
        -- unfold deref. rewrite Hheap, Hheap1, <- app_assoc.
           change ([builtObject w dev apPath] ++ objs)
             with (builtObject w dev apPath :: objs).
           rewrite list_lookup_middle by reflexivity. reflexivity.
      * eapply Forall2_impl; [exact Hall|].
        intros p path [Hrange Hderef]. split; [|exact Hderef].
        rewrite Hheap1, length_app in Hrange. lia.
    + destruct (Herr eq_refl) as [e ->].
      destruct (IH acc m1) as (new & objs & Hfst & Hheap & Hreg & Hsig & Hall).
      cbv zeta in *.
      set (res := fold_left _ apPaths _) in *.
      exists new, (objs1 ++ objs).
      split; [exact Hfst|].
      split; [rewrite Hheap, Hheap1, <- app_assoc; reflexivity|].
      split; [congruence|].
      split.
      { rewrite Hsig, Hsig1, <- app_assoc.
        destruct (announced w dev apPath); reflexivity. }
      eapply Forall2_impl; [exact Hall|].
      intros p path [Hrange Hderef]. split; [|exact Hderef].
      rewrite Hheap1, length_app in Hrange. lia.
Qed.

(** [initAccessPoints] replaces the slice of the device: it then holds one
    freshly built object for every path of the input that [newAccessPoint]
    accepts (proxy created, SSID not empty, subscription working), in the
    order of the input, and nothing else.  The slices of the other devices
    and the objects built before are untouched.  The only signals are
    AccessPointAdded, one for every path whose object has a non-empty SSID
    and is not ignored, whether the object was accepted or not; what the
    device held before is dropped without an AccessPointRemoved. *)
Theorem initAccessPoints_slot (w : World) (m : Manager) (dev : string)
    (apPaths : list string) :
  exists aps,
    accessPoints (initAccessPoints w dev apPaths m)
    = <[dev := aps]> (accessPoints m)
    /\ Forall2
         (fun p path =>
            (length (heap m) <= p
             < length (heap (initAccessPoints w dev apPaths m)))%nat
            /\ deref (initAccessPoints w dev apPaths m) p
               = builtObject w dev path)
         aps (List.filter (accepted w dev) apPaths)
    /\ (forall p, (p < length (heap m))%nat ->
          deref (initAccessPoints w dev apPaths m) p = deref m p)
    /\ emitted m (initAccessPoints w dev apPaths m)
       = map (addedSignal w dev) (List.filter (announced w dev) apPaths).
Proof.
  unfold initAccessPoints.
  destruct (initAccessPoints_loop w dev apPaths [] m)
    as (new & objs & Hfst & Hheap & Hreg & Hsig & Hall).
  cbv zeta in *.
  destruct (fold_left _ apPaths ([], m)) as [aps m'].
  simpl in Hfst, Hheap, Hreg, Hsig, Hall. subst aps.
  exists new. split; [simpl; rewrite Hreg; reflexivity|].
  split; [exact Hall|]. split.
  - intros p Hp. apply (deref_heap_app m _ objs); [exact Hheap|exact Hp].
  - unfold emitted. simpl. rewrite Hsig. apply drop_app_length.
Qed.

(** ** The four categories *)

Lemma doParseApSecType_bits (flags wpaFlags rsnFlags : N) :
  doParseApSecType flags wpaFlags rsnFlags
  = if N.testbit wpaFlags 9 || N.testbit rsnFlags 9 then apSecEap
    else if negb (wpaFlags =? 0) || negb (rsnFlags =? 0) then apSecPsk
    else if N.testbit flags 0 then apSecWep
    else apSecNone.
Proof.
  unfold doParseApSecType.
  rewrite has_privacy_bit, !has_802_1x_bit.
  change nm.NM_802_11_AP_SEC_NONE with 0.
  destruct (N.testbit wpaFlags 9), (N.testbit rsnFlags 9), (wpaFlags =? 0),
    (rsnFlags =? 0), (N.testbit flags 0); reflexivity.
Qed.

(** Decides a statement on the class of a triple by cases on the bits the
    classifier reads. *)
Ltac by_bits flags wpaFlags rsnFlags :=
  rewrite doParseApSecType_bits;
  destruct (N.testbit wpaFlags 9) eqn:?, (N.testbit rsnFlags 9) eqn:?,
    (N.eqb_spec wpaFlags 0), (N.eqb_spec rsnFlags 0), (N.testbit flags 0);
  subst; rewrite ?N.bits_0 in *; simpl;
  try discriminate;
  split; try discriminate; try tauto;
  try (intros (? & ? & ?); congruence);
  try (intros [?|?]; congruence);
  try (intros ([?|?] & _); congruence).

Lemma doParseApSecType_None_iff (flags wpaFlags rsnFlags : N) :
  doParseApSecType flags wpaFlags rsnFlags = apSecNone <->
  N.testbit flags 0 = false /\ wpaFlags = 0 /\ rsnFlags = 0.
Proof. by_bits flags wpaFlags rsnFlags. Qed.

Lemma doParseApSecType_Wep_iff (flags wpaFlags rsnFlags : N) :
  doParseApSecType flags wpaFlags rsnFlags = apSecWep <->
  N.testbit flags 0 = true /\ wpaFlags = 0 /\ rsnFlags = 0.
Proof. by_bits flags wpaFlags rsnFlags. Qed.

Lemma doParseApSecType_Eap_iff (flags wpaFlags rsnFlags : N) :
  doParseApSecType flags wpaFlags rsnFlags = apSecEap <->
  N.testbit wpaFlags 9 = true \/ N.testbit rsnFlags 9 = true.
Proof. by_bits flags wpaFlags rsnFlags. Qed.

Lemma doParseApSecType_Psk_iff (flags wpaFlags rsnFlags : N) :
  doParseApSecType flags wpaFlags rsnFlags = apSecPsk <->
  (wpaFlags <> 0 \/ rsnFlags <> 0)
  /\ N.testbit wpaFlags 9 = false /\ N.testbit rsnFlags 9 = false.
Proof. by_bits flags wpaFlags rsnFlags. Qed.

(** The classifier splits the triples into four classes read off the raw
    bits.  None: no privacy bit and both WPA and RSN flags zero.  Wep: the
    privacy bit and both flags zero.  Eap: the 802.1X bit in either flags.
    Psk: some WPA or RSN flag set and the 802.1X bit in neither.  The
    [flags] field matters only when both others are zero. *)
Theorem doParseApSecType_classes (flags wpaFlags rsnFlags : N) :
  (doParseApSecType flags wpaFlags rsnFlags = apSecNone <->
     N.testbit flags 0 = false /\ wpaFlags = 0 /\ rsnFlags = 0)
  /\ (doParseApSecType flags wpaFlags rsnFlags = apSecWep <->
        N.testbit flags 0 = true /\ wpaFlags = 0 /\ rsnFlags = 0)
  /\ (doParseApSecType flags wpaFlags rsnFlags = apSecPsk <->
        (wpaFlags <> 0 \/ rsnFlags <> 0)
        /\ N.testbit wpaFlags 9 = false /\ N.testbit rsnFlags 9 = false)
  /\ (doParseApSecType flags wpaFlags rsnFlags = apSecEap <->
        N.testbit wpaFlags 9 = true \/ N.testbit rsnFlags 9 = true)
  /\ (forall flags',
        wpaFlags <> 0 \/ rsnFlags <> 0 ->
        doParseApSecType flags' wpaFlags rsnFlags
        = doParseApSecType flags wpaFlags rsnFlags).
Proof.
  split; [apply doParseApSecType_None_iff|].
  split; [apply doParseApSecType_Wep_iff|].
  split; [apply doParseApSecType_Psk_iff|].
  split; [apply doParseApSecType_Eap_iff|].
  intros flags' Hset. rewrite !doParseApSecType_bits.
  destruct (N.testbit wpaFlags 9 || N.testbit rsnFlags 9); [reflexivity|].
  destruct (N.eqb_spec wpaFlags 0), (N.eqb_spec rsnFlags 0); simpl;
    try reflexivity.
  destruct Hset; contradiction.
Qed.

(** An access point advertising WPA2-PSK only (RSN pairwise CCMP, group
    CCMP, key management PSK: 0x188), whatever its privacy bit. *)
Lemma doParseApSecType_classes_witness :
  doParseApSecType 1 0 0x188 = apSecPsk
  /\ doParseApSecType 0 0 0x188 = doParseApSecType 1 0 0x188.
Proof.
  split.
  - apply (proj1 (proj2 (proj2 (doParseApSecType_classes 1 0 0x188)))).
    split; [right; discriminate|]. split; reflexivity.
  - apply (proj2 (proj2 (proj2 (proj2 (doParseApSecType_classes 1 0 0x188))))).
    right. discriminate.
Defined.

(** ** The fields a refresh derives *)

(** After a refresh, [Secured] is false exactly when the access point
    advertises no privacy bit and no WPA or RSN flag, and [SecuredInEap] is
    true exactly when the 802.1X bit is in its WPA or RSN flags, so
    [SecuredInEap] implies [Secured].  The proxy, the device and the path
    of the object are untouched whatever the bus answers, and refreshing
    again while the bus answers the same changes nothing. *)
Theorem updateProps_derived (w : World) (a : accessPoint) :
  (Secured (updateProps w a) = false <->
     N.testbit (nmap_Flags (nmAccessPointProps w (nmAp a))) 0 = false
     /\ nmap_WpaFlags (nmAccessPointProps w (nmAp a)) = 0
     /\ nmap_RsnFlags (nmAccessPointProps w (nmAp a)) = 0)
  /\ (SecuredInEap (updateProps w a) = true <->
        N.testbit (nmap_WpaFlags (nmAccessPointProps w (nmAp a))) 9 = true
        \/ N.testbit (nmap_RsnFlags (nmAccessPointProps w (nmAp a))) 9 = true)
  /\ (SecuredInEap (updateProps w a) = true -> Secured (updateProps w a) = true)
  /\ nmAp (updateProps w a) = nmAp a
  /\ devPath (updateProps w a) = devPath a
  /\ Path (updateProps w a) = Path a
  /\ updateProps w (updateProps w a) = updateProps w a.
Proof.
  unfold updateProps at 1 2 3 4; simpl. unfold getApSecType.
  set (p := nmAccessPointProps w (nmAp a)).
  split; [|split; [|split]].
  - rewrite negb_false_iff, bool_decide_eq_true.
    apply doParseApSecType_None_iff.
  - rewrite bool_decide_eq_true. apply doParseApSecType_Eap_iff.
  - rewrite negb_true_iff, bool_decide_eq_true, bool_decide_eq_false.
    intros ->. discriminate.
  - repeat split.
Qed.

(** ** The requests of an activation *)

Lemma fixApSecTypeChange_shape (w : World) (uuid : string) (secType : apSecType) :
  (fst (fixApSecTypeChange w uuid secType) = []
   \/ exists cpath data,
        fixApSecTypeChange w uuid secType
        = ([CallUpdate cpath data], (false, Update w cpath data)))
  /\ (fst (snd (fixApSecTypeChange w uuid secType)) = true ->
      fixApSecTypeChange w uuid secType = ([], (true, None))
      /\ secType = apSecEap).
Proof.
  unfold fixApSecTypeChange.
  destruct (nmGetConnectionByUuid w uuid) as [cpath|]; [|simpl; auto; split; [auto|discriminate]].
  destruct (nmNewSettingsConnection w cpath); [simpl; split; [auto|discriminate]|].
  destruct (GetSettings w cpath) as [connData|]; [|simpl; split; [auto|discriminate]].
  destruct (getApSecTypeFromConnData w connData) as [secTypeOld|];
    [|simpl; split; [auto|discriminate]].
  destruct (bool_decide (secTypeOld = secType)); [simpl; split; [auto|discriminate]|].
  destruct secType;
    try (destruct (logicSetSettingVkWirelessSecurityKeyMgmt w connData _);
         (split; [|discriminate]);
         [right; eexists; eexists; reflexivity|left; reflexivity]).
  simpl. auto.
Qed.

(** What [activateAccessPoint] sends, in every world.  With an empty uuid:
    either nothing, and the result is "/" with an error, or one request to
    add and activate a profile built from the decoded SSID, a generated
    uuid, the raw SSID and the category of the access point, whose answer
    is the result.  With a uuid: at most one profile update, then at most
    one activation request; the activation request is only sent after the
    update, if any, succeeded, and its answer is then the result; when it
    is not sent the result is "/" with an error.  The exported method
    returns "/" whenever it returns an error, and records exactly these
    requests. *)
Theorem activateAccessPoint_requests (w : World) (m : Manager)
    (uuid apPath dev : string) :
  (uuid = "" ->
     (activateAccessPoint w uuid apPath dev
      = ([], ("/", snd (snd (activateAccessPoint w uuid apPath dev))))
      /\ snd (snd (activateAccessPoint w uuid apPath dev)) <> None)
     \/ activateAccessPoint w uuid apPath dev
        = (let ssid := nmap_Ssid (nmAccessPointProps w apPath) in
           let data :=
             newWirelessConnectionData w (decodeSsid w ssid) (GenUuid w) ssid
               (getApSecType w apPath) in
           ([CallAddAndActivateConnection data dev],
            nmAddAndActivateConnection w data dev)))
  /\ (uuid <> "" ->
      exists updates,
        (updates = []
         \/ exists cpath data, updates = [CallUpdate cpath data]
                               /\ (fst (activateAccessPoint w uuid apPath dev)
                                   <> updates ->
                                   Update w cpath data = None))
        /\ ((activateAccessPoint w uuid apPath dev
             = (updates, ("/", snd (snd (activateAccessPoint w uuid apPath dev))))
             /\ snd (snd (activateAccessPoint w uuid apPath dev)) <> None)
            \/ activateAccessPoint w uuid apPath dev
               = (updates ++ [CallActivateConnection uuid dev],
                  activateConnection w uuid dev)))
  /\ (snd (fst (ActivateAccessPoint w uuid apPath dev m)) <> None ->
      fst (fst (ActivateAccessPoint w uuid apPath dev m)) = "/")
  /\ calls (snd (ActivateAccessPoint w uuid apPath dev m))
     = calls m ++ fst (activateAccessPoint w uuid apPath dev).
Proof.
  split; [|split; [|split]].
  - intros ->. unfold activateAccessPoint. simpl.
    destruct (nmNewAccessPoint w apPath); [left; split; [reflexivity|discriminate]|].
    destruct (nmap_Ssid_err (nmAccessPointProps w apPath));
      [left; split; [reflexivity|discriminate]|].
    right. reflexivity.
  - intros Huuid. unfold activateAccessPoint.
    apply String.eqb_neq in Huuid. rewrite Huuid. simpl negb. cbv iota.
    destruct (nmNewAccessPoint w apPath).
    { exists []. split; [auto|]. left. split; [reflexivity|discriminate]. }
    destruct (fixApSecTypeChange_shape w uuid (getApSecType w apPath))
      as [Hsent Hneed].
    destruct (fixApSecTypeChange w uuid (getApSecType w apPath))
      as [sent [need err]] eqn:Hfix.
    simpl in Hsent, Hneed.
    destruct Hsent as [->|(cpath & data & [= -> -> ->])].
    + exists []. split; [auto|].
      destruct err; [left; split; [reflexivity|discriminate]|].
      destruct need; [left; split; [reflexivity|discriminate]|].
      right. reflexivity.
    + exists [CallUpdate cpath data]. split.
      * right. exists cpath, data. split; [reflexivity|].
        destruct (Update w cpath data); simpl; [congruence|reflexivity].
      * destruct (Update w cpath data);
          [left; split; [reflexivity|discriminate]|].
        right. reflexivity.
  - unfold ActivateAccessPoint.
    destruct (activateAccessPoint w uuid apPath dev) as [sent [cpath [e|]]];
      simpl; [reflexivity|congruence].
  - unfold ActivateAccessPoint.
    destruct (activateAccessPoint w uuid apPath dev) as [sent [cpath [e|]]];
      reflexivity.
Qed.

(** Activation with a stored profile whose key management no longer
    matches the access point, the new category being None, Wep or Psk.  The
    key management is set to the name of the category ("none", "wep",
    "wpa-psk"), the IPv6 settings are written again, and the profile is
    sent back before anything else.  When the update fails, its error is
    the result and no activation is requested; when it succeeds, the
    activation request follows and its answer is the result. *)
Theorem activateAccessPoint_rewrites_profile (w : World)
    (uuid apPath dev cpath : string) (connData rewritten : connectionData)
    (secTypeOld : apSecType) :
  uuid <> "" ->
  nmNewAccessPoint w apPath = None ->
  getApSecType w apPath <> apSecEap ->
  nmGetConnectionByUuid w uuid = Ok cpath ->
  nmNewSettingsConnection w cpath = None ->
  GetSettings w cpath = Ok connData ->
  getApSecTypeFromConnData w connData = Ok secTypeOld ->
  secTypeOld <> getApSecType w apPath ->
  logicSetSettingVkWirelessSecurityKeyMgmt w connData
    (apSecType_String (getApSecType w apPath)) = Ok rewritten ->
  activateAccessPoint w uuid apPath dev
  = match Update w cpath (reserializedIP6 w rewritten) with
    | Some e => ([CallUpdate cpath (reserializedIP6 w rewritten)], ("/", Some e))
    | None =>
        ([CallUpdate cpath (reserializedIP6 w rewritten);
          CallActivateConnection uuid dev],
         activateConnection w uuid dev)
    end.
Proof.
  intros Huuid Hap Hsec Hconn Hsettings Hdata Hold Hdiff Hset.
  unfold activateAccessPoint. rewrite Hap.
  apply String.eqb_neq in Huuid. rewrite Huuid. simpl negb. cbv iota.
  unfold fixApSecTypeChange. rewrite Hconn, Hsettings, Hdata, Hold.
  rewrite bool_decide_eq_false_2 by exact Hdiff.
  fold (reserializedIP6 w).
  destruct (getApSecType w apPath); try contradiction;
    simpl in Hset; rewrite Hset; fold (reserializedIP6 w rewritten);
    destruct (Update w cpath (reserializedIP6 w rewritten)); reflexivity.
Qed.

(** A profile stored as open, an access point that now advertises
    WPA2-PSK: the profile is rewritten with "wpa-psk", then activated. *)
Lemma activateAccessPoint_rewrites_profile_witness :
  let w := Scenario.world [("/ap/1", Scenario.props "home" 1 0 0x188 60 5180)]
             (fun _ => None) [] apSecNone [] in
  activateAccessPoint w "uuid-1" "/ap/1" "/dev/wlan0"
  = ([CallUpdate "/settings/uuid-1"
        {["802-11-wireless-security" := {["key-mgmt" := "wpa-psk"]}]};
      CallActivateConnection "uuid-1" "/dev/wlan0"],
     ("/active/uuid-1", None)).
Proof.
  intros w.
  rewrite (activateAccessPoint_rewrites_profile w "uuid-1" "/ap/1" "/dev/wlan0"
             "/settings/uuid-1" ∅
             (<["802-11-wireless-security" := {["key-mgmt" := "wpa-psk"]}]> ∅)
             apSecNone);
    first [reflexivity | discriminate].
Defined.

(** Activation with a stored profile whose key management matches the
    access point, or cannot be read: the profile is not touched, the
    activation is requested straight away and its answer is the result. *)
Theorem activateAccessPoint_keeps_profile (w : World)
    (uuid apPath dev cpath : string) (connData : connectionData) :
  uuid <> "" ->
  nmNewAccessPoint w apPath = None ->
  nmGetConnectionByUuid w uuid = Ok cpath ->
  nmNewSettingsConnection w cpath = None ->
  GetSettings w cpath = Ok connData ->
  (getApSecTypeFromConnData w connData = Ok (getApSecType w apPath)
   \/ exists e, getApSecTypeFromConnData w connData = Err e) ->
  activateAccessPoint w uuid apPath dev
  = ([CallActivateConnection uuid dev], activateConnection w uuid dev).
Proof.
  intros Huuid Hap Hconn Hsettings Hdata Hold.
  unfold activateAccessPoint. rewrite Hap.
  apply String.eqb_neq in Huuid. rewrite Huuid. simpl negb. cbv iota.
  unfold fixApSecTypeChange. rewrite Hconn, Hsettings, Hdata.
  destruct Hold as [->|[e ->]]; [|reflexivity].
  rewrite bool_decide_eq_true_2 by reflexivity. reflexivity.
Qed.

(** A WPA-PSK profile and an access point that is still WPA2-PSK. *)
Lemma activateAccessPoint_keeps_profile_witness :
  let w := Scenario.world [("/ap/1", Scenario.props "home" 1 0 0x188 60 5180)]
             (fun _ => None) [] apSecPsk [] in
  activateAccessPoint w "uuid-1" "/ap/1" "/dev/wlan0"
  = ([CallActivateConnection "uuid-1" "/dev/wlan0"], ("/active/uuid-1", None)).
Proof.
  intros w.
  rewrite (activateAccessPoint_keeps_profile w "uuid-1" "/ap/1" "/dev/wlan0"
             "/settings/uuid-1" ∅);
    first [reflexivity | discriminate | (left; reflexivity)].
Defined.

(** ** What a steering step can do *)

(** Closes the case of a step that ended with a [continue]. *)
Ltac step_skipped :=
  simpl; split; [intros _; reflexivity|];
  split; [intros Hb; left; first [reflexivity|exact Hb]|left; reflexivity].

Lemma checkAPStrength_device_cases (w : World) (m : Manager) (band dev : string) :
  let current := nmAccessPointProps w (ActiveAccessPoint w dev) in
  let r := checkAPStrength_device w m band dev in
  (band <> "" -> fst r = band)
  /\ (band = "" -> fst r = "" \/ fst r = "a" \/ fst r = "bg")
  /\ (snd r = []
      \/ exists aPath apNow connPath,
           ActiveConnection w dev = Ok aPath
           /\ isObjPathValid w aPath = true
           /\ State w aPath = Ok nm.NM_ACTIVE_CONNECTION_STATE_ACTIVATED
           /\ steeringCandidate m (decodeSsid w (nmap_Ssid current)) dev band
              = Some apNow
           /\ Path apNow <> ActiveAccessPoint w dev
           /\ fst r <> getBandByFrequency (nmap_Frequency current)
           /\ (band = "" ->
               fst r = (if in5G (Frequency apNow) then "a" else "bg")
               /\ add_uint8 (nmap_Strength current) 20 <= Strength apNow)
           /\ Connection w aPath = Ok connPath
           /\ snd r
              = CallUpdateConnectionBand (getConnection w connPath) (fst r)
                :: match updateConnectionBand w (getConnection w connPath) (fst r)
                   with
                   | Some _ => []
                   | None =>
                       fst (activateAccessPoint w
                              (conn_Uuid (getConnection w connPath))
                              (Path apNow) dev)
                   end).
Proof.
  intros current r. unfold r, checkAPStrength_device. fold current.
  destruct (ActiveConnection w dev) as [aPath|] eqn:HaPath; [|step_skipped].
  destruct (isObjPathValid w aPath) eqn:Hvalid; [|step_skipped].
  simpl negb; cbv iota.
  destruct (nmNewActiveConnection w aPath); [step_skipped|].
  destruct (State w aPath) as [state|] eqn:Hstate; [|step_skipped].
  destruct (N.eqb_spec state nm.NM_ACTIVE_CONNECTION_STATE_ACTIVATED)
    as [->|_]; [|step_skipped].
  simpl negb; cbv iota.
  destruct (String.eqb band "" && _); [step_skipped|].
  destruct (steeringCandidate m _ dev band) as [apNow|] eqn:Hcand;
    [|step_skipped].
  destruct (String.eqb_spec (Path apNow) (ActiveAccessPoint w dev))
    as [_|Hpath]; [step_skipped|].
  destruct (String.eqb_spec band "") as [->|Hband].
  - (* automatic *)
    destruct (N.ltb_spec (Strength apNow) (add_uint8 (nmap_Strength current) 20))
      as [_|Hstrong]; [step_skipped|].
    set (chosen := if in5G (Frequency apNow) then "a" else "bg").
    assert (Hchosen : chosen = "a" \/ chosen = "bg")
      by (unfold chosen; destruct (in5G (Frequency apNow)); auto).
    replace (if in5G (Frequency apNow) then Some "a" else Some "bg")
      with (Some chosen)
      by (unfold chosen; destruct (in5G (Frequency apNow)); reflexivity).
    destruct (String.eqb_spec chosen (getBandByFrequency (nmap_Frequency current)))
      as [_|Hchange].
    { simpl. split; [intros []; reflexivity|]. split; [auto|left; reflexivity]. }
    destruct (Connection w aPath) as [connPath|] eqn:Hconn.
    2:{ simpl. split; [intros []; reflexivity|]. split; [auto|left; reflexivity]. }
    destruct (updateConnectionBand w (getConnection w connPath) chosen) eqn:Hupd.
    + simpl. split; [intros []; reflexivity|]. split; [auto|]. right.
      exists aPath, apNow, connPath. rewrite Hupd. repeat split; auto.
    + destruct (activateAccessPoint w _ (Path apNow) dev) as [sent res] eqn:Hact.
      simpl. split; [intros []; reflexivity|]. split; [auto|]. right.
      exists aPath, apNow, connPath. rewrite Hupd, Hact. repeat split; auto.
  - (* a band carried in *)
    destruct (String.eqb_spec band (getBandByFrequency (nmap_Frequency current)))
      as [_|Hchange].
    { simpl. split; [reflexivity|]. split; [contradiction|left; reflexivity]. }
    destruct (Connection w aPath) as [connPath|] eqn:Hconn.
    2:{ simpl. split; [reflexivity|]. split; [contradiction|left; reflexivity]. }
    destruct (updateConnectionBand w (getConnection w connPath) band) eqn:Hupd.
    + simpl. split; [reflexivity|]. split; [contradiction|]. right.
      exists aPath, apNow, connPath. rewrite Hupd.
      repeat split; auto; contradiction.
    + destruct (activateAccessPoint w _ (Path apNow) dev) as [sent res] eqn:Hact.
      simpl. split; [reflexivity|]. split; [contradiction|]. right.
      exists aPath, apNow, connPath. rewrite Hupd, Hact.
      repeat split; auto; contradiction.
Qed.

Lemma checkAPStrength_loop_devices (w : World) (m : Manager) (devs : list string) :
  forall band, map fst (checkAPStrength_loop w m band devs) = devs.
Proof.
  induction devs as [|dev devs IH]; intros band; simpl; [reflexivity|].
  destruct (checkAPStrength_device w m band dev) as [band' sent].
  simpl. rewrite IH. reflexivity.
Qed.

Lemma checkAPStrength_loop_steers (w : World) (m : Manager) (band0 : string)
    (devs : list string) :
  forall band,
    band = "a" \/ band = "bg" \/ band = band0 ->
    forall dev sent,
      (dev, sent) ∈ checkAPStrength_loop w m band devs -> sent <> [] ->
      let current := nmAccessPointProps w (ActiveAccessPoint w dev) in
      exists aPath apNow connPath written,
        ActiveConnection w dev = Ok aPath
        /\ isObjPathValid w aPath = true
        /\ State w aPath = Ok nm.NM_ACTIVE_CONNECTION_STATE_ACTIVATED
        /\ apNow ∈ map (deref m) (apsOf m dev)
        /\ Ssid apNow = decodeSsid w (nmap_Ssid current)
        /\ Path apNow <> ActiveAccessPoint w dev
        /\ (written = "a" \/ written = "bg" \/ written = band0)
        /\ written <> getBandByFrequency (nmap_Frequency current)
        /\ Connection w aPath = Ok connPath
        /\ sent
           = CallUpdateConnectionBand (getConnection w connPath) written
             :: match updateConnectionBand w (getConnection w connPath) written
                with
                | Some _ => []
                | None =>
                    fst (activateAccessPoint w
                           (conn_Uuid (getConnection w connPath))
                           (Path apNow) dev)
                end.
Proof.
  induction devs as [|d devs IH]; intros band Hband dev sent Hin Hsent;
    [inversion Hin|].
  simpl in Hin.
  pose proof (checkAPStrength_device_cases w m band d) as Hcases.
  cbv zeta in Hcases.
  destruct (checkAPStrength_device w m band d) as [band' sent'] eqn:Hstep.
  simpl in Hcases. destruct Hcases as (Hkeep & Hauto & Hsteer).
  assert (Hband' : band' = "a" \/ band' = "bg" \/ band' = band0).
  { destruct (decide (band = "")) as [Hb|Hb].
    - destruct (Hauto Hb) as [-> | [-> | ->]]; auto.
      right. right. destruct Hband as [? | [? | ?]]; congruence.
    - rewrite (Hkeep Hb). exact Hband. }
  apply elem_of_cons in Hin as [Heq|Hin].
  - injection Heq as -> ->.
    destruct Hsteer as [->|Hsteer]; [contradiction|].
    destruct Hsteer
      as (aPath & apNow & connPath & Ha & Hv & Hs & Hcand & Hp & Hch & _ & Hc & ->).
    apply findAPByBand_Some in Hcand as [Hmem Hssid].
    exists aPath, apNow, connPath, band'. repeat split; auto.
  - eapply IH; eauto.
Qed.

(** A steering pass, in every world.  It consumes the pending band, clears
    the timer, and leaves the registry, the objects and the signals alone;
    it examines the wireless devices once each, in their order.  A device
    gets requests only if its active connection is read, valid and in the
    activated state, and then: the target is an access point held for that
    device, with the SSID of the active one and another path; the band
    written to the profile is "a", "bg" or the pending band, and differs
    from the band of the current frequency; the band update is the first
    request, and the activation is requested only when the update
    succeeded. *)
Theorem checkAPStrength_pass (w : World) (m : Manager) :
  (debugChangeAPBand (checkAPStrength w m) = ""
   /\ checkAPStrengthTimer (checkAPStrength w m) = false
   /\ heap (checkAPStrength w m) = heap m
   /\ accessPoints (checkAPStrength w m) = accessPoints m
   /\ signals (checkAPStrength w m) = signals m
   /\ devices_wifi (checkAPStrength w m) = devices_wifi m
   /\ calls (checkAPStrength w m)
      = calls m ++ concat (map snd (checkAPStrength_trace w m)))
  /\ map fst (checkAPStrength_trace w m) = devices_wifi m
  /\ (forall dev sent,
        (dev, sent) ∈ checkAPStrength_trace w m -> sent <> [] ->
        exists aPath apNow connPath written,
          ActiveConnection w dev = Ok aPath
          /\ isObjPathValid w aPath = true
          /\ State w aPath = Ok nm.NM_ACTIVE_CONNECTION_STATE_ACTIVATED
          /\ apNow ∈ map (deref m) (apsOf m dev)
          /\ Ssid apNow
             = decodeSsid w
                 (nmap_Ssid (nmAccessPointProps w (ActiveAccessPoint w dev)))
          /\ Path apNow <> ActiveAccessPoint w dev
          /\ (written = "a" \/ written = "bg" \/ written = debugChangeAPBand m)
          /\ written
             <> getBandByFrequency
                  (nmap_Frequency (nmAccessPointProps w (ActiveAccessPoint w dev)))
          /\ Connection w aPath = Ok connPath
          /\ sent
             = CallUpdateConnectionBand (getConnection w connPath) written
               :: match updateConnectionBand w (getConnection w connPath) written
                  with
                  | Some _ => []
                  | None =>
                      fst (activateAccessPoint w
                             (conn_Uuid (getConnection w connPath))
                             (Path apNow) dev)
                  end).
Proof.
  split; [repeat split|]. split.
  - apply checkAPStrength_loop_devices.
  - intros dev sent Hin Hsent.
    exact (checkAPStrength_loop_steers w m (debugChangeAPBand m) (devices_wifi m)
             (debugChangeAPBand m) (or_intror (or_intror eq_refl))
             dev sent Hin Hsent).
Qed.

(** ** Bands *)

Lemma bands_disjoint (f : N) : in2G f = true -> in5G f = false.
Proof.
  rewrite in2G_range. intros Hf.
  apply not_true_iff_false. rewrite in5G_range. lia.
Qed.

Lemma getBandByFrequency_a (f : N) : getBandByFrequency f = "a" <-> in5G f = true.
Proof.
  unfold getBandByFrequency.
  destruct (in5G f), (in2G f); split; (reflexivity || discriminate).
Qed.

Lemma getBandByFrequency_bg (f : N) : getBandByFrequency f = "bg" <-> in2G f = true.
Proof.
  unfold getBandByFrequency.
  destruct (in2G f) eqn:H2.
  - rewrite (bands_disjoint f H2). split; reflexivity.
  - destruct (in5G f); split; discriminate.
Qed.

(** A candidate found for a requested band is in that band.  When
    [findAPByBand] is given a band and returns an access point, the band
    is "a" or "bg", the access point is from the list and has the SSID,
    [getBandByFrequency] puts its frequency in the band asked for, and no
    earlier access point of the list with the SSID is in that band.  So a
    band that is neither "" nor "a" nor "bg" finds nothing. *)
Theorem findAPByBand_in_requested_band (ssid band : string)
    (aps : list accessPoint) (ap : accessPoint) :
  band <> "" ->
  findAPByBand ssid aps band = Some ap ->
  (band = "a" \/ band = "bg")
  /\ Ssid ap = ssid
  /\ getBandByFrequency (Frequency ap) = band
  /\ exists pre post,
       aps = pre ++ ap :: post
       /\ forall ap', ap' ∈ pre -> Ssid ap' = ssid ->
            getBandByFrequency (Frequency ap') <> band.
Proof.
  intros Hband Hfind. unfold findAPByBand in Hfind.
  rewrite findAPByBand_loop_manual in Hfind
    by (apply String.eqb_neq; exact Hband).
  destruct aps as [|a0 aps0]; [discriminate|].
  rewrite findAPByBand_inner_find in Hfind.
  set (aps := a0 :: aps0) in *.
  destruct (List.find _ aps) as [x|] eqn:Hx; [|discriminate].
  injection Hfind as ->.
  apply find_first in Hx as (Hap & pre & post & Haps & Hpre).
  apply andb_true_iff in Hap as [Hssid Hin].
  apply String.eqb_eq in Hssid.
  assert (Hcases : (band = "a" /\ in5G (Frequency ap) = true)
                   \/ (band = "bg" /\ in2G (Frequency ap) = true)).
  { apply orb_true_iff in Hin as [Hin|Hin];
      apply andb_true_iff in Hin as [Hb Hf]; apply String.eqb_eq in Hb; auto. }
  split; [destruct Hcases as [[? _]|[? _]]; auto|].
  split; [exact Hssid|]. split.
  - destruct Hcases as [[-> Hf]|[-> Hf]].
    + apply getBandByFrequency_a. exact Hf.
    + apply getBandByFrequency_bg. exact Hf.
  - exists pre, post. split; [exact Haps|].
    intros ap' Hin' Hssid' Hband'. specialize (Hpre ap' Hin').
    rewrite (proj2 (String.eqb_eq _ _) Hssid') in Hpre. simpl in Hpre.
    destruct Hcases as [[-> _]|[-> _]]; simpl in Hpre.
    + apply getBandByFrequency_a in Hband'. rewrite Hband' in Hpre.
      discriminate.
    + apply getBandByFrequency_bg in Hband'. rewrite Hband' in Hpre.
      discriminate.
Qed.

(** Three access points of "home": 2.4 GHz, 5 GHz at 5180 and 5 GHz at
    5745.  Band "a" finds the one at 5180. *)
Lemma findAPByBand_in_requested_band_witness :
  let w := Scenario.world [("/ap/1", Scenario.props "home" 0 0 0 70 2437);
                           ("/ap/2", Scenario.props "home" 0 0 0 30 5180);
                           ("/ap/3", Scenario.props "home" 0 0 0 60 5745)]
             (fun _ => None) [] apSecNone [] in
  let aps := map (Scenario.object w "/dev/wlan0") ["/ap/1"; "/ap/2"; "/ap/3"] in
  Path <$> findAPByBand "home" aps "a" = Some "/ap/2"
  /\ forall ap, findAPByBand "home" aps "a" = Some ap ->
       getBandByFrequency (Frequency ap) = "a".
Proof.
  intros w aps. split; [reflexivity|].
  intros ap Hfind.
  exact (proj1 (proj2 (proj2
           (findAPByBand_in_requested_band "home" "a" aps ap
              ltac:(discriminate) Hfind)))).
Defined.

(** ** The manual request *)

(** A steering step reads the manager only through the registry and the
    objects. *)
Lemma checkAPStrength_device_frame (w : World) (m m' : Manager)
    (band dev : string) :
  heap m' = heap m -> accessPoints m' = accessPoints m ->
  checkAPStrength_device w m' band dev = checkAPStrength_device w m band dev.
Proof.
  intros Hheap Hreg.
  assert (Hcand : forall ssid,
            steeringCandidate m' ssid dev band = steeringCandidate m ssid dev band).
  { intros ssid. unfold steeringCandidate, apsOf. rewrite Hreg.
    f_equal. apply map_ext. intros p. unfold deref. rewrite Hheap. reflexivity. }
  unfold checkAPStrength_device. rewrite Hcand. reflexivity.
Qed.

Lemma checkAPStrength_loop_frame (w : World) (m m' : Manager)
    (devs : list string) :
  heap m' = heap m -> accessPoints m' = accessPoints m ->
  forall band,
    checkAPStrength_loop w m' band devs = checkAPStrength_loop w m band devs.
Proof.
  intros Hheap Hreg. induction devs as [|dev devs IH]; intros band; simpl;
    [reflexivity|].
  rewrite (checkAPStrength_device_frame w m m' band dev Hheap Hreg).
  destruct (checkAPStrength_device w m band dev) as [band' sent].
  rewrite IH. reflexivity.
Qed.

(** [DebugChangeAPChannel].  A token other than "a" and "bg" is refused
    with "band input error" before anything is done: no scan is requested
    and the manager is as it was.  A valid token requests one scan; when
    the request fails its error is returned and the pending band is left as
    it was; when it succeeds the token becomes the pending band, the next
    pass starts its first device with it, and after that pass the pending
    band is empty again. *)
Theorem DebugChangeAPChannel_request (w w' : World) (m : Manager) (band : string) :
  (band <> "a" -> band <> "bg" ->
     DebugChangeAPChannel w band m = (Some "band input error", m))
  /\ (band = "a" \/ band = "bg" ->
      fst (DebugChangeAPChannel w band m) = RequestWirelessScan w
      /\ calls (snd (DebugChangeAPChannel w band m))
         = calls m ++ [CallRequestWirelessScan]
      /\ debugChangeAPBand (snd (DebugChangeAPChannel w band m))
         = (match RequestWirelessScan w with
            | Some _ => debugChangeAPBand m
            | None => band
            end)
      /\ (RequestWirelessScan w = None ->
          checkAPStrength_trace w' (snd (DebugChangeAPChannel w band m))
          = checkAPStrength_loop w' m band (devices_wifi m)
          /\ debugChangeAPBand
               (checkAPStrength w' (snd (DebugChangeAPChannel w band m))) = "")).
Proof.
  unfold DebugChangeAPChannel. split.
  - intros Ha Hbg. apply String.eqb_neq in Ha, Hbg. rewrite Ha, Hbg.
    reflexivity.
  - intros Hband.
    assert (Hvalid : negb (String.eqb band "a") && negb (String.eqb band "bg")
                     = false).
    { destruct Hband as [->| ->]; reflexivity. }
    rewrite Hvalid.
    destruct (RequestWirelessScan w) as [e|];
      (split; [reflexivity|]); (split; [reflexivity|]); (split; [reflexivity|]).
    + intros Hnone. discriminate Hnone.
    + intros _. split; [|reflexivity].
      apply checkAPStrength_loop_frame; reflexivity.
Qed.

(** A request for band "a" in a world where the scan request succeeds, on
    one device that is on 2.4 GHz with a 5 GHz access point of its SSID in
    the list: the next pass steers it, whatever the strengths. *)
Lemma DebugChangeAPChannel_request_witness :
  let w :=
    Scenario.world
      [("/ap/cur", Scenario.props "home" 0 0 0 80 2412);
       ("/ap/far", Scenario.props "home" 0 0 0 20 5180)]
      (fun _ => None)
      [("/active/1",
        ({| aconn_typ := nm.NM_SETTING_WIRELESS_SETTING_NAME;
            aconn_Devices := ["/dev/wlan0"]; aconn_Uuid := "uuid-home" |}, "home"))]
      apSecNone [("/dev/wlan0", ("/ap/cur", "/active/1"))] in
  let m :=
    Scenario.manager
      [Scenario.object w "/dev/wlan0" "/ap/cur";
       Scenario.object w "/dev/wlan0" "/ap/far"]
      [("/dev/wlan0", [0%nat; 1%nat])] ["/dev/wlan0"] in
  DebugChangeAPChannel w "5g" m = (Some "band input error", m)
  /\ debugChangeAPBand (snd (DebugChangeAPChannel w "a" m)) = "a"
  /\ map (fun entry => length (snd entry))
       (checkAPStrength_trace w (snd (DebugChangeAPChannel w "a" m)))
     = [2%nat].
Proof.
  intros w m. split; [|split].
  - apply (proj1 (DebugChangeAPChannel_request w w m "5g")); discriminate.
  - exact (proj1 (proj2 (proj2
             (proj2 (DebugChangeAPChannel_request w w m "a") (or_introl eq_refl))))).
  - vm_compute. reflexivity.
Defined.

(** ** One add of a new path *)

Lemma isAccessPointExists_extend (m m' : Manager) (l : list accessPoint)
    (apPath : string) :
  registryOK m -> accessPoints m' = accessPoints m -> heap m' = heap m ++ l ->
  isAccessPointExists m' apPath = isAccessPointExists m apPath.
Proof.
  intros [Hvalid _ _] Hreg Hheap.
  assert (Hiff : isAccessPointExists m' apPath = true
                 <-> isAccessPointExists m apPath = true).
  { rewrite !isAccessPointExists_spec. unfold registered. rewrite Hreg.
    split; intros (p & Hp & Hpath); exists p; (split; [exact Hp|]);
      pose proof Hp as Hp';
      apply (elem_of_registered m) in Hp' as (d & aps & Hd & Hin);
      rewrite (deref_heap_app m m' l p Hheap) in * by eauto; exact Hpath. }
  destruct (isAccessPointExists m' apPath), (isAccessPointExists m apPath);
    try reflexivity.
  - symmetry. apply Hiff. reflexivity.
  - apply Hiff. reflexivity.
Qed.

Lemma addAccessPoint_fresh_state (w : World) (m : Manager) (dev apPath : string) :
  isAccessPointExists m apPath = false ->
  exists l,
    heap (addAccessPoint w dev apPath m) = heap m ++ l
    /\ (accepted w dev apPath = true -> l = [builtObject w dev apPath])
    /\ accessPoints (addAccessPoint w dev apPath m)
       = (if accepted w dev apPath
          then <[dev := apsOf m dev ++ [length (heap m)]]> (accessPoints m)
          else accessPoints m)
    /\ signals (addAccessPoint w dev apPath m)
       = signals m ++ (if announced w dev apPath
                       then [addedSignal w dev apPath] else []).
Proof.
  intros Hfresh. unfold addAccessPoint. rewrite Hfresh.
  unfold accepted, announced, addedSignal.
  destruct (newAccessPoint_cases w dev apPath m)
    as [(e & -> & ->)|[(-> & Hssid & ->)|(-> & Hssid & ->)]].
  - exists []. rewrite !app_nil_r. repeat split. discriminate.
  - exists [builtObject w dev apPath]. rewrite Hssid. simpl.
    rewrite app_nil_r. repeat split.
  - exists [builtObject w dev apPath].
    apply String.eqb_neq in Hssid. rewrite Hssid.
    remember (shouldBeIgnored (builtObject w dev apPath)) as ignored.
    destruct (ConnectPropertiesChanged w apPath), ignored; simpl;
      rewrite ?app_nil_r; repeat split.
Qed.

(** One [addAccessPoint] of a path the registry does not hold.  The path
    is registered exactly when the proxy can be created, the decoded SSID
    is not empty and the subscription to property changes works; it then
    goes to the end of the slice of the device.  AccessPointAdded is
    emitted exactly when the proxy can be created, the SSID is not empty
    and the object is not ignored.  A hidden access point (empty SSID) is
    neither registered nor announced.  The other devices and the objects
    built before are untouched. *)
Theorem addAccessPoint_fresh (w : World) (m : Manager) (dev apPath : string) :
  registryOK m ->
  isAccessPointExists m apPath = false ->
  isAccessPointExists (addAccessPoint w dev apPath m) apPath
  = accepted w dev apPath
  /\ apsOf (addAccessPoint w dev apPath m) dev
     = apsOf m dev ++ (if accepted w dev apPath then [length (heap m)] else [])
  /\ emitted m (addAccessPoint w dev apPath m)
     = (if announced w dev apPath then [addedSignal w dev apPath] else [])
  /\ (Ssid (builtObject w dev apPath) = "" ->
      accepted w dev apPath = false /\ announced w dev apPath = false)
  /\ (forall d, d <> dev ->
        accessPoints (addAccessPoint w dev apPath m) !! d = accessPoints m !! d)
  /\ (forall p, (p < length (heap m))%nat ->
        deref (addAccessPoint w dev apPath m) p = deref m p).
Proof.
  intros HOK Hfresh.
  destruct (addAccessPoint_fresh_state w m dev apPath Hfresh)
    as (l & Hheap & Hobj & Hreg & Hsig).
  set (m' := addAccessPoint w dev apPath m) in *.
  split; [|split; [|split; [|split; [|split]]]].
  - destruct (accepted w dev apPath) eqn:Hacc.
    + apply isAccessPointExists_spec. exists (length (heap m)). split.
      * apply elem_of_registered.
        exists dev, (apsOf m dev ++ [length (heap m)]). split.
        -- rewrite Hreg. apply lookup_insert_eq.
        -- apply elem_of_app. right. left.
      * unfold deref. rewrite Hheap, (Hobj eq_refl).
        rewrite list_lookup_middle by reflexivity. reflexivity.
    + rewrite (isAccessPointExists_extend m m' l apPath HOK Hreg Hheap).
      exact Hfresh.
  - unfold apsOf at 1. rewrite Hreg.
    destruct (accepted w dev apPath).
    + rewrite lookup_insert_eq. reflexivity.
    + rewrite app_nil_r. reflexivity.
  - unfold emitted. rewrite Hsig. apply drop_app_length.
  - intros Hssid. unfold accepted, announced. rewrite Hssid.
    destruct (nmNewAccessPoint w apPath); auto.
  - intros d Hd. rewrite Hreg. destruct (accepted w dev apPath); [|reflexivity].
    apply lookup_insert_ne. congruence.
  - intros p Hp. apply (deref_heap_app m m' l); assumption.
Qed.

(** A hidden access point, then a visible one, added to an empty
    registry. *)
Lemma addAccessPoint_fresh_witness :
  let dev := "/dev/wlan0" in
  let w := Scenario.world [("/ap/hidden", Scenario.props "" 0 0 0 50 2412);
                           ("/ap/1", Scenario.props "home" 0 0 0 50 2412)]
             (fun _ => None) [] apSecNone [] in
  let m := Scenario.manager [] [] [dev] in
  (isAccessPointExists (addAccessPoint w dev "/ap/hidden" m) "/ap/hidden" = false
   /\ emitted m (addAccessPoint w dev "/ap/hidden" m) = [])
  /\ (isAccessPointExists (addAccessPoint w dev "/ap/1" m) "/ap/1" = true
      /\ emitted m (addAccessPoint w dev "/ap/1" m) = [addedSignal w dev "/ap/1"]).
Proof.
  intros dev w m.
  assert (HOK : registryOK m) by (apply registryOK_empty; reflexivity).
  destruct (addAccessPoint_fresh w m dev "/ap/hidden" HOK eq_refl)
    as (Hex1 & _ & Hsig1 & _).
  destruct (addAccessPoint_fresh w m dev "/ap/1" HOK eq_refl)
    as (Hex2 & _ & Hsig2 & _).
  split; split; assumption.
Defined.

(** ** The listing after an add *)

(** Adding a path the registry does not hold, then listing.  The listing
    of the device is the one before, followed by the new access point when
    it was registered and is not ignored; the listings of the other devices
    do not change.  So an ignored access point, a hidden one, and one whose
    subscription failed are not listed. *)
Theorem GetAccessPoints_after_add (w : World) (m : Manager) (dev apPath : string) :
  registryOK m ->
  isAccessPointExists m apPath = false ->
  GetAccessPoints (addAccessPoint w dev apPath m) dev
  = GetAccessPoints m dev
    ++ (if accepted w dev apPath && negb (shouldBeIgnored (builtObject w dev apPath))
        then [marshalJSON (builtObject w dev apPath)] else [])
  /\ (forall d, d <> dev ->
        GetAccessPoints (addAccessPoint w dev apPath m) d = GetAccessPoints m d).
Proof.
  intros HOK Hfresh.
  destruct (addAccessPoint_fresh_state w m dev apPath Hfresh)
    as (l & Hheap & Hobj & Hreg & Hsig).
  set (m' := addAccessPoint w dev apPath m) in *.
  pose proof HOK as [Hvalid _ _].
  assert (Hold : forall d,
            map (fun p => marshalJSON (deref m' p))
              (List.filter (fun p => negb (shouldBeIgnored (deref m' p))) (apsOf m d))
            = map (fun p => marshalJSON (deref m p))
                (List.filter (fun p => negb (shouldBeIgnored (deref m p))) (apsOf m d))).
  { intros d.
    assert (Hd : forall p, In p (apsOf m d) -> deref m' p = deref m p).
    { intros p Hp. apply list_elem_of_In in Hp. unfold apsOf in Hp.
      destruct (accessPoints m !! d) as [aps|] eqn:Hlook; [|inversion Hp].
      apply (deref_heap_app m m' l); eauto. }
    induction (apsOf m d) as [|p aps IH]; simpl; [reflexivity|].
    rewrite (Hd p) by (left; reflexivity).
    specialize (IH (fun q Hq => Hd q (or_intror Hq))).
    destruct (shouldBeIgnored (deref m p)); simpl; [exact IH|].
    rewrite (Hd p) by (left; reflexivity). rewrite IH. reflexivity. }
  unfold GetAccessPoints. rewrite !filteredAccessPoints_filter. split.
  - destruct (accepted w dev apPath) eqn:Hacc; cbn [andb].
    + assert (Haps : apsOf m' dev = apsOf m dev ++ [length (heap m)])
        by (unfold apsOf at 1; rewrite Hreg, lookup_insert_eq; reflexivity).
      rewrite Haps.
      rewrite List.filter_app, map_app, Hold. f_equal.
      assert (Hnew : deref m' (length (heap m)) = builtObject w dev apPath).
      { unfold deref. rewrite Hheap, (Hobj eq_refl).
        rewrite list_lookup_middle by reflexivity. reflexivity. }
      remember (shouldBeIgnored (builtObject w dev apPath)) as ignored.
      cbn [List.filter]. rewrite Hnew, <- Heqignored.
      destruct ignored; cbn [negb map]; [reflexivity|].
      rewrite Hnew. reflexivity.
    + assert (Haps : apsOf m' dev = apsOf m dev)
        by (unfold apsOf; rewrite Hreg; reflexivity).
      rewrite Haps, app_nil_r. apply Hold.
  - intros d Hd.
    assert (Haps : apsOf m' d = apsOf m d).
    { unfold apsOf. rewrite Hreg. destruct (accepted w dev apPath); [|reflexivity].
      rewrite lookup_insert_ne by congruence. reflexivity. }
    rewrite !filteredAccessPoints_filter, Haps. apply Hold.
Qed.

(** A visible access point and then an ignored one are added: only the
    first is listed. *)
Lemma GetAccessPoints_after_add_witness :
  let dev := "/dev/wlan0" in
  let w := Scenario.world [("/ap/1", Scenario.props "home" 0 0 0 50 2412);
                           ("/ap/2", Scenario.props "cafe" 0 0 0 5 5180)]
             (fun _ => None) [] apSecNone [] in
  let m0 := Scenario.manager [] [] [dev] in
  let m1 := addAccessPoint w dev "/ap/1" m0 in
  GetAccessPoints m1 dev = [marshalJSON (builtObject w dev "/ap/1")]
  /\ GetAccessPoints (addAccessPoint w dev "/ap/2" m1) dev = GetAccessPoints m1 dev.
Proof.
  intros dev w m0 m1.
  assert (H0 : registryOK m0) by (apply registryOK_empty; reflexivity).
  assert (H1 : registryOK m1) by (apply registryOK_addAccessPoint; exact H0).
  split.
  - exact (proj1 (GetAccessPoints_after_add w m0 dev "/ap/1" H0 eq_refl)).
  - rewrite (proj1 (GetAccessPoints_after_add w m1 dev "/ap/2" H1 eq_refl)).
    apply app_nil_r.
Defined.
